(** * FMG Correspondence Management System: control numbers, unit filter,
      password reset and audit trail

    A shallow embedding of [memoranda_app_uat.py].  The two SQLite
    databases are explicit state; Python text is a [string] whose
    characters are 8-bit codes; SQL values are [option]s with [None] for
    NULL; the clock, the random token and the mail server are read from
    the state. *)

From Stdlib Require Import ZArith List String Ascii Bool Lia Permutation.
From Stdlib Require Import Numbers.DecimalString DecimalN DecimalPos.
From stdpp Require Import gmap strings.
Import ListNotations.

Local Open Scope string_scope.
Local Open Scope Z_scope.

(* ===================================================================== *)
(** ** Python and SQLite text primitives *)
(* ===================================================================== *)

Module Text.

Definition code (c : ascii) : N := N_of_ascii c.

(** [str.isspace] on the characters below 256. *)
Definition isspace (c : ascii) : bool :=
  let n := code c in
  ((9 <=? n) && (n <=? 13) || (28 <=? n) && (n <=? 32)
   || (n =? 133) || (n =? 160))%N.

Definition isdigit (c : ascii) : bool :=
  let n := code c in ((48 <=? n) && (n <=? 57))%N.

Definition digit_value (c : ascii) : Z := Z.of_N (code c) - 48.

Fixpoint lstrip (s : string) : string :=
  match s with
  | EmptyString => EmptyString
  | String c s' => if isspace c then lstrip s' else s
  end.

Fixpoint rstrip (s : string) : string :=
  match s with
  | EmptyString => EmptyString
  | String c s' =>
      match rstrip s' with
      | EmptyString => if isspace c then EmptyString else String c EmptyString
      | r => String c r
      end
  end.

(** [s.strip()] *)
Definition strip (s : string) : string := rstrip (lstrip s).

(** [s.split(sep)] for a one-character separator: never empty. *)
Fixpoint split (sep : ascii) (s : string) : list string :=
  match s with
  | EmptyString => [EmptyString]
  | String c s' =>
      if Ascii.eqb c sep then EmptyString :: split sep s'
      else match split sep s' with
           | h :: t => String c h :: t
           | [] => [String c EmptyString]
           end
  end.

(** [xs[-1]] on a list that [split] produced. *)
Definition last_item (xs : list string) : string := List.last xs EmptyString.

(** Digits of a decimal literal as [int()] reads them: single underscores
    are allowed between digits only.  [sep] tells that the previous
    character was not a digit (start of the literal or an underscore). *)
Fixpoint int_digits (acc : Z) (sep : bool) (s : string) : option Z :=
  match s with
  | EmptyString => if sep then None else Some acc
  | String c s' =>
      if isdigit c then int_digits (acc * 10 + digit_value c) false s'
      else if Ascii.eqb c "_" then
             (if sep then None else int_digits acc true s')
           else None
  end.

(** [int(s)]; [None] stands for the [ValueError]. *)
Definition int (s : string) : option Z :=
  match strip s with
  | String "+" r => int_digits 0 true r
  | String "-" r => option_map Z.opp (int_digits 0 true r)
  | t => int_digits 0 true t
  end.

Definition dec (n : Z) : string :=
  NilEmpty.string_of_uint (N.to_uint (Z.to_N n)).

Fixpoint zeros (k : nat) : string :=
  match k with O => EmptyString | S k' => String "0" (zeros k') end.

(** [f"{n:0{w}d}"]: sign first, then zeros up to width [w]. *)
Definition zfill_d (w : nat) (n : Z) : string :=
  let sign := if (n <? 0)%Z then "-" else "" in
  let body := dec (Z.abs n) in
  sign +:+ zeros (w - String.length sign - String.length body) +:+ body.

(** ASCII-only case folding, as SQLite's [LOWER] and [LIKE] do it. *)
Definition tolower (c : ascii) : ascii :=
  let n := code c in
  if ((65 <=? n) && (n <=? 90))%N then ascii_of_N (n + 32) else c.

Fixpoint lower (s : string) : string :=
  match s with
  | EmptyString => EmptyString
  | String c s' => String (tolower c) (lower s')
  end.

Definition eq_nocase (a b : ascii) : bool := Ascii.eqb (tolower a) (tolower b).

(** SQLite's [LIKE] without ESCAPE: [%] matches any run of characters,
    [_] exactly one character, every other character itself up to ASCII
    case. *)
Fixpoint like (pat s : string) : bool :=
  match pat with
  | EmptyString => match s with EmptyString => true | _ => false end
  | String p pat' =>
      if Ascii.eqb p "%" then
        (fix any (t : string) : bool :=
           like pat' t
           || match t with
              | EmptyString => false
              | String _ t' => any t'
              end) s
      else
        match s with
        | EmptyString => false
        | String c s' =>
            (Ascii.eqb p "_" || eq_nocase p c) && like pat' s'
        end
  end.


(** Byte order on text (SQLite's BINARY collation). *)
Definition leb (a b : string) : bool := String.leb a b.
Definition ltb (a b : string) : bool := String.ltb a b.

End Text.

(* ===================================================================== *)
(** ** SQL values, three-valued conditions and ORDER BY *)
(* ===================================================================== *)

Module Sql.

(** A TEXT column: [None] is NULL. *)
Definition text := option string.

(** The value of a condition: TRUE, FALSE or NULL. *)
Definition cond := option bool.

Definition and3 (a b : cond) : cond :=
  match a, b with
  | Some false, _ | _, Some false => Some false
  | Some true, Some true => Some true
  | _, _ => None
  end.

Definition or3 (a b : cond) : cond :=
  match a, b with
  | Some true, _ | _, Some true => Some true
  | Some false, Some false => Some false
  | _, _ => None
  end.

(** [col LIKE ?] *)
Definition like3 (col : text) (pat : string) : cond :=
  option_map (Text.like pat) col.

(** [col >= ?] and [col <= ?] on text *)
Definition ge3 (col : text) (v : string) : cond :=
  option_map (fun c => Text.leb v c) col.
Definition le3 (col : text) (v : string) : cond :=
  option_map (fun c => Text.leb c v) col.

(** [col IN (?, ..., ?)] with text parameters *)
Definition in3 (col : text) (vs : list string) : cond :=
  option_map (fun c => existsb (String.eqb c) vs) col.

(** A row is selected when its WHERE condition is TRUE. *)
Definition holds (c : cond) : bool :=
  match c with Some true => true | _ => false end.

(** [x OR y OR ... OR z], for a non-empty list of conditions *)
Definition or_join (cs : list cond) : cond :=
  match cs with
  | [] => Some false
  | c :: cs' => fold_left or3 cs' c
  end.

(** Ascending order of a nullable text column: NULL sorts first. *)
Definition text_leb (a b : text) : bool :=
  match a, b with
  | None, _ => true
  | Some _, None => false
  | Some x, Some y => Text.leb x y
  end.

Section OrderBy.
Context {A : Type} (le : A -> A -> bool).

Fixpoint insert_sorted (x : A) (l : list A) : list A :=
  match l with
  | [] => [x]
  | y :: l' => if le x y then x :: l else y :: insert_sorted x l'
  end.

(** Rows that compare equal keep their table order. *)
Fixpoint order_by (l : list A) : list A :=
  match l with
  | [] => []
  | x :: l' => insert_sorted x (order_by l')
  end.
End OrderBy.

(** AUTOINCREMENT: one more than every rowid used so far. *)
Definition next_rowid (seq : Z) (ids : list Z) : Z :=
  fold_right Z.max seq ids + 1.

End Sql.

(* ===================================================================== *)
(** ** Clock *)
(* ===================================================================== *)

Record datetime := {
  year : Z; month : Z; day : Z;
  hour : Z; minute : Z; second : Z; microsecond : Z
}.

Definition is_leap (y : Z) : bool :=
  ((y mod 4 =? 0) && negb (y mod 100 =? 0)) || (y mod 400 =? 0).

Definition days_in_month (y m : Z) : Z :=
  if m =? 2 then (if is_leap y then 29 else 28)
  else if (m =? 4) || (m =? 6) || (m =? 9) || (m =? 11) then 30 else 31.

(** [dt + timedelta(minutes=30)] *)
Definition plus_30_minutes (dt : datetime) : datetime :=
  let mi := minute dt + 30 in
  let '(mi, ch) := if mi <? 60 then (mi, 0) else (mi - 60, 1) in
  let h := hour dt + ch in
  let '(h, cd) := if h <? 24 then (h, 0) else (h - 24, 1) in
  let d := day dt + cd in
  let '(d, cm) := if d <=? days_in_month (year dt) (month dt)
                  then (d, 0) else (1, 1) in
  let mo := month dt + cm in
  let '(mo, cy) := if mo <=? 12 then (mo, 0) else (1, 1) in
  {| year := year dt + cy; month := mo; day := d;
     hour := h; minute := mi; second := second dt;
     microsecond := microsecond dt |}.

(** [dt.isoformat()] *)
Definition isoformat (dt : datetime) : string :=
  Text.zfill_d 4 (year dt) +:+ "-" +:+ Text.zfill_d 2 (month dt) +:+ "-"
  +:+ Text.zfill_d 2 (day dt) +:+ "T" +:+ Text.zfill_d 2 (hour dt) +:+ ":"
  +:+ Text.zfill_d 2 (minute dt) +:+ ":" +:+ Text.zfill_d 2 (second dt)
  +:+ (if microsecond dt =? 0 then ""
       else "." +:+ Text.zfill_d 6 (microsecond dt)).

(** [dt.strftime("%y")]: the year without its century, two digits. *)
Definition yymm (dt : datetime) : string := Text.zfill_d 2 (year dt mod 100).

(* ===================================================================== *)
(** ** Tables *)
(* ===================================================================== *)

Module Memo.
Record t := {
  id : Z;
  control_no : Sql.text;   (* UNIQUE *)
  date_log : Sql.text;
  date_doc : Sql.text;
  memo_from : Sql.text;
  thru : Sql.text;
  memo_for : Sql.text;
  subject : Sql.text;
  category : Sql.text;
  status : Sql.text;
  notes : Sql.text;
  created_at : Sql.text;
  updated_at : Sql.text
}.
End Memo.

Module MemoFile.
Record t := {
  id : Z; memo_id : Z;
  filename : Sql.text; filepath : Sql.text; uploaded_at : Sql.text
}.
End MemoFile.

Module User.
Record t := {
  id : Z;
  username : Sql.text;
  email : Sql.text;
  password_hash : Sql.text;
  password_salt : Sql.text;
  role : Sql.text;
  is_active : option Z;
  created_at : Sql.text
}.
End User.

Module Audit.
Record t := {
  id : Z;
  ts : Sql.text;
  user_id : option Z;      (* REFERENCES users(id) *)
  action : Sql.text;
  memo_id : option Z;
  details : Sql.text
}.
End Audit.

Module Token.
Record t := {
  id : Z;
  user_id : Z;
  token : string;
  expires_at : string;
  created_at : string
}.
End Token.

(** The memoranda database ([DB_PATH]). *)
Record memo_db := {
  settings : gmap string Sql.text;          (* key PRIMARY KEY -> value *)
  control_prefixes : gmap string string;    (* unit_name PRIMARY KEY -> prefix *)
  memos : list Memo.t;
  memos_seq : Z;
  memo_files : list MemoFile.t;
  memo_files_seq : Z;
  mirror_users : list User.t;               (* the legacy [users] table *)
  audit_trail : list Audit.t;
  audit_seq : Z
}.

(** The user database ([USERS_DB_PATH]). *)
Record user_db := {
  users : list User.t;
  password_reset_tokens : list Token.t;
  tokens_seq : Z
}.

(** Exceptions.  Only [RerunException] (raised by [st.rerun()]) is outside
    the [Exception] hierarchy. *)
Inductive exn :=
| IntegrityError (msg : string)
| OperationalError (msg : string)
| ValueError (msg : string)
| RerunException.

Definition is_Exception (e : exn) : bool :=
  match e with RerunException => false | _ => true end.

Inductive result (A : Type) :=
| Ok (a : A)
| Raise (e : exn).
Arguments Ok {A} a.
Arguments Raise {A} e.

(** The signed-in user kept in [st.session_state["user"]]. *)
Record session_user := {
  su_id : option Z;
  su_username : Sql.text;
  su_role : Sql.text;
  su_units : list string
}.

(** What a run reads from outside the databases. *)
Record smtp_conf := {
  smtp_host : option string; smtp_port : option Z;
  smtp_username : option string; smtp_password : option string;
  smtp_use_tls : option bool; smtp_sender : option string
}.

Record env := {
  now : datetime;                       (* datetime.now() *)
  utcnow : datetime;                    (* datetime.utcnow() *)
  os_urandom : string;                  (* os.urandom(16).hex() *)
  pbkdf2_hmac : string -> string -> string;
  secrets_choice : nat -> nat;          (* index picked by the i-th secrets.choice *)
  secrets_smtp : result (option smtp_conf);   (* st.secrets.get("smtp") *)
  smtp_deliver : smtp_conf -> string -> string -> option string;
                                        (* the error text, if sending raised *)
  files_dir : string                    (* FILES_DIR *)
}.

Definition today_ts (e : env) : string := isoformat (now e).

(* ===================================================================== *)
(** ** Settings and control prefixes *)
(* ===================================================================== *)

Definition get_setting (key : string) (default : option string)
    (db : memo_db) : option string :=
  match settings db !! key with
  | Some value => value        (* row[0] *)
  | None => default
  end.

Definition get_unit_prefix (unit_name : string) (db : memo_db)
    : option string :=
  if String.eqb unit_name "" then
    get_setting "control_prefix" (Some "MEMO") db
  else
    match control_prefixes db !! unit_name with
    | Some prefix => Some prefix
    | None => get_setting "control_prefix" (Some "MEMO") db
    end.

Definition role_in (role : Sql.text) (names : list string) : bool :=
  match role with
  | Some r => existsb (String.eqb r) names
  | None => false
  end.

(** The prefix chosen on the New Memorandum page.  [new_memo_units] is the
    session entry of that name, [None] when absent. *)
Definition new_memo_sel_units (role_curr : Sql.text)
    (new_memo_units : option (list string)) (current_units : list string)
    : list string :=
  if role_in role_curr ["super"; "admin"] then
    match new_memo_units with Some us => us | None => [] end
  else current_units.

Definition new_memo_unit_prefix (role_curr : Sql.text)
    (new_memo_units : option (list string)) (current_units : list string)
    (db : memo_db) : option string :=
  match new_memo_sel_units role_curr new_memo_units current_units with
  | u :: _ => get_unit_prefix u db
  | [] =>
      match current_units with
      | u :: _ => get_unit_prefix u db
      | [] => get_setting "control_prefix" (Some "MEMO") db
      end
  end.

(* ===================================================================== *)
(** ** Control numbers *)
(* ===================================================================== *)

Definition parse_control_sequence (control_no : string) : option Z :=
  let seq_part := Text.strip (Text.last_item (Text.split "-" control_no)) in
  Text.int seq_part.

(** The control numbers the LIKE filter keeps, in table order. *)
Definition matching_control_nos (like_pattern : string) (db : memo_db)
    : list string :=
  omap (fun m =>
          match Memo.control_no m with
          | Some cn => if Text.like like_pattern cn then Some cn else None
          | None => None
          end) (memos db).

(** [SELECT control_no FROM memos WHERE control_no LIKE ? ORDER BY
    control_no DESC] *)
Definition select_control_no_like (like_pattern : string) (db : memo_db)
    : list string :=
  Sql.order_by (fun a b => Text.leb b a)
    (matching_control_nos like_pattern db).

Definition bump_last_seq (last_seq : Z) (cn : string) : Z :=
  match parse_control_sequence cn with
  | Some seq => if negb (seq =? 0) && (last_seq <? seq) then seq else last_seq
  | None => last_seq
  end.

Definition next_control_no (e : env) (prefix : string) (db : memo_db)
    : string :=
  let yy := yymm (now e) in
  let like_pattern := prefix +:+ " " +:+ yy +:+ "-%" in
  let rows := select_control_no_like like_pattern db in
  let last_seq := fold_left bump_last_seq rows 0 in
  prefix +:+ " " +:+ yy +:+ "-" +:+ Text.zfill_d 3 (last_seq + 1).

(** The same call with the database threaded through, as every function
    that opens a connection is run. *)
Definition run_next_control_no (e : env) (prefix : string) (db : memo_db)
    : string * memo_db :=
  (next_control_no e prefix db, db).

(** An f-string field holding an [Optional[str]]. *)
Definition fmt_optional (x : option string) : string :=
  match x with Some s => s | None => "None" end.

(** [suggested] on the New Memorandum page *)
Definition new_memo_suggested (e : env) (role_curr : Sql.text)
    (new_memo_units : option (list string)) (current_units : list string)
    (db : memo_db) : string :=
  next_control_no e
    (fmt_optional
       (new_memo_unit_prefix role_curr new_memo_units current_units db))
    db.

(** The largest of a list of sequence numbers, 0 for none. *)
Definition max_seq (seqs : list Z) : Z := fold_right Z.max 0 seqs.

(* ===================================================================== *)
(** ** The memo listings (Dashboard, Monitor / Manage) *)
(* ===================================================================== *)

Record filters := {
  f_start : string;            (* str(start) *)
  f_end : string;              (* str(end) *)
  f_q : string;
  f_cat : list string;
  f_status : list string
}.

Definition not_blank (s : string) : bool := negb (String.eqb s "").

(** The WHERE text built before the unit restriction. *)
Definition filter_where (f : filters) (m : Memo.t) : Sql.cond :=
  let c := Sql.and3 (Sql.ge3 (Memo.date_log m) (f_start f))
                    (Sql.le3 (Memo.date_log m) (f_end f)) in
  let c :=
    if not_blank (f_q f) then
      let like := "%" +:+ f_q f +:+ "%" in
      Sql.and3 c
        (Sql.or_join [Sql.like3 (Memo.subject m) like;
                      Sql.like3 (Memo.memo_from m) like;
                      Sql.like3 (Memo.memo_for m) like;
                      Sql.like3 (Memo.notes m) like])
    else c in
  let c :=
    match f_cat f with
    | [] => c
    | cats => Sql.and3 c (Sql.in3 (Memo.category m) cats)
    end in
  match f_status f with
  | [] => c
  | sts => Sql.and3 c (Sql.in3 (Memo.status m) sts)
  end.

Definition is_admin_role (role : Sql.text) : bool :=
  match role with Some r => String.eqb r "admin" | None => false end.

(** [memo_for LIKE ? OR ... OR memo_for LIKE ?] with ["%{u}%"] per unit *)
Definition unit_conds (units : list string) (m : Memo.t) : Sql.cond :=
  Sql.or_join
    (map (fun u => Sql.like3 (Memo.memo_for m) ("%" +:+ u +:+ "%")) units).

(** The restriction appended for the signed-in user. *)
Definition unit_where (current_user : option session_user) (c : Sql.cond)
    (m : Memo.t) : Sql.cond :=
  match current_user with
  | Some u =>
      if negb (is_admin_role (su_role u)) then
        match su_units u with
        | [] => Sql.and3 c (Some false)              (* AND 1=0 *)
        | units => Sql.and3 c (unit_conds units m)
        end
      else c
  | None => c
  end.

(** [memo_for] matches [LIKE '%unit%'] for one of the units. *)
Definition memo_matches_units (units : list string) (m : Memo.t) : bool :=
  Sql.holds (unit_conds units m).


Definition with_memos (db : memo_db) (ms : list Memo.t) : memo_db :=
  {| settings := settings db;
     control_prefixes := control_prefixes db;
     memos := ms; memos_seq := memos_seq db;
     memo_files := memo_files db; memo_files_seq := memo_files_seq db;
     mirror_users := mirror_users db;
     audit_trail := audit_trail db; audit_seq := audit_seq db |}.

Definition listing_where (current_user : option session_user) (f : filters)
    (m : Memo.t) : Sql.cond :=
  unit_where current_user (filter_where f m) m.

(** [ORDER BY date_log DESC, control_no DESC] *)
Definition listing_order (a b : Memo.t) : bool :=
  if Sql.text_leb (Memo.date_log a) (Memo.date_log b) then
    if Sql.text_leb (Memo.date_log b) (Memo.date_log a) then
      Sql.text_leb (Memo.control_no b) (Memo.control_no a)
    else false
  else true.

(** The memos a listing query selects, in result order. *)
Definition listing_select (current_user : option session_user) (f : filters)
    (db : memo_db) : list Memo.t :=
  Sql.order_by listing_order
    (List.filter (fun m => Sql.holds (listing_where current_user f m))
       (memos db)).

(** A result row: the id and the text columns in SELECT order. *)
Definition dashboard_columns (m : Memo.t) : Z * list Sql.text :=
  (Memo.id m,
   [Memo.control_no m; Memo.date_log m; Memo.date_doc m; Memo.memo_from m;
    Memo.memo_for m; Memo.subject m; Memo.notes m; Memo.category m;
    Memo.status m]).

Definition monitor_columns (m : Memo.t) : Z * list Sql.text :=
  (Memo.id m,
   [Memo.control_no m; Memo.date_log m; Memo.date_doc m; Memo.subject m;
    Memo.category m; Memo.status m; Memo.memo_from m; Memo.memo_for m;
    Memo.thru m; Memo.notes m; Memo.updated_at m]).

Definition dashboard_query (current_user : option session_user) (f : filters)
    (db : memo_db) : list (Z * list Sql.text) :=
  map dashboard_columns (listing_select current_user f db).

Definition monitor_query (current_user : option session_user) (f : filters)
    (db : memo_db) : list (Z * list Sql.text) :=
  map monitor_columns (listing_select current_user f db).

(* ===================================================================== *)
(** ** Audit trail *)
(* ===================================================================== *)

(** [INSERT INTO audit_trail ...] with foreign keys on: a non-NULL
    [user_id] must name a row of the memo database's [users] table. *)
Definition insert_audit_trail (ts : string) (uid : option Z) (action : string)
    (memo_id : option Z) (details : string) (db : memo_db) : result memo_db :=
  let fk_ok :=
    match uid with
    | None => true
    | Some i => existsb (fun u => User.id u =? i) (mirror_users db)
    end in
  if fk_ok then
    let rowid := Sql.next_rowid (audit_seq db) (map Audit.id (audit_trail db)) in
    Ok {| settings := settings db;
          control_prefixes := control_prefixes db;
          memos := memos db; memos_seq := memos_seq db;
          memo_files := memo_files db; memo_files_seq := memo_files_seq db;
          mirror_users := mirror_users db;
          audit_trail :=
            audit_trail db ++
            [{| Audit.id := rowid; Audit.ts := Some ts; Audit.user_id := uid;
                Audit.action := Some action; Audit.memo_id := memo_id;
                Audit.details := Some details |}];
          audit_seq := rowid |}
  else Raise (IntegrityError "FOREIGN KEY constraint failed").

(** [try: body  except Exception: pass], on a body that commits last: a
    raise leaves the database as it was. *)
Definition try_except_Exception_pass {S : Type} (body : result S) (s0 : S)
    : result S :=
  match body with
  | Ok s => Ok s
  | Raise ex => if is_Exception ex then Ok s0 else Raise ex
  end.

Definition log_action (e : env) (user : option session_user)
    (action : string) (memo_id : option Z) (details : string) (db : memo_db)
    : result memo_db :=
  try_except_Exception_pass
    (let uid := match user with Some u => su_id u | None => None end in
     insert_audit_trail (today_ts e) uid action memo_id details db)
    db.

(* ===================================================================== *)
(** ** New Memorandum: the save handler *)
(* ===================================================================== *)

Inductive ui :=
| st_error (msg : string)
| st_warning (msg : string)
| st_success (msg : string)
| st_balloons.

(** [INSERT INTO memos (...) VALUES (...)]: [control_no] is UNIQUE, and
    NULLs never collide. *)
Definition insert_memo (row : Memo.t) (db : memo_db) : result Z * memo_db :=
  let clash :=
    match Memo.control_no row with
    | Some cn =>
        existsb (fun m => match Memo.control_no m with
                          | Some cn' => String.eqb cn' cn
                          | None => false
                          end) (memos db)
    | None => false
    end in
  if clash then
    (Raise (IntegrityError "UNIQUE constraint failed: memos.control_no"), db)
  else
    let rowid := Sql.next_rowid (memos_seq db) (map Memo.id (memos db)) in
    (Ok rowid,
     {| settings := settings db;
        control_prefixes := control_prefixes db;
        memos := memos db ++
          [{| Memo.id := rowid;
              Memo.control_no := Memo.control_no row;
              Memo.date_log := Memo.date_log row;
              Memo.date_doc := Memo.date_doc row;
              Memo.memo_from := Memo.memo_from row;
              Memo.thru := Memo.thru row;
              Memo.memo_for := Memo.memo_for row;
              Memo.subject := Memo.subject row;
              Memo.category := Memo.category row;
              Memo.status := Memo.status row;
              Memo.notes := Memo.notes row;
              Memo.created_at := Memo.created_at row;
              Memo.updated_at := Memo.updated_at row |}];
        memos_seq := rowid;
        memo_files := memo_files db; memo_files_seq := memo_files_seq db;
        mirror_users := mirror_users db;
        audit_trail := audit_trail db; audit_seq := audit_seq db |}).

(** [os.path.join(a, b)] on POSIX *)
Definition path_join (a b : string) : string :=
  if String.prefix "/" b then b
  else if String.eqb a "" then b
  else if String.eqb (String.substring (String.length a - 1) 1 a) "/"
       then a +:+ b
       else a +:+ "/" +:+ b.

(** The rows [save_files] adds; the bytes written under [FILES_DIR] are not
    part of the state.  An upload is its name and content. *)
Fixpoint save_files_rows (e : env) (memo_dir : string)
    (files : list (string * string)) (memo_id : Z) (seq : Z)
    : list MemoFile.t :=
  match files with
  | [] => []
  | (fname, _) :: rest =>
      {| MemoFile.id := seq + 1; MemoFile.memo_id := memo_id;
         MemoFile.filename := Some fname;
         MemoFile.filepath := Some (path_join memo_dir fname);
         MemoFile.uploaded_at := Some (today_ts e) |}
      :: save_files_rows e memo_dir rest memo_id (seq + 1)
  end.

Definition save_files (e : env) (files : list (string * string)) (memo_id : Z)
    (db : memo_db) : result (list (string * string)) * memo_db :=
  match files with
  | [] => (Ok [], db)
  | _ =>
      let memo_dir :=
        path_join (files_dir e) ("memo_" +:+ Text.zfill_d 0 memo_id) in
      if existsb (fun m => Memo.id m =? memo_id) (memos db) then
        let seq := fold_right Z.max (memo_files_seq db)
                     (map MemoFile.id (memo_files db)) in
        let rows := save_files_rows e memo_dir files memo_id seq in
        (Ok (map (fun f => (fst f, path_join memo_dir (fst f))) files),
         {| settings := settings db;
            control_prefixes := control_prefixes db;
            memos := memos db; memos_seq := memos_seq db;
            memo_files := memo_files db ++ rows;
            memo_files_seq := seq + Z.of_nat (length files);
            mirror_users := mirror_users db;
            audit_trail := audit_trail db; audit_seq := audit_seq db |})
      else (Raise (IntegrityError "FOREIGN KEY constraint failed"), db)
  end.

Record memo_form := {
  memo_control_no : option string;   (* st.session_state.get(ctrl_key) *)
  in_date_log : string;              (* str(date_log) *)
  in_date_doc : string;
  in_memo_from : string;
  in_thru : string;
  in_subject : string;
  in_category : string;
  in_status : string;
  in_notes : string;
  in_files : list (string * string)
}.

Definition join_comma (xs : list string) : string :=
  match xs with
  | [] => ""
  | x :: xs' => fold_left (fun acc y => acc +:+ ", " +:+ y) xs' x
  end.

Definition session_units (user : option session_user) : list string :=
  match user with Some u => su_units u | None => [] end.

Definition session_role (user : option session_user) : Sql.text :=
  match user with Some u => su_role u | None => None end.

(** The units a saved memorandum is tagged with. *)
Definition save_memo_for_units (role_curr : Sql.text)
    (new_memo_units : option (list string)) (current_units : list string)
    : list string :=
  if role_in role_curr ["super"; "admin"] then
    match new_memo_units with Some us => us | None => current_units end
  else current_units.

(** One press of "Save Memorandum".  The result is what the page shows and
    the database it leaves; [Raise] is an exception the page does not
    handle. *)
Definition save_memorandum (e : env) (user : option session_user)
    (new_memo_units : option (list string)) (form : memo_form) (db : memo_db)
    : result (list ui) * memo_db :=
  let current_units := session_units user in
  let role_curr := session_role user in
  if negb (role_in role_curr ["admin"; "super"; "user"]) then
    (Ok [st_warning
           "Only Users, Super Users and Admins can create new memoranda."], db)
  else
    let memo_for_units :=
      save_memo_for_units role_curr new_memo_units current_units in
    match memo_control_no form with
    | None => (Ok [st_error "Memorandum Control No. is required."], db)
    | Some ctrl =>
        if String.eqb ctrl "" then
          (Ok [st_error "Memorandum Control No. is required."], db)
        else if String.eqb (in_subject form) "" then
          (Ok [st_error "Subject is required."], db)
        else
          match memo_for_units with
          | [] =>
              (Ok [st_error
                "At least one division/unit is required to tag this memorandum."],
               db)
          | _ =>
              let now_iso := today_ts e in
              let memo_for_str := join_comma (map Text.strip memo_for_units) in
              let row :=
                {| Memo.id := 0;
                   Memo.control_no := Some (Text.strip ctrl);
                   Memo.date_log := Some (in_date_log form);
                   Memo.date_doc := Some (in_date_doc form);
                   Memo.memo_from := Some (Text.strip (in_memo_from form));
                   Memo.thru := Some (Text.strip (in_thru form));
                   Memo.memo_for := Some memo_for_str;
                   Memo.subject := Some (Text.strip (in_subject form));
                   Memo.category := Some (in_category form);
                   Memo.status := Some (in_status form);
                   Memo.notes := Some (Text.strip (in_notes form));
                   Memo.created_at := Some now_iso;
                   Memo.updated_at := Some now_iso |} in
              match insert_memo row db with
              | (Raise (IntegrityError _), db1) =>
                  (Ok [st_error
                         "Control No. already exists. Please use another."],
                   db1)
              | (Raise ex, db1) => (Raise ex, db1)
              | (Ok memo_id, db1) =>
                  match save_files e (in_files form) memo_id db1 with
                  | (Raise (IntegrityError _), db2) =>
                      (Ok [st_error
                             "Control No. already exists. Please use another."],
                       db2)
                  | (Raise ex, db2) => (Raise ex, db2)
                  | (Ok saved, db2) =>
                      match log_action e user "memo_create" (Some memo_id)
                              ("control=" +:+ Text.strip ctrl) db2 with
                      | Raise ex => (Raise ex, db2)
                      | Ok db3 =>
                          (Ok [st_success
                                 ("Memorandum saved (ID: "
                                  +:+ Text.zfill_d 0 memo_id +:+ "). "
                                  +:+ Text.zfill_d 0 (Z.of_nat (length saved))
                                  +:+ " file(s) attached.");
                               st_balloons],
                           db3)
                      end
                  end
              end
          end
    end.

(* ===================================================================== *)
(** ** Clearing a memo *)
(* ===================================================================== *)

Definition wipe (updated : string) (m : Memo.t) : Memo.t :=
  {| Memo.id := Memo.id m;
     Memo.control_no := Memo.control_no m;
     Memo.date_log := None;
     Memo.date_doc := None;
     Memo.memo_from := Some "";
     Memo.thru := Some "";
     Memo.memo_for := Some "";
     Memo.subject := Some "";
     Memo.category := Memo.category m;
     Memo.status := Memo.status m;
     Memo.notes := Some "";
     Memo.created_at := Memo.created_at m;
     Memo.updated_at := Some updated |}.

(** [UPDATE memos SET ... WHERE id=?] *)
Definition clear_memo_contents (e : env) (memo_id : Z) (db : memo_db)
    : memo_db :=
  {| settings := settings db;
     control_prefixes := control_prefixes db;
     memos := map (fun m => if Memo.id m =? memo_id
                            then wipe (today_ts e) m else m) (memos db);
     memos_seq := memos_seq db;
     memo_files := memo_files db; memo_files_seq := memo_files_seq db;
     mirror_users := mirror_users db;
     audit_trail := audit_trail db; audit_seq := audit_seq db |}.

(* ===================================================================== *)
(** ** Password reset *)
(* ===================================================================== *)

Record dbs := { udb : user_db; mdb : memo_db }.

(** [hash_password(password)] with a fresh salt: (salt_hex, hash_hex) *)
Definition hash_password (e : env) (password : string) : string * string :=
  (os_urandom e, pbkdf2_hmac e password (os_urandom e)).

(** [DELETE FROM password_reset_tokens WHERE expires_at < ?] *)
Definition purge_expired_reset_tokens (e : env) (db : user_db) : user_db :=
  let now_iso := isoformat (utcnow e) in
  {| users := users db;
     password_reset_tokens :=
       List.filter (fun t => negb (Text.ltb (Token.expires_at t) now_iso))
         (password_reset_tokens db);
     tokens_seq := tokens_seq db |}.

Fixpoint draw_digits (e : env) (i n : nat) : string :=
  match n with
  | O => ""
  | S n' =>
      String (ascii_of_nat (48 + Nat.modulo (secrets_choice e i) 10))
        (draw_digits e (S i) n')
  end.

Definition generate_reset_token (e : env) : string := draw_digits e 0 6.

Definition truthy_text (x : option string) : bool :=
  match x with Some s => not_blank s | None => false end.

Definition send_reset_email (e : env) (to_email token : string)
    : bool * string :=
  let missing :=
    "SMTP configuration not found. Please define [smtp] in .streamlit/secrets.toml." in
  match secrets_smtp e with
  | Raise _ => (false, missing)
  | Ok None => (false, missing)
  | Ok (Some conf) =>
      if truthy_text (smtp_host conf)
         && match smtp_port conf with Some p => negb (p =? 0) | None => false end
         && truthy_text (smtp_username conf)
         && truthy_text (smtp_password conf)
      then
        match smtp_deliver e conf to_email token with
        | None => (true, "A reset token has been sent to your email.")
        | Some err => (false, "Failed to send email: " +:+ err)
        end
      else
        (false,
         "Incomplete SMTP configuration. Ensure host, port, username, and password are set.")
  end.

(** [LOWER(u.email) = LOWER(?)] *)
Definition email_matches (u : User.t) (email : string) : bool :=
  match User.email u with
  | Some em => String.eqb (Text.lower em) (Text.lower email)
  | None => false
  end.

(** The order in which a scan for an email reads the [users] table: SQLite
    runs it over the UNIQUE index on [email], whose entries are in byte
    order, NULL first. *)
Definition users_by_email (us : list User.t) : list User.t :=
  Sql.order_by (fun a b => Sql.text_leb (User.email a) (User.email b)) us.

(** [SELECT id FROM users WHERE LOWER(email)=LOWER(?)] takes, with
    [fetchone()], the first match of that scan. *)
Definition create_password_reset_token (e : env) (email : string)
    (db : user_db) : (bool * string) * user_db :=
  if String.eqb email "" then ((false, "Email is required."), db)
  else
    match List.find (fun u => email_matches u (Text.strip email))
            (users_by_email (users db)) with
    | None => ((false, "No account found with that email."), db)
    | Some u =>
        let user_id := User.id u in
        let db1 := purge_expired_reset_tokens e db in
        let token := generate_reset_token e in
        let expires_at := isoformat (plus_30_minutes (utcnow e)) in
        let created_at := isoformat (utcnow e) in
        let rowid := Sql.next_rowid (tokens_seq db1)
                       (map Token.id (password_reset_tokens db1)) in
        let db2 :=
          {| users := users db1;
             password_reset_tokens :=
               password_reset_tokens db1 ++
               [{| Token.id := rowid; Token.user_id := user_id;
                   Token.token := token; Token.expires_at := expires_at;
                   Token.created_at := created_at |}];
             tokens_seq := rowid |} in
        (send_reset_email e (Text.strip email) token, db2)
    end.

(** The rows of [password_reset_tokens pr JOIN users u ON pr.user_id = u.id
    WHERE LOWER(u.email)=LOWER(?) AND pr.token = ? AND pr.expires_at > ?],
    [ORDER BY pr.created_at DESC]. *)
Definition matching_reset_rows (email token now_iso : string) (db : user_db)
    : list Token.t :=
  Sql.order_by (fun a b => Text.leb (Token.created_at b) (Token.created_at a))
    (flat_map
       (fun pr =>
          map (fun _ => pr)
            (List.filter
               (fun u => (Token.user_id pr =? User.id u)
                         && email_matches u email
                         && String.eqb (Token.token pr) token
                         && Text.ltb now_iso (Token.expires_at pr))
               (users db)))
       (password_reset_tokens db)).

Definition validate_password_reset_token (e : env) (email token : string)
    (db : user_db) : option Z * user_db :=
  if String.eqb email "" || String.eqb token "" then (None, db)
  else
    let db1 := purge_expired_reset_tokens e db in
    match matching_reset_rows (Text.strip email) (Text.strip token)
            (isoformat (utcnow e)) db1 with
    | row :: _ => (Some (Token.user_id row), db1)      (* LIMIT 1 *)
    | [] => (None, db1)
    end.

Definition set_password (pw_hash salt : string) (u : User.t) : User.t :=
  {| User.id := User.id u; User.username := User.username u;
     User.email := User.email u;
     User.password_hash := Some pw_hash; User.password_salt := Some salt;
     User.role := User.role u; User.is_active := User.is_active u;
     User.created_at := User.created_at u |}.

Definition update_users_password (pw_hash salt : string) (user_id : Z)
    (us : list User.t) : list User.t :=
  map (fun u => if User.id u =? user_id then set_password pw_hash salt u else u)
      us.

(** [UPDATE users SET password_hash=?, password_salt=?, updated_at=? ...]:
    the [users] table this program creates has no [updated_at] column. *)
Definition update_users_with_updated_at (pw_hash salt now_iso : string)
    (user_id : Z) (us : list User.t) : result (list User.t) :=
  Raise (OperationalError "no such column: updated_at").

Definition update_user_password (e : env) (user_id : Z) (new_password : string)
    (d : dbs) : (bool * string) * dbs :=
  if String.eqb new_password "" then
    ((false, "Password must not be empty."), d)
  else
    let '(salt, pw_hash) := hash_password e new_password in
    let now_iso := today_ts e in
    let updated : result (list User.t) :=
      match update_users_with_updated_at pw_hash salt now_iso user_id
              (users (udb d)) with
      | Ok us => Ok us
      | Raise ex =>
          if is_Exception ex
          then Ok (update_users_password pw_hash salt user_id (users (udb d)))
          else Raise ex
      end in
    match updated with
    | Ok us =>
        let udb' :=
          {| users := us;
             (* DELETE FROM password_reset_tokens WHERE user_id=? *)
             password_reset_tokens :=
               List.filter (fun t => negb (Token.user_id t =? user_id))
                 (password_reset_tokens (udb d));
             tokens_seq := tokens_seq (udb d) |} in
        let m := mdb d in
        let mdb' :=
          {| settings := settings m;
             control_prefixes := control_prefixes m;
             memos := memos m; memos_seq := memos_seq m;
             memo_files := memo_files m; memo_files_seq := memo_files_seq m;
             mirror_users :=
               update_users_password pw_hash salt user_id (mirror_users m);
             audit_trail := audit_trail m; audit_seq := audit_seq m |} in
        ((true, "Password updated successfully."),
         {| udb := udb'; mdb := mdb' |})
    | Raise ex =>
        ((false, "Failed to update password: "
                 +:+ match ex with
                     | IntegrityError msg | OperationalError msg
                     | ValueError msg => msg
                     | RerunException => ""
                     end), d)
    end.

(** *** The Reset Password tab *)

(** The values of [st.session_state["reset_stage"]]: ['email'], ['token'],
    ['password']. *)
Inductive stage := stage_email | stage_token | stage_password.

Record reset_session := {
  reset_stage : stage;
  reset_email : string;
  reset_user_id : option Z
}.

(** First load: the three session entries are created. *)
Definition reset_init (s : option reset_session) : reset_session :=
  match s with
  | Some r => r
  | None => {| reset_stage := stage_email; reset_email := "";
               reset_user_id := None |}
  end.

(** What the visitor typed and pressed in the form of the current stage. *)
Record reset_inputs := {
  email_input : string; send_tok : bool;
  token_input : string; verify_tok : bool;
  new_pw : string; new_pw2 : string; change_pw : bool
}.

(** The helper calls a run of the tab makes, with what they returned. *)
Inductive call :=
| called_create (email : string) (ret : bool * string)
| called_validate (email token : string) (ret : option Z)
| called_update (user_id : Z) (new_password : string) (ret : bool * string).

Record tab_run := {
  session_after : reset_session;
  dbs_after : dbs;
  shown : list ui;
  calls : list call;
  rerun : bool
}.

Definition quiet (s : reset_session) (d : dbs) (msgs : list ui) : tab_run :=
  {| session_after := s; dbs_after := d; shown := msgs; calls := [];
     rerun := false |}.

Definition with_udb (d : dbs) (u : user_db) : dbs :=
  {| udb := u; mdb := mdb d |}.

(** One run of the script body under [with tab_reset:]. *)
Definition reset_tab (e : env) (i : reset_inputs) (s0 : option reset_session)
    (d : dbs) : tab_run :=
  let s := reset_init s0 in
  match reset_stage s with
  | stage_email =>
      if send_tok i then
        if String.eqb (email_input i) "" then
          quiet s d [st_error "Please enter your email."]
        else
          let em := Text.strip (email_input i) in
          let '((ok, msg), u') := create_password_reset_token e em (udb d) in
          if ok then
            {| session_after :=
                 {| reset_stage := stage_token; reset_email := em;
                    reset_user_id := reset_user_id s |};
               dbs_after := with_udb d u';
               shown := [st_success msg];
               calls := [called_create em (ok, msg)];
               rerun := true |}
          else
            {| session_after := s; dbs_after := with_udb d u';
               shown := [st_error msg];
               calls := [called_create em (ok, msg)];
               rerun := false |}
      else quiet s d []
  | stage_token =>
      if verify_tok i then
        if String.eqb (token_input i) "" then
          quiet s d [st_error "Please enter the token."]
        else
          let tk := Text.strip (token_input i) in
          let '(ret, u') :=
            validate_password_reset_token e (reset_email s) tk (udb d) in
          match ret with
          | Some user_id =>
              if negb (user_id =? 0) then
                {| session_after :=
                     {| reset_stage := stage_password;
                        reset_email := reset_email s;
                        reset_user_id := Some user_id |};
                   dbs_after := with_udb d u';
                   shown :=
                     [st_success "Token verified. Please enter a new password."];
                   calls := [called_validate (reset_email s) tk ret];
                   rerun := true |}
              else
                {| session_after := s; dbs_after := with_udb d u';
                   shown :=
                     [st_error "Invalid or expired token. Please try again."];
                   calls := [called_validate (reset_email s) tk ret];
                   rerun := false |}
          | None =>
              {| session_after := s; dbs_after := with_udb d u';
                 shown :=
                   [st_error "Invalid or expired token. Please try again."];
                 calls := [called_validate (reset_email s) tk ret];
                 rerun := false |}
          end
      else quiet s d []
  | stage_password =>
      if change_pw i then
        if String.eqb (new_pw i) "" then
          quiet s d [st_error "Password is required."]
        else if negb (String.eqb (new_pw i) (new_pw2 i)) then
          quiet s d [st_error "Passwords do not match."]
        else
          let unexpected :=
            quiet s d
              [st_error
                 "Unexpected error: user not found. Please restart the reset process."] in
          match reset_user_id s with
          | None => unexpected
          | Some user_id =>
              if user_id =? 0 then unexpected
              else
                let '((ok, msg), d') :=
                  update_user_password e user_id (new_pw i) d in
                if ok then
                  {| session_after :=
                       {| reset_stage := stage_email; reset_email := "";
                          reset_user_id := None |};
                     dbs_after := d';
                     shown :=
                       [st_success
                          (msg +:+ " You can now log in with your new password.")];
                     calls := [called_update user_id (new_pw i) (ok, msg)];
                     rerun := true |}
                else
                  {| session_after := s; dbs_after := d';
                     shown := [st_error msg];
                     calls := [called_update user_id (new_pw i) (ok, msg)];
                     rerun := false |}
          end
      else quiet s d []
  end.

(** A visit: successive runs of the tab.  Each run comes with the clock,
    the inputs and the databases as they are at that moment (other sessions
    may have written in between). *)
Fixpoint reset_visit (runs : list (env * reset_inputs * dbs))
    (s : option reset_session) : reset_session * list call :=
  match runs with
  | [] => (reset_init s, [])
  | (e, i, d) :: rest =>
      let r := reset_tab e i s d in
      let '(s', cs) := reset_visit rest (Some (session_after r)) in
      (s', (calls r ++ cs)%list)
  end.

(* ===================================================================== *)
(** ** Writing settings and prefixes *)
(* ===================================================================== *)

(** [x or y] on text: the first operand unless it is empty. *)
Definition py_or (x y : string) : string :=
  if String.eqb x "" then y else x.

(** [INSERT INTO settings(key, value) ... ON CONFLICT(key) DO UPDATE] *)
Definition set_setting (key value : string) (db : memo_db) : memo_db :=
  {| settings := <[key := Some value]> (settings db);
     control_prefixes := control_prefixes db;
     memos := memos db; memos_seq := memos_seq db;
     memo_files := memo_files db; memo_files_seq := memo_files_seq db;
     mirror_users := mirror_users db;
     audit_trail := audit_trail db; audit_seq := audit_seq db |}.

(** [prefix] is [None] when the caller passes [None]. *)
Definition set_unit_prefix (unit_name : string) (prefix : option string)
    (db : memo_db) : memo_db :=
  if String.eqb unit_name "" then db
  else
    match prefix with
    | None => db
    | Some p =>
        if String.eqb p "" then db
        else
          {| settings := settings db;
             control_prefixes :=
               <[unit_name := Text.strip p]> (control_prefixes db);
             memos := memos db; memos_seq := memos_seq db;
             memo_files := memo_files db;
             memo_files_seq := memo_files_seq db;
             mirror_users := mirror_users db;
             audit_trail := audit_trail db; audit_seq := audit_seq db |}
    end.

(** Settings page, "Save Default Prefix"; the page is shown to admin and
    super users only. *)
Definition save_default_prefix (e : env) (user : option session_user)
    (new_default_prefix : string) (db : memo_db) : result memo_db :=
  if role_in (session_role user) ["admin"; "super"] then
    let db1 :=
      set_setting "control_prefix"
        (py_or (Text.strip new_default_prefix) "MEMO") db in
    log_action e user "settings_update" None
      ("control_prefix=" +:+ Text.strip new_default_prefix) db1
  else Ok db.

(** Settings page, "Save" next to a unit. *)
Definition save_unit_prefix (e : env) (user : option session_user)
    (uname new_unit_prefix : string) (db : memo_db) : result memo_db :=
  if role_in (session_role user) ["admin"; "super"] then
    let default_prefix := get_setting "control_prefix" (Some "MEMO") db in
    let chosen :=
      if String.eqb (Text.strip new_unit_prefix) "" then default_prefix
      else Some (Text.strip new_unit_prefix) in
    let db1 := set_unit_prefix uname chosen db in
    log_action e user "unit_prefix_update" None
      ("unit=" +:+ uname +:+ ", prefix=" +:+ Text.strip new_unit_prefix) db1
  else Ok db.

(* ===================================================================== *)
(** ** Categories and statuses *)
(* ===================================================================== *)

Module Category.
Record t := { id : Z; name : string; is_active : option Z }.
End Category.

Module Status.
Record t := { id : Z; name : string; is_active : option Z }.
End Status.

(** The [categories] and [statuses] tables of the memoranda database. *)
Record catalog := {
  categories : list Category.t;
  categories_seq : Z;
  statuses : list Status.t;
  statuses_seq : Z
}.

Definition flag (active : bool) : option Z := Some (if active then 1 else 0).

Definition is_one (x : option Z) : bool :=
  match x with Some v => v =? 1 | None => false end.

(** [SELECT name FROM categories WHERE is_active=1 ORDER BY name ASC] *)
Definition get_active_categories (c : catalog) : list string :=
  Sql.order_by Text.leb
    (map Category.name
       (List.filter (fun r => is_one (Category.is_active r)) (categories c))).

Definition with_categories (c : catalog) (rows : list Category.t) (seq : Z)
    : catalog :=
  {| categories := rows; categories_seq := seq;
     statuses := statuses c; statuses_seq := statuses_seq c |}.

Definition with_statuses (c : catalog) (rows : list Status.t) (seq : Z)
    : catalog :=
  {| categories := categories c; categories_seq := categories_seq c;
     statuses := rows; statuses_seq := seq |}.

Definition category_exists (nm : string) (c : catalog) : bool :=
  existsb (fun r => String.eqb (Category.name r) nm) (categories c).

(** [INSERT INTO categories(name, is_active) VALUES (?,1)]; [name] is
    UNIQUE. *)
Definition insert_category (nm : string) (c : catalog) : result catalog :=
  if category_exists nm c then
    Raise (IntegrityError "UNIQUE constraint failed: categories.name")
  else
    let rowid := Sql.next_rowid (categories_seq c)
                   (map Category.id (categories c)) in
    Ok (with_categories c
          (categories c ++
           [{| Category.id := rowid; Category.name := nm;
               Category.is_active := Some 1 |}])
          rowid).

Definition add_category (name : string) (c : catalog) : list ui * catalog :=
  match insert_category (Text.strip name) c with
  | Ok c' => ([], c')
  | Raise (IntegrityError _) =>
      ([st_warning ("Category '" +:+ name +:+ "' already exists.")], c)
  | Raise _ => ([], c)
  end.

Definition set_category_active (cat_id : Z) (active : bool) (c : catalog)
    : catalog :=
  with_categories c
    (map (fun r => if Category.id r =? cat_id
                   then {| Category.id := Category.id r;
                           Category.name := Category.name r;
                           Category.is_active := flag active |}
                   else r) (categories c))
    (categories_seq c).

Definition delete_category (cat_id : Z) (c : catalog) : catalog :=
  with_categories c
    (List.filter (fun r => negb (Category.id r =? cat_id)) (categories c))
    (categories_seq c).

Definition ensure_category (name : string) (auto_create : bool) (c : catalog)
    : bool * catalog :=
  let nm := Text.strip name in
  if String.eqb nm "" then (false, c)
  else
    let ok := category_exists nm c in
    if negb ok && auto_create then
      match insert_category nm c with
      | Ok c' => (true, c')
      | Raise _ => (false, c)
      end
    else (ok, c).

(** [SELECT name FROM statuses WHERE is_active=1 ORDER BY name ASC] *)
Definition get_active_statuses (c : catalog) : list string :=
  Sql.order_by Text.leb
    (map Status.name
       (List.filter (fun r => is_one (Status.is_active r)) (statuses c))).

Definition get_all_status_names (active_only : bool) (c : catalog)
    : list string :=
  if active_only then get_active_statuses c
  else Sql.order_by Text.leb (map Status.name (statuses c)).

(** [LOWER(name)=LOWER(?)] *)
Definition same_status_name (r : Status.t) (nm : string) : bool :=
  String.eqb (Text.lower (Status.name r)) (Text.lower nm).

(** [INSERT INTO statuses(name, is_active) VALUES (?,1)]; [name] is UNIQUE. *)
Definition insert_status (nm : string) (c : catalog) : result catalog :=
  if existsb (fun r => String.eqb (Status.name r) nm) (statuses c) then
    Raise (IntegrityError "UNIQUE constraint failed: statuses.name")
  else
    let rowid := Sql.next_rowid (statuses_seq c)
                   (map Status.id (statuses c)) in
    Ok (with_statuses c
          (statuses c ++
           [{| Status.id := rowid; Status.name := nm;
               Status.is_active := Some 1 |}])
          rowid).

Definition add_status (name : string) (c : catalog) : list ui * catalog :=
  let nm := Text.strip name in
  if String.eqb nm "" then ([], c)
  else if existsb (fun r => same_status_name r nm) (statuses c) then
    ([st_warning ("Status '" +:+ nm +:+ "' already exists.")], c)
  else
    match insert_status nm c with
    | Ok c' => ([], c')
    | Raise (IntegrityError _) =>
        ([st_warning ("Status '" +:+ nm +:+ "' already exists.")], c)
    | Raise _ => ([], c)
    end.

Definition set_status_active (stat_id : Z) (active : bool) (c : catalog)
    : catalog :=
  with_statuses c
    (map (fun r => if Status.id r =? stat_id
                   then {| Status.id := Status.id r;
                           Status.name := Status.name r;
                           Status.is_active := flag active |}
                   else r) (statuses c))
    (statuses_seq c).

Definition delete_status (stat_id : Z) (c : catalog) : catalog :=
  with_statuses c
    (List.filter (fun r => negb (Status.id r =? stat_id)) (statuses c))
    (statuses_seq c).

Definition set_memo_status (new_status : string) (m : Memo.t) : Memo.t :=
  {| Memo.id := Memo.id m; Memo.control_no := Memo.control_no m;
     Memo.date_log := Memo.date_log m; Memo.date_doc := Memo.date_doc m;
     Memo.memo_from := Memo.memo_from m; Memo.thru := Memo.thru m;
     Memo.memo_for := Memo.memo_for m; Memo.subject := Memo.subject m;
     Memo.category := Memo.category m; Memo.status := Some new_status;
     Memo.notes := Memo.notes m; Memo.created_at := Memo.created_at m;
     Memo.updated_at := Memo.updated_at m |}.

Definition has_status (old_name : string) (m : Memo.t) : bool :=
  match Memo.status m with
  | Some s => String.eqb s old_name
  | None => false
  end.

(** [rename_status]: the statuses are in the catalog, the memos that carry
    the old name in the memo tables; [id] is the PRIMARY KEY. *)
Definition rename_status (stat_id : Z) (new_name : string)
    (c : catalog) (db : memo_db) : list ui * catalog * memo_db :=
  let nm := Text.strip new_name in
  if String.eqb nm "" then ([], c, db)
  else
    match List.find (fun r => Status.id r =? stat_id) (statuses c) with
    | None => ([], c, db)
    | Some row =>
        let old_name := Status.name row in
        if String.eqb old_name nm then ([], c, db)
        else if existsb (fun r => same_status_name r nm
                                  && negb (Status.id r =? stat_id))
                  (statuses c)
        then ([st_warning ("A status named '" +:+ nm +:+ "' already exists.")],
              c, db)
        else
          ([],
           with_statuses c
             (map (fun r => if Status.id r =? stat_id
                            then {| Status.id := Status.id r;
                                    Status.name := nm;
                                    Status.is_active := Status.is_active r |}
                            else r) (statuses c))
             (statuses_seq c),
           with_memos db
             (map (fun m => if has_status old_name m
                            then set_memo_status nm m else m) (memos db)))
    end.

(* ===================================================================== *)
(** ** Monitor / Manage: editing a memo *)
(* ===================================================================== *)

(** [c.lower()] on the characters below 256, which is all the text of this
    development holds; on them [str.lower] maps A-Z and the capital
    letters of Latin-1 and nothing else.  Python folds further characters
    above 255 to ASCII letters, so what is proved of [py_lower] speaks of
    text made of characters below 256 only. *)
Definition py_lower_char (c : ascii) : ascii :=
  let n := Text.code c in
  if ((65 <=? n) && (n <=? 90) || (192 <=? n) && (n <=? 214)
      || (216 <=? n) && (n <=? 222))%N
  then ascii_of_N (n + 32) else c.

Fixpoint py_lower (s : string) : string :=
  match s with
  | EmptyString => EmptyString
  | String c s' => String (py_lower_char c) (py_lower s')
  end.

(** [[u.strip() for u in (memo_for or "").split(",") if u.strip()]] *)
Definition memo_units (memo_for : Sql.text) : list string :=
  List.filter not_blank
    (map Text.strip
       (Text.split ","
          (match memo_for with Some s => s | None => "" end))).

(** [can_edit] (and [can_edit_attach]) for the selected memo. *)
Definition can_edit (user : option session_user) (memo : Memo.t) : bool :=
  let user_units := session_units user in
  let role_curr := session_role user in
  if is_admin_role role_curr then true
  else if role_in role_curr ["super"; "user"]
          && match user_units with [] => false | _ => true end
  then
    let memo_units_lower := map py_lower (memo_units (Memo.memo_for memo)) in
    existsb (fun unit_name =>
               existsb (String.eqb (py_lower unit_name)) memo_units_lower)
      user_units
  else false.

(** The widgets of the edit form. *)
Record edit_form := {
  new_status : string;
  new_category : string;
  new_subject : string;
  new_control : string;
  new_date_log : string;          (* str(new_date_log) *)
  new_date_doc : string;
  new_from : string;
  new_thru : string;
  picked_units : list string;     (* the multiselect, admin and super only *)
  new_notes : string
}.

Definition edited (f : edit_form) (memo_for_str updated : string)
    (m : Memo.t) : Memo.t :=
  {| Memo.id := Memo.id m;
     Memo.control_no := Some (Text.strip (new_control f));
     Memo.date_log := Some (new_date_log f);
     Memo.date_doc := Some (new_date_doc f);
     Memo.memo_from := Some (Text.strip (new_from f));
     Memo.thru := Some (Text.strip (new_thru f));
     Memo.memo_for := Some memo_for_str;
     Memo.subject := Some (Text.strip (new_subject f));
     Memo.category := Some (new_category f);
     Memo.status := Some (new_status f);
     Memo.notes := Some (Text.strip (new_notes f));
     Memo.created_at := Memo.created_at m;
     Memo.updated_at := Some updated |}.

Definition has_control_no (cn : string) (m : Memo.t) : bool :=
  match Memo.control_no m with
  | Some cn' => String.eqb cn' cn
  | None => false
  end.

(** [UPDATE memos SET control_no=?, ... WHERE id=?]: the new control number
    must not be that of another row. *)
Definition update_memo_row (sel_id : Z) (f : edit_form)
    (memo_for_str updated : string) (db : memo_db) : result memo_db :=
  if existsb (fun m => Memo.id m =? sel_id) (memos db)
     && existsb (fun m => negb (Memo.id m =? sel_id)
                          && has_control_no (Text.strip (new_control f)) m)
          (memos db)
  then Raise (IntegrityError "UNIQUE constraint failed: memos.control_no")
  else
    Ok (with_memos db
          (map (fun m => if Memo.id m =? sel_id
                         then edited f memo_for_str updated m else m)
             (memos db))).

(** What a button press leaves behind. *)
Record page_run := {
  shown_msgs : list ui;
  wants_rerun : bool;
  raised : option exn;
  db_after : memo_db
}.

Definition shows (msgs : list ui) (db : memo_db) : page_run :=
  {| shown_msgs := msgs; wants_rerun := false; raised := None;
     db_after := db |}.

(** "Update" under View / Edit Selected Memorandum, for the memo with id
    [sel_id]. *)
Definition press_update (e : env) (user : option session_user) (sel_id : Z)
    (f : edit_form) (db : memo_db) : page_run :=
  match List.find (fun m => Memo.id m =? sel_id) (memos db) with
  | None => shows [] db
  | Some memo =>
      if can_edit user memo then
        let current_for_list := memo_units (Memo.memo_for memo) in
        let new_for_units :=
          if role_in (session_role user) ["admin"; "super"]
          then picked_units f else current_for_list in
        match new_for_units with
        | [] =>
            shows [st_error
              "At least one division/unit is required to tag this memorandum."]
              db
        | _ =>
            let new_for_str := join_comma (map Text.strip new_for_units) in
            match update_memo_row sel_id f new_for_str (today_ts e) db with
            | Raise (IntegrityError _) =>
                shows [st_error "Control No. must be unique. Update aborted."]
                  db
            | Raise ex =>
                {| shown_msgs := []; wants_rerun := false; raised := Some ex;
                   db_after := db |}
            | Ok db1 =>
                match log_action e user "memo_update" (Some sel_id)
                        ("control=" +:+ Text.strip (new_control f)) db1 with
                | Ok db2 =>
                    {| shown_msgs := [st_success "Memorandum updated."];
                       wants_rerun := true; raised := None; db_after := db2 |}
                | Raise ex =>
                    {| shown_msgs := [st_success "Memorandum updated."];
                       wants_rerun := false; raised := Some ex;
                       db_after := db1 |}
                end
            end
        end
      else shows [] db     (* the read-only view has no button *)
  end.

(** [DELETE FROM memos WHERE id=?]; the attachment rows go with the memo
    ([ON DELETE CASCADE]). *)
Definition delete_memo_row (sel_id : Z) (db : memo_db) : memo_db :=
  {| settings := settings db;
     control_prefixes := control_prefixes db;
     memos := List.filter (fun m => negb (Memo.id m =? sel_id)) (memos db);
     memos_seq := memos_seq db;
     memo_files :=
       if existsb (fun m => Memo.id m =? sel_id) (memos db) then
         List.filter (fun r => negb (MemoFile.memo_id r =? sel_id))
           (memo_files db)
       else memo_files db;
     memo_files_seq := memo_files_seq db;
     mirror_users := mirror_users db;
     audit_trail := audit_trail db; audit_seq := audit_seq db |}.

(* ===================================================================== *)
(** ** Users, units and signing in *)
(* ===================================================================== *)

Module OrgUnit.
Record t := { id : Z; name : string; is_active : option Z }.
End OrgUnit.

(** The [units] and [user_units] tables of the user database, and the
    rowid counter of its [users] table. *)
Record unit_tables := {
  units : list OrgUnit.t;
  units_seq : Z;
  user_units : list (Z * Z);      (* (user_id, unit_id), the PRIMARY KEY *)
  users_seq : Z
}.

(** [LOWER(name)=LOWER(?)] *)
Definition same_unit_name (r : OrgUnit.t) (nm : string) : bool :=
  String.eqb (Text.lower (OrgUnit.name r)) (Text.lower nm).

(** The loop of [ensure_units_exist].  The INSERT is reached only when no
    unit has the name up to ASCII case, so its UNIQUE constraint holds. *)
Fixpoint ensure_units_loop (names : list string) (t : unit_tables)
    : list Z * unit_tables :=
  match names with
  | [] => ([], t)
  | unit_name :: rest =>
      let name := Text.strip unit_name in
      if String.eqb name "" then ensure_units_loop rest t
      else
        match List.find (fun r => same_unit_name r name) (units t) with
        | Some row =>
            let '(ids, t') := ensure_units_loop rest t in
            (OrgUnit.id row :: ids, t')
        | None =>
            let unit_id := Sql.next_rowid (units_seq t)
                             (map OrgUnit.id (units t)) in
            let t1 :=
              {| units := units t ++
                   [{| OrgUnit.id := unit_id; OrgUnit.name := name;
                       OrgUnit.is_active := Some 1 |}];
                 units_seq := unit_id;
                 user_units := user_units t;
                 users_seq := users_seq t |} in
            let '(ids, t') := ensure_units_loop rest t1 in
            (unit_id :: ids, t')
        end
  end.

Definition ensure_units_exist (names : list string) (t : unit_tables)
    : list Z * unit_tables :=
  ensure_units_loop names t.

(** [INSERT OR IGNORE INTO user_units (user_id, unit_id)] for each id *)
Fixpoint link_units (user_id : Z) (unit_ids : list Z) (links : list (Z * Z))
    : list (Z * Z) :=
  match unit_ids with
  | [] => links
  | uid :: rest =>
      if existsb (fun l => (fst l =? user_id) && (snd l =? uid)) links
      then link_units user_id rest links
      else link_units user_id rest (links ++ [(user_id, uid)])
  end.

Definition text_is (col : Sql.text) (v : string) : bool :=
  match col with Some s => String.eqb s v | None => false end.

(** [INSERT OR REPLACE INTO users (id, ...)] on the memo database *)
Definition mirror_user (row : User.t) (m : memo_db) : memo_db :=
  {| settings := settings m;
     control_prefixes := control_prefixes m;
     memos := memos m; memos_seq := memos_seq m;
     memo_files := memo_files m; memo_files_seq := memo_files_seq m;
     mirror_users :=
       List.filter (fun u => negb (User.id u =? User.id row)) (mirror_users m)
       ++ [row];
     audit_trail := audit_trail m; audit_seq := audit_seq m |}.

(** The three stores a user operation can touch. *)
Record stores := {
  st_users : user_db;
  st_units : unit_tables;
  st_memo : memo_db
}.

Definition create_user (e : env) (username email password : string)
    (unit_names : option (list string)) (role : string) (is_active : Z)
    (s : stores) : (bool * string) * stores :=
  if String.eqb username "" || String.eqb email "" || String.eqb password ""
  then ((false, "Missing fields"), s)
  else
    let '(salt, pw) := hash_password e password in
    let created_at := today_ts e in
    let u := st_users s in
    (* UNIQUE(username), UNIQUE(email) *)
    if existsb (fun r => text_is (User.username r) (Text.strip username)
                         || text_is (User.email r) (Text.strip email))
         (users u)
    then ((false, "Username or email already exists"), s)
    else
      let user_id := Sql.next_rowid (users_seq (st_units s))
                       (map User.id (users u)) in
      let row :=
        {| User.id := user_id;
           User.username := Some (Text.strip username);
           User.email := Some (Text.strip email);
           User.password_hash := Some pw;
           User.password_salt := Some salt;
           User.role := Some role;
           User.is_active := Some is_active;
           User.created_at := Some created_at |} in
      let u' :=
        {| users := users u ++ [row];
           password_reset_tokens := password_reset_tokens u;
           tokens_seq := tokens_seq u |} in
      let '(unit_ids, t1) :=
        ensure_units_exist
          (match unit_names with Some ns => ns | None => [] end)
          (st_units s) in
      let t2 :=
        {| units := units t1; units_seq := units_seq t1;
           user_units := link_units user_id unit_ids (user_units t1);
           users_seq := user_id |} in
      ((true, "Registered"),
       {| st_users := u'; st_units := t2;
          st_memo := mirror_user row (st_memo s) |}).

(** The units of a user: the active ones they are linked to. *)
Definition user_unit_names (user_id : Z) (t : unit_tables) : list string :=
  map OrgUnit.name
    (List.filter
       (fun r => is_one (OrgUnit.is_active r)
                 && existsb (fun l => (fst l =? user_id)
                                      && (snd l =? OrgUnit.id r))
                      (user_units t))
       (units t)).

(** [SELECT ... FROM users WHERE username=? OR email=?] with [fetchone()]:
    SQLite answers the OR from the two UNIQUE indexes, the one on
    [username] first, so the row whose user name is the key comes before
    the row whose email is. *)
Definition lookup_user (user_key : string) (us : list User.t)
    : option User.t :=
  match List.find (fun r => text_is (User.username r) user_key) us with
  | Some row => Some row
  | None => List.find (fun r => text_is (User.email r) user_key) us
  end.

(** [get_user_by_key]: the row and the unit names. *)
Definition get_user_by_key (user_key : string) (s : stores)
    : option (User.t * list string) :=
  match lookup_user user_key (users (st_users s)) with
  | None => None
  | Some row => Some (row, user_unit_names (User.id row) (st_units s))
  end.

(** *** Password hashes *)

Definition ascii_space (c : ascii) : bool :=
  let n := Text.code c in ((n =? 32) || (9 <=? n) && (n <=? 13))%N.

Definition hex_value (c : ascii) : option N :=
  let n := Text.code c in
  if ((48 <=? n) && (n <=? 57))%N then Some (n - 48)%N
  else if ((97 <=? n) && (n <=? 102))%N then Some (n - 87)%N
  else if ((65 <=? n) && (n <=? 70))%N then Some (n - 55)%N
  else None.

(** [bytes.fromhex(s)]: two hex digits per byte, ASCII blanks skipped before
    a pair; [None] is the [ValueError]. *)
Fixpoint fromhex (s : string) : option (list N) :=
  match s with
  | EmptyString => Some []
  | String c r =>
      if ascii_space c then fromhex r
      else
        match hex_value c, r with
        | Some top, String d r' =>
            match hex_value d with
            | Some bot => option_map (cons (top * 16 + bot)%N) (fromhex r')
            | None => None
            end
        | _, _ => None
        end
  end.

Definition hex_digit (n : N) : ascii :=
  if (n <? 10)%N then ascii_of_N (48 + n) else ascii_of_N (87 + n).

(** [b.hex()] *)
Fixpoint tohex (bs : list N) : string :=
  match bs with
  | [] => EmptyString
  | b :: rest =>
      String (hex_digit (b / 16)) (String (hex_digit (b mod 16)) (tohex rest))
  end.

(** [hash_password(password, salt_hex)] *)
Definition hash_password_salted (e : env) (password : string)
    (salt_hex : option string) : result (string * string) :=
  match salt_hex with
  | None => Ok (hash_password e password)
  | Some sh =>
      if String.eqb sh "" then Ok (hash_password e password)
      else
        match fromhex sh with
        | Some salt => Ok (sh, pbkdf2_hmac e password (tohex salt))
        | None =>
            Raise (ValueError "non-hexadecimal number found in fromhex() arg")
        end
  end.

Definition verify_password (e : env) (password : string)
    (salt_hex hash_hex : option string) : result bool :=
  match hash_password_salted e password salt_hex with
  | Ok (_, calc) => Ok (text_is hash_hex calc)
  | Raise ex => Raise ex
  end.

(** *** The Login form *)

Record login_run := {
  signed_in : option session_user;    (* st.session_state["user"] after *)
  login_shown : list ui;
  login_rerun : bool;
  login_raised : option exn;
  login_memo : memo_db
}.

Definition login_shows (msg : string) (m : memo_db) : login_run :=
  {| signed_in := None; login_shown := [st_error msg]; login_rerun := false;
     login_raised := None; login_memo := m |}.

(** Pressing "Login" while signed out. *)
Definition press_login (e : env) (user_key pw : string) (s : stores)
    : login_run :=
  let m := st_memo s in
  let found :=
    if String.eqb user_key "" then None
    else get_user_by_key (Text.strip user_key) s in
  match found with
  | None => login_shows "Invalid credentials." m
  | Some (user, names) =>
      if negb match User.is_active user with
              | Some v => negb (v =? 0)
              | None => false
              end
      then login_shows "Your account is pending admin approval." m
      else
        match verify_password e pw (User.password_salt user)
                (User.password_hash user) with
        | Raise ex =>
            {| signed_in := None; login_shown := []; login_rerun := false;
               login_raised := Some ex; login_memo := m |}
        | Ok false => login_shows "Invalid credentials." m
        | Ok true =>
            let su :=
              {| su_id := Some (User.id user);
                 su_username := User.username user;
                 su_role := User.role user;
                 su_units := names |} in
            match log_action e (Some su) "login" None "" m with
            | Ok m' =>
                {| signed_in := Some su;
                   login_shown := [st_success "Logged in successfully."];
                   login_rerun := true; login_raised := None;
                   login_memo := m' |}
            | Raise ex =>
                {| signed_in := Some su; login_shown := [];
                   login_rerun := false; login_raised := Some ex;
                   login_memo := m |}
            end
        end
  end.

(** Pressing "Create Account" on the Register form. *)
Definition press_register (e : env)
    (r_user r_email r_pw1 r_pw2 r_units_raw : string) (s : stores)
    : list ui * stores :=
  if String.eqb r_user "" || String.eqb r_email "" || String.eqb r_pw1 ""
  then ([st_error "All fields are required."], s)
  else if negb (String.eqb r_pw1 r_pw2)
  then ([st_error "Passwords do not match."], s)
  else
    let units_list :=
      if String.eqb r_units_raw "" then []
      else List.filter not_blank (map Text.strip (Text.split "," r_units_raw))
    in
    let '((ok, msg), s') :=
      create_user e (Text.strip r_user) (Text.strip r_email) r_pw1
        (Some units_list) "user" 0 s in
    if ok then
      match log_action e None "register" None
              ("username=" +:+ Text.strip r_user) (st_memo s') with
      | Ok m' =>
          ([st_success
              "Registration submitted. An admin must approve your account before you can log in."],
           {| st_users := st_users s'; st_units := st_units s';
              st_memo := m' |})
      | Raise _ => ([], s')
      end
    else ([st_error msg], s').

(** Admin page, "Apply Changes": the statements on the two databases. *)
Definition apply_user_changes (sel_id : Z) (role_new : string)
    (active_new : bool) (units_selected : list string)
    (new_units_raw : string) (s : stores) : stores :=
  let set_role (r : User.t) : User.t :=
    if User.id r =? sel_id then
      {| User.id := User.id r; User.username := User.username r;
         User.email := User.email r;
         User.password_hash := User.password_hash r;
         User.password_salt := User.password_salt r;
         User.role := Some role_new;
         User.is_active := flag active_new;
         User.created_at := User.created_at r |}
    else r in
  let u := st_users s in
  let u' :=
    {| users := map set_role (users u);
       password_reset_tokens := password_reset_tokens u;
       tokens_seq := tokens_seq u |} in
  let new_units_list :=
    List.filter not_blank (map Text.strip (Text.split "," new_units_raw)) in
  let '(unit_ids, t1) :=
    ensure_units_exist (units_selected ++ new_units_list) (st_units s) in
  let t2 :=
    {| units := units t1; units_seq := units_seq t1;
       user_units :=
         link_units sel_id unit_ids
           (List.filter (fun l => negb (fst l =? sel_id)) (user_units t1));
       users_seq := users_seq t1 |} in
  let m := st_memo s in
  let m' :=
    {| settings := settings m;
       control_prefixes := control_prefixes m;
       memos := memos m; memos_seq := memos_seq m;
       memo_files := memo_files m; memo_files_seq := memo_files_seq m;
       mirror_users := map set_role (mirror_users m);
       audit_trail := audit_trail m; audit_seq := audit_seq m |} in
  {| st_users := u'; st_units := t2; st_memo := m' |}.

(* ===================================================================== *)
(** ** Attachments and the sidebar *)
(* ===================================================================== *)

(** [delete_file]: the row goes; the file on disk is not part of the state. *)
Definition delete_file (file_id : Z) (db : memo_db) : memo_db :=
  {| settings := settings db;
     control_prefixes := control_prefixes db;
     memos := memos db; memos_seq := memos_seq db;
     memo_files :=
       List.filter (fun r => negb (MemoFile.id r =? file_id)) (memo_files db);
     memo_files_seq := memo_files_seq db;
     mirror_users := mirror_users db;
     audit_trail := audit_trail db; audit_seq := audit_seq db |}.

(** "Upload New File(s)" under Attachments, for the selected memo;
    [can_edit_attach] is computed like [can_edit]. *)
Definition press_upload (e : env) (user : option session_user) (memo : Memo.t)
    (add_files : list (string * string)) (db : memo_db) : page_run :=
  let sel_id := Memo.id memo in
  if can_edit user memo then
    match save_files e add_files sel_id db with
    | (Raise ex, db1) =>
        {| shown_msgs := []; wants_rerun := false; raised := Some ex;
           db_after := db1 |}
    | (Ok saved, db1) =>
        let count := Text.zfill_d 0 (Z.of_nat (length saved)) in
        match log_action e user "file_upload" (Some sel_id)
                ("count=" +:+ count) db1 with
        | Ok db2 =>
            {| shown_msgs := [st_success ("Uploaded " +:+ count +:+ " file(s).")];
               wants_rerun := true; raised := None; db_after := db2 |}
        | Raise ex =>
            {| shown_msgs := []; wants_rerun := false; raised := Some ex;
               db_after := db1 |}
        end
    end
  else shows [] db.

(** The pages the sidebar offers. *)
Definition base_pages (user : option session_user) : list string :=
  match user with
  | None => ["Auth"]
  | Some u =>
      let role := su_role u in
      (["Dashboard"]
       ++ (if role_in role ["user"; "super"; "admin"]
           then ["New Memorandum"] else [])
       ++ ["Monitor / Manage"]
       ++ (if role_in role ["super"; "admin"] then ["Import / Export"] else [])
       ++ (if role_in role ["super"; "admin"] then ["Settings"] else [])
       ++ (if is_admin_role role then ["Admin"] else []))%list
  end.

(** The role test at the head of each page, for a signed-in user; a page
    without one lets everybody in. *)
Definition page_lets_in (page : string) (u : session_user) : bool :=
  let role := su_role u in
  if String.eqb page "New Memorandum" then
    is_admin_role role || role_in role ["super"] || role_in role ["user"]
  else if String.eqb page "Import / Export" then
    role_in role ["super"] || is_admin_role role
  else if String.eqb page "Settings" then role_in role ["admin"; "super"]
  else if String.eqb page "Admin" then role_in role ["admin"; "super"]
  else true.

(** ** Auxiliary notions used in the statements *)

(** The character [c] appears in [s]. *)
Fixpoint occurs (c : ascii) (s : string) : Prop :=
  match s with
  | EmptyString => False
  | String d s' => d = c \/ occurs c s'
  end.

(** The listing with no unit condition in its WHERE clause. *)
Definition unrestricted_select (f : filters) (db : memo_db) : list Memo.t :=
  Sql.order_by listing_order
    (List.filter (fun m => Sql.holds (filter_where f m)) (memos db)).

(** The two decimal digits of a number from 0 to 99. *)
Definition two_digits (n : Z) : string :=
  String (ascii_of_N (48 + Z.to_N (n / 10)))
    (String (ascii_of_N (48 + Z.to_N (n mod 10))) "").

(** The three decimal digits of a number from 0 to 999. *)
Definition three_digits (n : Z) : string :=
  String (ascii_of_N (48 + Z.to_N (n / 100))) (two_digits (n mod 100)).

(** The stage that follows in the wizard. *)
Definition next_stage (st : stage) : stage :=
  match st with
  | stage_email => stage_token
  | stage_token => stage_password
  | stage_password => stage_email
  end.

(** Among the calls made [before], a token request for some email succeeded
    and, after it, a validation for that email returned [uid]. *)
Definition update_was_validated (before : list call) (uid : Z) : Prop :=
  exists email token msg pre mid,
    before = (pre ++ called_create email (true, msg) :: mid)%list
    /\ In (called_validate email token (Some uid)) mid.

(** Every password update in a trace of calls was validated before. *)
Definition updates_validated (trace : list call) : Prop :=
  forall before uid pw ret after,
    trace = (before ++ called_update uid pw ret :: after)%list ->
    update_was_validated before uid.

(** What the session entries record about the calls made so far. *)
Definition wizard_inv (s : reset_session) (trace : list call) : Prop :=
  match reset_stage s with
  | stage_email => True
  | stage_token =>
      exists msg pre mid,
        trace = (pre ++ called_create (reset_email s) (true, msg) :: mid)%list
  | stage_password =>
      exists uid,
        reset_user_id s = Some uid /\ update_was_validated trace uid
  end.

(** What a recorded call does to the databases when it is made on [d]. *)
Definition call_effect (e : env) (c : call) (d : dbs) : dbs :=
  match c with
  | called_create email _ =>
      with_udb d (snd (create_password_reset_token e email (udb d)))
  | called_validate email token _ =>
      with_udb d (snd (validate_password_reset_token e email token (udb d)))
  | called_update user_id pw _ => snd (update_user_password e user_id pw d)
  end.

(** The recorded result is what the helper returns on [d]. *)
Definition call_returns (e : env) (c : call) (d : dbs) : Prop :=
  match c with
  | called_create email ret =>
      fst (create_password_reset_token e email (udb d)) = ret
  | called_validate email token ret =>
      fst (validate_password_reset_token e email token (udb d)) = ret
  | called_update user_id pw ret =>
      fst (update_user_password e user_id pw d) = ret
  end.

(** Among the runs of a visit, one obtained a token for some email and a
    later one had a token for that email accepted for the account [uid]. *)
Definition validated_in_visit (runs : list (env * reset_inputs * dbs))
    (uid : Z) : Prop :=
  exists pre e0 i0 d0 mid e1 i1 d1 post msg,
    runs = (pre ++ (e0, i0, d0) :: mid ++ (e1, i1, d1) :: post)%list
    /\ fst (create_password_reset_token e0 (Text.strip (email_input i0))
              (udb d0)) = (true, msg)
    /\ fst (validate_password_reset_token e1 (Text.strip (email_input i0))
              (Text.strip (token_input i1)) (udb d1)) = Some uid.

(** What the session entries record about the runs made so far. *)
Definition visit_inv (runs : list (env * reset_inputs * dbs))
    (s : reset_session) : Prop :=
  match reset_stage s with
  | stage_email => True
  | stage_token =>
      exists pre e0 i0 d0 post msg,
        runs = (pre ++ (e0, i0, d0) :: post)%list
        /\ fst (create_password_reset_token e0 (Text.strip (email_input i0))
                  (udb d0)) = (true, msg)
        /\ reset_email s = Text.strip (email_input i0)
  | stage_password =>
      exists uid, reset_user_id s = Some uid /\ validated_in_visit runs uid
  end.

(** ** Sample data *)

Definition sample_clock : datetime :=
  {| year := 2025; month := 9; day := 10;
     hour := 8; minute := 45; second := 0; microsecond := 0 |}.

Definition sample_env : env :=
  {| now := sample_clock; utcnow := sample_clock;
     os_urandom := "00112233445566778899aabbccddeeff";
     pbkdf2_hmac := fun password salt => salt +:+ ":" +:+ password;
     secrets_choice := fun i => i;
     secrets_smtp := Ok None;
     smtp_deliver := fun _ _ _ => None;
     files_dir := "memo_files" |}.

Definition sample_memo (i : Z) (cn logged for_ : string) : Memo.t :=
  {| Memo.id := i; Memo.control_no := Some cn;
     Memo.date_log := Some logged; Memo.date_doc := Some logged;
     Memo.memo_from := Some "OIC"; Memo.thru := Some "";
     Memo.memo_for := Some for_; Memo.subject := Some "Budget";
     Memo.category := Some "Finance"; Memo.status := Some "Open";
     Memo.notes := Some ""; Memo.created_at := Some logged;
     Memo.updated_at := Some logged |}.

Definition memo_fiscal_lower : Memo.t :=
  sample_memo 1 "MEMO 25-001" "2025-03-01" "fiscal".
Definition memo_is_last_year : Memo.t :=
  sample_memo 2 "MEMO 24-001" "2024-06-30" "IS".
Definition memo_fiscal : Memo.t :=
  sample_memo 3 "MEMO 25-002" "2025-04-01" "FISCAL".
Definition memo_eid : Memo.t :=
  sample_memo 4 "MEMO 25-003" "2025-05-01" "EID".

Definition sample_mirror_user (i : Z) : User.t :=
  {| User.id := i; User.username := Some "ana";
     User.email := Some "ana@example.com";
     User.password_hash := Some "h"; User.password_salt := Some "s";
     User.role := Some "user"; User.is_active := Some 1;
     User.created_at := Some "2025-01-01T00:00:00" |}.

Definition sample_db : memo_db :=
  {| settings := {[ "control_prefix" := Some "MEMO" ]};
     control_prefixes := {[ "IS" := "ISD" ]};
     memos := [memo_fiscal_lower; memo_is_last_year; memo_fiscal];
     memos_seq := 3;
     memo_files := []; memo_files_seq := 0;
     mirror_users := [sample_mirror_user 7];
     audit_trail := []; audit_seq := 0 |}.

Definition user_of_IS : session_user :=
  {| su_id := Some 7; su_username := Some "ana"; su_role := Some "user";
     su_units := ["IS"] |}.

Definition user_without_units : session_user :=
  {| su_id := Some 8; su_username := Some "ben"; su_role := Some "user";
     su_units := [] |}.

Definition this_year : filters :=
  {| f_start := "2025-01-01"; f_end := "2025-12-31"; f_q := "";
     f_cat := []; f_status := [] |}.

Definition sample_form (ctrl : string) : memo_form :=
  {| memo_control_no := Some ctrl;
     in_date_log := "2025-09-10"; in_date_doc := "2025-09-09";
     in_memo_from := "OIC"; in_thru := ""; in_subject := "Budget call";
     in_category := "Finance"; in_status := "Open"; in_notes := "";
     in_files := [] |}.

Definition sample_user (i : Z) (mail : string) : User.t :=
  {| User.id := i; User.username := Some mail; User.email := Some mail;
     User.password_hash := Some "h"; User.password_salt := Some "s";
     User.role := Some "user"; User.is_active := Some 1;
     User.created_at := Some "2025-01-01T00:00:00" |}.

Definition sample_token (i uid : Z) (tok : string) : Token.t :=
  {| Token.id := i; Token.user_id := uid; Token.token := tok;
     Token.expires_at := "2025-09-10T09:00:00";
     Token.created_at := "2025-09-10T08:30:00" |}.

Definition sample_udb : user_db :=
  {| users := [sample_user 7 "ana@example.com"; sample_user 9 "ben@example.com"];
     password_reset_tokens :=
       [sample_token 1 7 "123456"; sample_token 2 9 "654321";
        sample_token 3 7 "777777"];
     tokens_seq := 3 |}.

Definition sample_dbs : dbs := {| udb := sample_udb; mdb := sample_db |}.

(** Two accounts whose emails differ in case only, each with a pending
    token of the same six digits. *)
Definition sample_udb_twins : user_db :=
  {| users := [sample_user 7 "ana@example.com"; sample_user 9 "Ana@example.com"];
     password_reset_tokens :=
       [sample_token 1 7 "111111"; sample_token 2 9 "111111"];
     tokens_seq := 2 |}.

Definition sample_dbs_twins : dbs :=
  {| udb := sample_udb_twins; mdb := sample_db |}.

Definition typed (email token pw : string) : reset_inputs :=
  {| email_input := email; send_tok := true;
     token_input := token; verify_tok := true;
     new_pw := pw; new_pw2 := pw; change_pw := true |}.

(** The mail server accepts the message. *)
Definition sample_env_mail : env :=
  {| now := sample_clock; utcnow := sample_clock;
     os_urandom := os_urandom sample_env;
     pbkdf2_hmac := pbkdf2_hmac sample_env;
     secrets_choice := fun i => i;
     secrets_smtp :=
       Ok (Some {| smtp_host := Some "mail.example.com";
                   smtp_port := Some 587;
                   smtp_username := Some "cms";
                   smtp_password := Some "pw";
                   smtp_use_tls := None; smtp_sender := None |});
     smtp_deliver := fun _ _ _ => None;
     files_dir := "memo_files" |}.

(** A visit in three runs: the email, the token that was mailed, the new
    password. *)
Definition visit_run1 : tab_run :=
  reset_tab sample_env_mail (typed "Ana@example.com " "" "") None sample_dbs.
Definition visit_run2 : tab_run :=
  reset_tab sample_env_mail (typed "" "012345" "")
    (Some (session_after visit_run1)) (dbs_after visit_run1).
Definition visit_run3 : tab_run :=
  reset_tab sample_env_mail (typed "" "" "n3w")
    (Some (session_after visit_run2)) (dbs_after visit_run2).

(** The first two runs of that visit, with the databases they met. *)
Definition sample_visit : list (env * reset_inputs * dbs) :=
  [(sample_env_mail, typed "Ana@example.com " "" "", sample_dbs);
   (sample_env_mail, typed "" "012345" "", dbs_after visit_run1)].

(** Case analysis on every test a run of the tab makes. *)
Ltac tab_cases :=
  repeat match goal with
         | |- context [match ?x with _ => _ end] =>
             lazymatch x with
             | context [match _ with _ => _ end] => fail
             | _ => destruct x eqn:?
             end
         end.

(** Further sample data: an administrator, the catalog, an edit, the unit
    tables and an account whose hash was made by [hash_password]. *)
Definition sample_admin : session_user :=
  {| su_id := Some 7; su_username := Some "ana"; su_role := Some "admin";
     su_units := [] |}.

Definition sample_catalog : catalog :=
  {| categories :=
       [{| Category.id := 1; Category.name := "Finance";
           Category.is_active := Some 1 |};
        {| Category.id := 2; Category.name := "Legal";
           Category.is_active := Some 0 |}];
     categories_seq := 2;
     statuses :=
       [{| Status.id := 1; Status.name := "Open";
           Status.is_active := Some 1 |};
        {| Status.id := 2; Status.name := "Closed";
           Status.is_active := Some 1 |}];
     statuses_seq := 2 |}.

Definition sample_edit : edit_form :=
  {| new_status := "Closed"; new_category := "Finance";
     new_subject := " Budget, revised "; new_control := "MEMO 24-001";
     new_date_log := "2024-06-30"; new_date_doc := "2024-06-29";
     new_from := "OIC"; new_thru := ""; picked_units := [];
     new_notes := "" |}.

Definition sample_units : unit_tables :=
  {| units :=
       [{| OrgUnit.id := 1; OrgUnit.name := "IS";
           OrgUnit.is_active := Some 1 |};
        {| OrgUnit.id := 2; OrgUnit.name := "EID";
           OrgUnit.is_active := Some 1 |}];
     units_seq := 2;
     user_units := [(7, 1); (9, 2)];
     users_seq := 11 |}.

Definition sample_salt : list N :=
  [0; 17; 34; 51; 68; 85; 102; 119; 136; 153; 170; 187; 204; 221; 238; 255]%N.

Definition sample_account : User.t :=
  {| User.id := 11; User.username := Some "dan";
     User.email := Some "dan@example.com";
     User.password_hash := Some (snd (hash_password sample_env "pw"));
     User.password_salt := Some (fst (hash_password sample_env "pw"));
     User.role := Some "super"; User.is_active := Some 1;
     User.created_at := Some "2025-02-01T00:00:00" |}.

Definition sample_stores : stores :=
  {| st_users :=
       {| users := [sample_user 7 "ana@example.com";
                    sample_user 9 "ben@example.com"; sample_account];
          password_reset_tokens := password_reset_tokens sample_udb;
          tokens_seq := 3 |};
     st_units := sample_units;
     st_memo :=
       mirror_user sample_account
         (mirror_user (sample_user 9 "ben@example.com") sample_db) |}.

Definition sample_db_files : memo_db :=
  snd (save_files sample_env [("a.pdf", "%PDF"); ("b.txt", "hello")] 2 sample_db).

(* ===================================================================== *)
(** ** Notions used by the further properties *)
(* ===================================================================== *)

Fixpoint all_digits (s : string) : bool :=
  match s with
  | EmptyString => true
  | String c s' => Text.isdigit c && all_digits s'
  end.

Fixpoint uint_value (acc : Z) (d : Decimal.uint) : Z :=
  match d with
  | Decimal.Nil => acc
  | Decimal.D0 l => uint_value (acc * 10 + 0) l
  | Decimal.D1 l => uint_value (acc * 10 + 1) l
  | Decimal.D2 l => uint_value (acc * 10 + 2) l
  | Decimal.D3 l => uint_value (acc * 10 + 3) l
  | Decimal.D4 l => uint_value (acc * 10 + 4) l
  | Decimal.D5 l => uint_value (acc * 10 + 5) l
  | Decimal.D6 l => uint_value (acc * 10 + 6) l
  | Decimal.D7 l => uint_value (acc * 10 + 7) l
  | Decimal.D8 l => uint_value (acc * 10 + 8) l
  | Decimal.D9 l => uint_value (acc * 10 + 9) l
  end.

Definition statuses_wf (c : catalog) : Prop :=
  List.NoDup (map Status.id (statuses c))
  /\ List.NoDup (map (fun r => Text.lower (Status.name r)) (statuses c)).

Definition categories_wf (c : catalog) : Prop :=
  List.NoDup (map Category.id (categories c))
  /\ List.NoDup (map Category.name (categories c)).

Definition renamed (stat_id : Z) (nm : string) (r : Status.t) : Status.t :=
  if Status.id r =? stat_id
  then {| Status.id := Status.id r; Status.name := nm;
          Status.is_active := Status.is_active r |}
  else r.

Definition memos_wf (db : memo_db) : Prop :=
  List.NoDup (map Memo.id (memos db))
  /\ List.NoDup (omap Memo.control_no (memos db)).

Definition edit_row (sel_id : Z) (f : edit_form) (mf upd : string) (m : Memo.t) : Memo.t :=
  if Memo.id m =? sel_id then edited f mf upd m else m.

Fixpoint join_tail (xs : list string) : string :=
  match xs with
  | [] => ""
  | y :: ys => ", " +:+ y +:+ join_tail ys
  end.





Definition units_wf (t : unit_tables) : Prop :=
  List.NoDup (map OrgUnit.id (units t))
  /\ List.NoDup (map (fun r => Text.lower (OrgUnit.name r)) (units t)).

Definition ids_name (t : unit_tables) (requested : list string) (ids : list Z)
    : Prop :=
  Forall2 (fun n i => exists r, In r (units t) /\ OrgUnit.id r = i
                                /\ same_unit_name r n = true)
    requested ids.

Definition requested_units (names : list string) : list string :=
  List.filter not_blank (map Text.strip names).

Definition username_or_email_is (key : string) (r : User.t) : bool :=
  text_is (User.username r) key || text_is (User.email r) key.

Definition unknown_key (key : string) (s : stores) : Prop :=
  forall r, In r (users (st_users s)) -> username_or_email_is key r = false.

Definition new_user_id (s : stores) : Z :=
  Sql.next_rowid (users_seq (st_units s)) (map User.id (users (st_users s))).

Definition set_role (sel_id : Z) (role_new : string) (active_new : bool)
    (r : User.t) : User.t :=
  if User.id r =? sel_id then
    {| User.id := User.id r; User.username := User.username r;
       User.email := User.email r;
       User.password_hash := User.password_hash r;
       User.password_salt := User.password_salt r;
       User.role := Some role_new;
       User.is_active := flag active_new;
       User.created_at := User.created_at r |}
  else r.

Definition users_wf (u : user_db) : Prop :=
  List.NoDup (map User.id (users u))
  /\ List.NoDup (omap User.username (users u))
  /\ List.NoDup (omap User.email (users u)).

Definition mirrored (u : user_db) (m : memo_db) : Prop :=
  forall r, In r (users u) ->
    exists r', In r' (mirror_users m) /\ User.id r' = User.id r.

(** Attachments belong to stored memos and have ids of their own. *)
Definition files_wf (db : memo_db) : Prop :=
  (forall f, In f (memo_files db) ->
     exists m, In m (memos db) /\ Memo.id m = MemoFile.memo_id f)
  /\ List.NoDup (map MemoFile.id (memo_files db)).

(* ===================================================================== *)
(** * Properties *)
(* ===================================================================== *)

(** ** ORDER BY keeps the rows *)

Lemma insert_sorted_perm {A} (le : A -> A -> bool) x l :
  Permutation (Sql.insert_sorted le x l) (x :: l).
Proof.
  induction l as [|y l IH]; simpl; [reflexivity|].
  destruct (le x y); [reflexivity|].
  rewrite IH. apply perm_swap.
Qed.

Lemma order_by_perm {A} (le : A -> A -> bool) l :
  Permutation (Sql.order_by le l) l.
Proof.
  induction l as [|x l IH]; simpl; [reflexivity|].
  rewrite insert_sorted_perm. now constructor.
Qed.

Lemma order_by_In {A} (le : A -> A -> bool) l x :
  In x (Sql.order_by le l) <-> In x l.
Proof.
  split; apply Permutation_in; [|symmetry]; apply order_by_perm.
Qed.

(** ** Sequence numbers *)

Lemma lstrip_head c r s : Text.lstrip s = String c r -> occurs c s.
Proof.
  induction s as [|d s IH]; simpl; [discriminate|].
  destruct (Text.isspace d); [auto|].
  intros [= -> _]. now left.
Qed.

Lemma rstrip_head c r s : Text.rstrip s = String c r -> exists s', s = String c s'.
Proof.
  destruct s as [|d s]; simpl; [discriminate|].
  destruct (Text.rstrip s); [destruct (Text.isspace d)|];
    intros [= -> _]; eauto.
Qed.

Lemma strip_head c r s : Text.strip s = String c r -> occurs c s.
Proof.
  unfold Text.strip. intros H.
  apply rstrip_head in H as [s' H]. eapply lstrip_head, H.
Qed.

Lemma split_nonempty sep s : Text.split sep s <> [].
Proof.
  destruct s as [|c s]; simpl; [discriminate|].
  destruct (Ascii.eqb c sep); [discriminate|].
  destruct (Text.split sep s); discriminate.
Qed.

Lemma last_split_no_sep sep s :
  ~ occurs sep (Text.last_item (Text.split sep s)).
Proof.
  unfold Text.last_item.
  induction s as [|c s IH]; simpl; [tauto|].
  destruct (Ascii.eqb_spec c sep) as [->|Hne].
  - destruct (Text.split sep s) eqn:E; [now apply split_nonempty in E|].
    exact IH.
  - destruct (Text.split sep s) as [|h t] eqn:E;
      [now apply split_nonempty in E|].
    destruct t as [|h' t']; simpl in *; [|exact IH].
    intros [?|?]; [congruence|tauto].
Qed.

Lemma digit_value_nonneg c : Text.isdigit c = true -> 0 <= Text.digit_value c.
Proof.
  unfold Text.isdigit, Text.digit_value.
  rewrite andb_true_iff, !N.leb_le. lia.
Qed.

Lemma int_digits_nonneg s : forall acc sep n,
  0 <= acc -> Text.int_digits acc sep s = Some n -> 0 <= n.
Proof.
  induction s as [|c s IH]; simpl; intros acc sep n Hacc H.
  - destruct sep; congruence.
  - destruct (Text.isdigit c) eqn:Hd.
    + eapply IH; [|exact H]. pose proof (digit_value_nonneg c Hd). lia.
    + destruct (Ascii.eqb c "_"); [|discriminate].
      destruct sep; [discriminate|]. eapply IH; eauto.
Qed.

Lemma int_nonneg s n :
  ~ occurs "-"%char s -> Text.int s = Some n -> 0 <= n.
Proof.
  intros Hno. unfold Text.int.
  destruct (Text.strip s) as [|c r] eqn:E.
  - simpl. discriminate.
  - assert (Hc : c <> "-"%char)
      by (intros ->; apply Hno; eapply strip_head; eauto).
    destruct (Ascii.eqb_spec c "+") as [->|Hp].
    + apply int_digits_nonneg. lia.
    + destruct (Ascii.eqb_spec c "-") as [->|Hm]; [congruence|].
      intros H.
      assert (H' : Text.int_digits 0 true (String c r) = Some n).
      { destruct c as [[] [] [] [] [] [] [] []]; try exact H; congruence. }
      eapply int_digits_nonneg; [|exact H']. lia.
Qed.

Lemma strip_no_occurs c s : ~ occurs c s -> ~ occurs c (Text.strip s).
Proof.
  assert (Hl : forall s, occurs c (Text.lstrip s) -> occurs c s).
  { induction s0 as [|d s0 IH]; simpl; [tauto|].
    destruct (Text.isspace d); simpl; auto. }
  assert (Hr : forall s, occurs c (Text.rstrip s) -> occurs c s).
  { induction s0 as [|d s0 IH]; simpl; [tauto|].
    destruct (Text.rstrip s0) eqn:E.
    - destruct (Text.isspace d); simpl; tauto.
    - simpl in *. tauto. }
  unfold Text.strip. intros Hno Hin. apply Hno, Hl, Hr, Hin.
Qed.

Lemma parse_control_sequence_nonneg cn n :
  parse_control_sequence cn = Some n -> 0 <= n.
Proof.
  unfold parse_control_sequence. apply int_nonneg.
  apply strip_no_occurs, last_split_no_sep.
Qed.

Lemma bump_last_seq_max a cn :
  0 <= a ->
  bump_last_seq a cn =
  match parse_control_sequence cn with
  | Some n => Z.max a n
  | None => a
  end.
Proof.
  intros Ha. unfold bump_last_seq.
  destruct (parse_control_sequence cn) as [n|] eqn:E; [|reflexivity].
  apply parse_control_sequence_nonneg in E.
  destruct (Z.eqb_spec n 0), (Z.ltb_spec a n); simpl; lia.
Qed.

Lemma max_seq_nonneg seqs : 0 <= max_seq seqs.
Proof. induction seqs; simpl; lia. Qed.

Lemma fold_bump_last_seq rows : forall a,
  0 <= a ->
  fold_left bump_last_seq rows a
  = Z.max a (max_seq (omap parse_control_sequence rows)).
Proof.
  induction rows as [|cn rows IH]; intros a Ha.
  - cbn. lia.
  - cbn [fold_left]. rewrite bump_last_seq_max by lia. cbn [omap list_omap].
    destruct (parse_control_sequence cn) as [n|] eqn:E.
    + apply parse_control_sequence_nonneg in E.
      rewrite IH by lia. cbn [max_seq fold_right]. fold (max_seq (omap parse_control_sequence rows)). lia.
    + now apply IH.
Qed.

Lemma max_seq_perm l l' : Permutation l l' -> max_seq l = max_seq l'.
Proof. induction 1; simpl in *; lia. Qed.

Lemma max_seq_upper seqs : Forall (fun n => n <= max_seq seqs) seqs.
Proof.
  induction seqs as [|n seqs IH]; constructor; simpl; [lia|].
  eapply List.Forall_impl; [|exact IH]. simpl. intros. lia.
Qed.

Lemma max_seq_attained seqs :
  Forall (fun n => 0 <= n) seqs -> seqs <> [] -> In (max_seq seqs) seqs.
Proof.
  induction seqs as [|n seqs IH]; [congruence|].
  intros Hall _. inversion Hall as [|? ? Hn Hrest]; subst.
  cbn [max_seq fold_right]. fold (max_seq seqs).
  destruct (Z.max_spec n (max_seq seqs)) as [[Hlt ->]|[_ ->]]; [|now left].
  destruct seqs as [|n' seqs']; [cbn in Hlt; lia|].
  right. apply IH; [assumption|discriminate].
Qed.

Lemma zfill2_length k : 0 <= k < 100 -> String.length (Text.zfill_d 2 k) = 2%nat.
Proof.
  intros Hk. rewrite <- (Z2Nat.id k) by lia.
  assert (Hn : (Z.to_nat k < 100)%nat) by lia.
  clear Hk. revert Hn. generalize (Z.to_nat k). intros n Hn.
  do 100 (destruct n as [|n]; [vm_compute; reflexivity|]). lia.
Qed.

Lemma yymm_two_digits dt : String.length (yymm dt) = 2%nat.
Proof. apply zfill2_length, Z.mod_pos_bound. lia. Qed.


(** ** Conditions and the unit restriction *)

Lemma holds_and3 a b : Sql.holds (Sql.and3 a b) = Sql.holds a && Sql.holds b.
Proof. destruct a as [[]|], b as [[]|]; reflexivity. Qed.

Lemma holds_or3 a b : Sql.holds (Sql.or3 a b) = Sql.holds a || Sql.holds b.
Proof. destruct a as [[]|], b as [[]|]; reflexivity. Qed.

Lemma holds_fold_or3 cs : forall c,
  Sql.holds (fold_left Sql.or3 cs c) = Sql.holds c || existsb Sql.holds cs.
Proof.
  induction cs as [|c' cs IH]; intros c; simpl.
  - now rewrite orb_false_r.
  - now rewrite IH, holds_or3, orb_assoc.
Qed.

Lemma holds_or_join cs : Sql.holds (Sql.or_join cs) = existsb Sql.holds cs.
Proof. destruct cs; simpl; [reflexivity|apply holds_fold_or3]. Qed.

Lemma memo_matches_units_iff units m :
  memo_matches_units units m = true <->
  exists unit_name mf,
    In unit_name units /\ Memo.memo_for m = Some mf
    /\ Text.like ("%" +:+ unit_name +:+ "%") mf = true.
Proof.
  unfold memo_matches_units, unit_conds.
  rewrite holds_or_join, existsb_exists. split.
  - intros (c & Hc & Hh). apply in_map_iff in Hc as (u & <- & Hu).
    unfold Sql.like3 in Hh. destruct (Memo.memo_for m) as [mf|]; [|discriminate].
    exists u, mf. repeat split; auto.
    cbn [option_map Sql.holds] in Hh.
    now destruct (Text.like ("%" +:+ u +:+ "%") mf).
  - intros (u & mf & Hu & Hmf & Hl).
    exists (Sql.like3 (Memo.memo_for m) ("%" +:+ u +:+ "%")). split.
    + apply in_map_iff. eauto.
    + rewrite Hmf. cbn [Sql.like3 option_map Sql.holds]. now rewrite Hl.
Qed.

Lemma holds_listing_where_restricted u f m :
  is_admin_role (su_role u) = false ->
  Sql.holds (listing_where (Some u) f m)
  = Sql.holds (filter_where f m) && memo_matches_units (su_units u) m.
Proof.
  intros Hr. unfold listing_where, unit_where, memo_matches_units.
  rewrite Hr. simpl. destruct (su_units u) as [|u0 us].
  - rewrite holds_and3. reflexivity.
  - now rewrite holds_and3.
Qed.

Lemma listing_where_admin u f m :
  is_admin_role (su_role u) = true ->
  listing_where (Some u) f m = filter_where f m.
Proof. intros Hr. unfold listing_where, unit_where. now rewrite Hr. Qed.

Lemma filter_ext_bool {A} (p q : A -> bool) l :
  (forall x, p x = q x) -> List.filter p l = List.filter q l.
Proof.
  intros H. induction l as [|x l IH]; simpl; [reflexivity|].
  now rewrite H, IH.
Qed.

Lemma filter_after_filter {A} (p q : A -> bool) l :
  List.filter (fun x => p x && q x) l = List.filter p (List.filter q l).
Proof.
  induction l as [|x l IH]; simpl; [reflexivity|].
  destruct (q x); simpl; rewrite ?andb_false_r, ?andb_true_r;
    [destruct (p x)|]; now rewrite IH.
Qed.

(** The listing of a restricted user is computed from the memos that match
    their units alone. *)
Lemma listing_select_restricted u f db :
  is_admin_role (su_role u) = false ->
  listing_select (Some u) f db
  = Sql.order_by listing_order
      (List.filter (fun m => Sql.holds (filter_where f m))
         (List.filter (memo_matches_units (su_units u)) (memos db))).
Proof.
  intros Hr. unfold listing_select. f_equal.
  rewrite <- filter_after_filter. apply filter_ext_bool.
  intros m. now apply holds_listing_where_restricted.
Qed.

(** ** LIKE and substrings *)

Lemma like_percent_any s : Text.like "%" s = true.
Proof. induction s as [|c s IH]; simpl in *; [reflexivity|exact IH]. Qed.

Lemma like_percent_step pat c s :
  Text.like (String "%" pat) s = true ->
  Text.like (String "%" pat) (String c s) = true.
Proof.
  cbn [Text.like]. simpl Ascii.eqb. cbv iota. intros H.
  apply orb_true_iff. right. exact H.
Qed.

Lemma like_percent_here pat s :
  Text.like pat s = true -> Text.like (String "%" pat) s = true.
Proof.
  cbn [Text.like]. simpl Ascii.eqb. cbv iota. intros H.
  destruct s; rewrite H; reflexivity.
Qed.

Lemma eq_nocase_refl c : Text.eq_nocase c c = true.
Proof. unfold Text.eq_nocase. apply Ascii.eqb_refl. Qed.

Lemma like_literal_prefix u : forall s,
  String.prefix u s = true -> Text.like (u +:+ "%") s = true.
Proof.
  induction u as [|c u IH]; intros s H.
  - apply like_percent_any.
  - destruct s as [|d s]; [discriminate|]. simpl in H.
    destruct (ascii_dec c d) as [<-|]; [|discriminate].
    specialize (IH s H).
    change (String c u +:+ "%") with (String c (u +:+ "%")).
    destruct (Ascii.eqb_spec c "%") as [->|Hne].
    + apply like_percent_step, like_percent_here, IH.
    + cbn [Text.like]. apply Ascii.eqb_neq in Hne. rewrite Hne.
      now rewrite eq_nocase_refl, orb_true_r, IH.
Qed.



(** ** C2: which memos a restricted user is shown *)




(** ** C3: what a listing depends on *)

(** C3. For a signed-in user who is not an admin, both listings are a
    function of the memos whose [memo_for] matches one of the user's units:
    two tables with the same matching memos give the same rows, so adding a
    memo that matches none of the units, or replacing one such memo by
    another, changes nothing.  For an admin the listing is the one with no
    unit condition. *)
Theorem listing_depends_on_matching_memos (u : session_user) (f : filters)
    (db : memo_db) :
  (is_admin_role (su_role u) = false ->
     (forall db',
        List.filter (memo_matches_units (su_units u)) (memos db')
        = List.filter (memo_matches_units (su_units u)) (memos db) ->
        dashboard_query (Some u) f db' = dashboard_query (Some u) f db
        /\ monitor_query (Some u) f db' = monitor_query (Some u) f db)
     /\ (forall before after added,
           memos db = (before ++ after)%list ->
           memo_matches_units (su_units u) added = false ->
           let db' := with_memos db (before ++ added :: after) in
           dashboard_query (Some u) f db' = dashboard_query (Some u) f db
           /\ monitor_query (Some u) f db' = monitor_query (Some u) f db)
     /\ (forall before after old changed,
           memos db = (before ++ old :: after)%list ->
           memo_matches_units (su_units u) old = false ->
           memo_matches_units (su_units u) changed = false ->
           let db' := with_memos db (before ++ changed :: after) in
           dashboard_query (Some u) f db' = dashboard_query (Some u) f db
           /\ monitor_query (Some u) f db' = monitor_query (Some u) f db))
  /\ (is_admin_role (su_role u) = true ->
      dashboard_query (Some u) f db
      = map dashboard_columns (unrestricted_select f db)
      /\ monitor_query (Some u) f db
         = map monitor_columns (unrestricted_select f db)).
Proof.
  split.
  - intros Hr.
    assert (Hgen : forall db',
      List.filter (memo_matches_units (su_units u)) (memos db')
      = List.filter (memo_matches_units (su_units u)) (memos db) ->
      dashboard_query (Some u) f db' = dashboard_query (Some u) f db
      /\ monitor_query (Some u) f db' = monitor_query (Some u) f db).
    { intros db' Heq. unfold dashboard_query, monitor_query.
      rewrite !listing_select_restricted by assumption.
      now rewrite Heq. }
    split; [exact Hgen|]. split.
    + intros before after added Hm Hno db'. apply Hgen.
      unfold db'. cbn [memos with_memos]. rewrite Hm.
      rewrite !List.filter_app. cbn [List.filter]. now rewrite Hno.
    + intros before after old changed Hm Hold Hnew db'. apply Hgen.
      unfold db'. cbn [memos with_memos]. rewrite Hm.
      rewrite !List.filter_app. cbn [List.filter]. now rewrite Hold, Hnew.
  - intros Hr. unfold dashboard_query, monitor_query, listing_select,
      unrestricted_select.
    rewrite (filter_ext_bool _ (fun m => Sql.holds (filter_where f m)));
      [split; reflexivity|].
    intros m. now rewrite listing_where_admin.
Qed.

Lemma listing_depends_on_matching_memos_witness :
  is_admin_role (su_role user_of_IS) = false
  /\ memos sample_db = (memos sample_db ++ [])%list
  /\ memo_matches_units (su_units user_of_IS) memo_eid = false
  /\ dashboard_query (Some user_of_IS) this_year
       (with_memos sample_db (memos sample_db ++ [memo_eid]))
     = dashboard_query (Some user_of_IS) this_year sample_db.
Proof.
  split; [reflexivity|]. split; [reflexivity|]. split; [reflexivity|].
  apply (proj1 (proj1 (proj2 (proj1
           (listing_depends_on_matching_memos user_of_IS this_year sample_db)
           eq_refl)) (memos sample_db) [] memo_eid eq_refl eq_refl)).
Defined.

(** ** C8: a restricted user without units *)

(** C8. For a signed-in user who is not an admin and has no unit, the
    Dashboard and the Monitor / Manage queries return no row, whatever the
    memos stored and the filters chosen. *)
Theorem no_units_no_rows (u : session_user) (f : filters) (db : memo_db) :
  is_admin_role (su_role u) = false ->
  su_units u = [] ->
  dashboard_query (Some u) f db = [] /\ monitor_query (Some u) f db = [].
Proof.
  intros Hr Hu. unfold dashboard_query, monitor_query, listing_select.
  assert (H : List.filter
                (fun m => Sql.holds (listing_where (Some u) f m)) (memos db)
              = []).
  { induction (memos db) as [|m l IH]; [reflexivity|]. cbn [List.filter].
    rewrite IH. unfold listing_where, unit_where. rewrite Hr, Hu.
    cbn [negb]. rewrite holds_and3. cbn [Sql.holds].
    now rewrite andb_false_r. }
  rewrite H. split; reflexivity.
Qed.

Lemma no_units_no_rows_witness :
  is_admin_role (su_role user_without_units) = false
  /\ su_units user_without_units = []
  /\ dashboard_query (Some user_without_units) this_year sample_db = []
  /\ monitor_query (Some user_without_units) this_year sample_db = [].
Proof.
  split; [reflexivity|]. split; [reflexivity|].
  apply (no_units_no_rows user_without_units this_year sample_db);
    reflexivity.
Defined.

(** The filter is the LIKE of the query: [_] in the prefix stands for any
    character and ASCII case is ignored, so these prefixes continue the
    MEMO series of the sample table. *)
Example next_control_no_like_filter :
  next_control_no sample_env "M_MO" sample_db = "M_MO 25-003"
  /\ next_control_no sample_env "memo" sample_db = "memo 25-003"
  /\ next_control_no sample_env "ISD" sample_db = "ISD 25-001".
Proof. repeat split; vm_compute; reflexivity. Qed.

(** ** C4: a control number that is already taken *)

Lemma insert_memo_clash row db cn :
  Memo.control_no row = Some cn ->
  (exists m, In m (memos db) /\ Memo.control_no m = Some cn) ->
  insert_memo row db
  = (Raise (IntegrityError "UNIQUE constraint failed: memos.control_no"), db).
Proof.
  intros Hrow (m & Hin & Hm). unfold insert_memo. rewrite Hrow.
  replace (existsb _ (memos db)) with true; [reflexivity|].
  symmetry. apply existsb_exists. exists m. split; [assumption|].
  rewrite Hm. apply String.eqb_refl.
Qed.

(** C4. Nothing reserves a control number before the insert:
    [next_control_no] leaves the database as it finds it.  When the control
    number typed on the New Memorandum page (without its outer blanks) is
    the [control_no] of a stored memo, the INSERT raises the integrity error
    of the UNIQUE constraint, pressing Save leaves the database unchanged,
    and, the required fields being filled in, the page shows "Control No.
    already exists. Please use another." *)
Theorem duplicate_control_no_rejected (e : env) (user : option session_user)
    (new_memo_units : option (list string)) (form : memo_form)
    (db : memo_db) (ctrl : string) :
  memo_control_no form = Some ctrl ->
  (exists m, In m (memos db) /\ Memo.control_no m = Some (Text.strip ctrl)) ->
  (forall prefix, snd (run_next_control_no e prefix db) = db)
  /\ (forall row, Memo.control_no row = Some (Text.strip ctrl) ->
        insert_memo row db
        = (Raise (IntegrityError "UNIQUE constraint failed: memos.control_no"),
           db))
  /\ snd (save_memorandum e user new_memo_units form db) = db
  /\ (role_in (session_role user) ["admin"; "super"; "user"] = true ->
      ctrl <> "" -> in_subject form <> "" ->
      save_memo_for_units (session_role user) new_memo_units
        (session_units user) <> [] ->
      save_memorandum e user new_memo_units form db
      = (Ok [st_error "Control No. already exists. Please use another."], db)).
Proof.
  intros Hctrl Hdup.
  split; [reflexivity|].
  assert (Hbody : forall row, Memo.control_no row = Some (Text.strip ctrl) ->
            insert_memo row db
            = (Raise (IntegrityError
                        "UNIQUE constraint failed: memos.control_no"), db))
    by (intros row Hrow; now apply (insert_memo_clash row db _ Hrow)).
  split; [exact Hbody|].
  split.
  - unfold save_memorandum. rewrite Hctrl.
    destruct (negb (role_in _ _)); [reflexivity|].
    destruct (String.eqb ctrl ""); [reflexivity|].
    destruct (String.eqb (in_subject form) ""); [reflexivity|].
    destruct (save_memo_for_units _ _ _); [reflexivity|].
    rewrite Hbody by reflexivity. reflexivity.
  - intros Hrole Hne Hsub Hunits. unfold save_memorandum.
    rewrite Hctrl, Hrole. cbn [negb].
    apply String.eqb_neq in Hne, Hsub. rewrite Hne, Hsub.
    destruct (save_memo_for_units _ _ _); [congruence|].
    rewrite Hbody by reflexivity. reflexivity.
Qed.

Lemma duplicate_control_no_rejected_witness :
  memo_control_no (sample_form " MEMO 25-001 ") = Some " MEMO 25-001 "
  /\ (exists m, In m (memos sample_db)
                /\ Memo.control_no m = Some (Text.strip " MEMO 25-001 "))
  /\ save_memorandum sample_env (Some user_of_IS) None
       (sample_form " MEMO 25-001 ") sample_db
     = (Ok [st_error "Control No. already exists. Please use another."],
        sample_db).
Proof.
  assert (Hdup : exists m, In m (memos sample_db)
                /\ Memo.control_no m = Some (Text.strip " MEMO 25-001 ")).
  { exists memo_fiscal_lower. split; [left; reflexivity|reflexivity]. }
  split; [reflexivity|]. split; [exact Hdup|].
  apply (proj2 (proj2 (proj2
           (duplicate_control_no_rejected sample_env (Some user_of_IS) None
              (sample_form " MEMO 25-001 ") sample_db " MEMO 25-001 "
              eq_refl Hdup))));
    [reflexivity|discriminate|discriminate|discriminate].
Defined.

(** ** C5: the prefix of a unit *)

(** C5. [get_unit_prefix] returns the prefix stored in [control_prefixes]
    under exactly the given unit name when there is one; with no such row,
    and for the empty unit name, it returns the value of the setting
    [control_prefix], which is "MEMO" when the setting is missing.  On the New
    Memorandum page the suggested control number is built from the prefix of
    the first selected unit: for the roles super and admin the first of the
    units picked on the page, for every other role the first of the user's
    own units.  A super or admin who picked none falls back on the first of
    their own units, and without any unit the global default is used. *)
Theorem unit_prefix_lookup (unit_name : string) (db : memo_db) :
  (unit_name <> "" -> forall prefix,
     control_prefixes db !! unit_name = Some prefix ->
     get_unit_prefix unit_name db = Some prefix)
  /\ (control_prefixes db !! unit_name = None ->
      get_unit_prefix unit_name db
      = get_setting "control_prefix" (Some "MEMO") db)
  /\ get_unit_prefix "" db = get_setting "control_prefix" (Some "MEMO") db
  /\ (settings db !! "control_prefix" = None ->
      get_setting "control_prefix" (Some "MEMO") db = Some "MEMO")
  /\ (forall value, settings db !! "control_prefix" = Some value ->
      get_setting "control_prefix" (Some "MEMO") db = value)
  /\ (forall e role_curr new_memo_units current_units rest,
        new_memo_sel_units role_curr new_memo_units current_units
        = unit_name :: rest ->
        new_memo_unit_prefix role_curr new_memo_units current_units db
        = get_unit_prefix unit_name db
        /\ new_memo_suggested e role_curr new_memo_units current_units db
           = next_control_no e (fmt_optional (get_unit_prefix unit_name db))
               db)
  /\ (forall e role_curr new_memo_units current_units rest,
        (role_in role_curr ["super"; "admin"] = true
         /\ new_memo_units = Some (unit_name :: rest))
        \/ (role_in role_curr ["super"; "admin"] = false
            /\ current_units = unit_name :: rest) ->
        new_memo_unit_prefix role_curr new_memo_units current_units db
        = get_unit_prefix unit_name db
        /\ new_memo_suggested e role_curr new_memo_units current_units db
           = next_control_no e (fmt_optional (get_unit_prefix unit_name db))
               db)
  /\ (forall e role_curr new_memo_units rest,
        role_in role_curr ["super"; "admin"] = true ->
        new_memo_units = None \/ new_memo_units = Some [] ->
        new_memo_unit_prefix role_curr new_memo_units (unit_name :: rest) db
        = get_unit_prefix unit_name db
        /\ new_memo_suggested e role_curr new_memo_units (unit_name :: rest) db
           = next_control_no e (fmt_optional (get_unit_prefix unit_name db))
               db)
  /\ (forall e role_curr new_memo_units,
        role_in role_curr ["super"; "admin"] = false
        \/ new_memo_units = None \/ new_memo_units = Some [] ->
        new_memo_unit_prefix role_curr new_memo_units [] db
        = get_setting "control_prefix" (Some "MEMO") db
        /\ new_memo_suggested e role_curr new_memo_units [] db
           = next_control_no e
               (fmt_optional (get_setting "control_prefix" (Some "MEMO") db))
               db).
Proof.
  split; [|split; [|split; [|split; [|split; [|split; [|split; [|split]]]]]]].
  - intros Hne prefix Hrow. unfold get_unit_prefix.
    apply String.eqb_neq in Hne. now rewrite Hne, Hrow.
  - intros Hrow. unfold get_unit_prefix. rewrite Hrow.
    now destruct (String.eqb unit_name "").
  - reflexivity.
  - intros Hs. unfold get_setting, Sql.text in *. now rewrite Hs.
  - intros value Hs. unfold get_setting, Sql.text in *. now rewrite Hs.
  - intros e role_curr new_memo_units current_units rest Hsel.
    unfold new_memo_suggested, new_memo_unit_prefix. rewrite Hsel.
    split; reflexivity.
  - intros e role_curr new_memo_units current_units rest
      [[Hrole ->]|[Hrole ->]];
      unfold new_memo_suggested, new_memo_unit_prefix, new_memo_sel_units;
      rewrite Hrole; split; reflexivity.
  - intros e role_curr new_memo_units rest Hrole [-> | ->];
      unfold new_memo_suggested, new_memo_unit_prefix, new_memo_sel_units;
      rewrite Hrole; split; reflexivity.
  - intros e role_curr new_memo_units [Hrole|[-> | ->]];
      unfold new_memo_suggested, new_memo_unit_prefix, new_memo_sel_units;
      [rewrite Hrole|destruct (role_in role_curr _)..]; split; reflexivity.
Qed.

Lemma unit_prefix_lookup_witness :
  ("IS" <> "" /\ control_prefixes sample_db !! "IS" = Some "ISD"
   /\ get_unit_prefix "IS" sample_db = Some "ISD")
  /\ (control_prefixes sample_db !! "is" = None
      /\ get_unit_prefix "is" sample_db = Some "MEMO")
  /\ (new_memo_sel_units (Some "user") None ["IS"; "FMG"] = ["IS"; "FMG"]
      /\ new_memo_suggested sample_env (Some "user") None ["IS"; "FMG"]
           sample_db = "ISD 25-001")
  /\ new_memo_suggested sample_env (Some "admin") (Some ["EID"; "IS"]) ["IS"]
       sample_db = "MEMO 25-003"
  /\ new_memo_suggested sample_env (Some "user") (Some ["EID"]) ["IS"]
       sample_db = "ISD 25-001".
Proof.
  split; [|split; [|split; [|split]]].
  - split; [discriminate|]. split; [reflexivity|].
    apply (proj1 (unit_prefix_lookup "IS" sample_db));
      [discriminate|reflexivity].
  - split; [reflexivity|].
    rewrite (proj1 (proj2 (unit_prefix_lookup "is" sample_db)) eq_refl).
    reflexivity.
  - split; [reflexivity|].
    pose proof (unit_prefix_lookup "IS" sample_db) as (_ & _ & _ & _ & _ & H & _).
    rewrite (proj2 (H sample_env (Some "user") None ["IS"; "FMG"] ["FMG"]
                      eq_refl)).
    vm_compute. reflexivity.
  - pose proof (unit_prefix_lookup "EID" sample_db)
      as (_ & _ & _ & _ & _ & _ & H & _).
    rewrite (proj2 (H sample_env (Some "admin") (Some ["EID"; "IS"]) ["IS"]
                      ["IS"] (or_introl (conj eq_refl eq_refl)))).
    vm_compute. reflexivity.
  - pose proof (unit_prefix_lookup "IS" sample_db)
      as (_ & _ & _ & _ & _ & _ & H & _).
    rewrite (proj2 (H sample_env (Some "user") (Some ["EID"]) ["IS"] []
                      (or_intror (conj eq_refl eq_refl)))).
    vm_compute. reflexivity.
Defined.

(** ** C7: the audit trail never fails its caller *)

Lemma insert_audit_trail_raises ts uid action memo_id details db ex :
  insert_audit_trail ts uid action memo_id details db = Raise ex ->
  is_Exception ex = true.
Proof.
  unfold insert_audit_trail.
  destruct (match uid with Some _ => _ | None => _ end);
    [discriminate|]. now intros [= <-].
Qed.

(** C7. For every action, memo id and details, whoever is signed in and
    whatever the database holds, [log_action] returns normally: either the
    audit trail has gained the new row and nothing else has changed, or the
    exception was swallowed and the database is as before. *)
Theorem log_action_never_raises (e : env) (user : option session_user)
    (action : string) (memo_id : option Z) (details : string) (db : memo_db) :
  exists db',
    log_action e user action memo_id details db = Ok db'
    /\ (db' = db
        \/ exists row,
             audit_trail db' = (audit_trail db ++ [row])%list
             /\ Audit.ts row = Some (today_ts e)
             /\ Audit.user_id row
                = match user with Some u => su_id u | None => None end
             /\ Audit.action row = Some action
             /\ Audit.memo_id row = memo_id
             /\ Audit.details row = Some details
             /\ memos db' = memos db
             /\ memo_files db' = memo_files db
             /\ settings db' = settings db
             /\ control_prefixes db' = control_prefixes db
             /\ mirror_users db' = mirror_users db).
Proof.
  unfold log_action.
  destruct (insert_audit_trail (today_ts e)
              match user with Some u => su_id u | None => None end
              action memo_id details db) as [db1|ex] eqn:E.
  - exists db1. split; [reflexivity|]. right.
    unfold insert_audit_trail in E.
    destruct (match (match user with Some u => su_id u | None => None end)
              with Some _ => _ | None => _ end); [|discriminate].
    injection E as <-. eexists. cbn. repeat split; reflexivity.
  - exists db. apply insert_audit_trail_raises in E.
    cbn [try_except_Exception_pass]. rewrite E. auto.
Qed.

(** Both outcomes occur: user 7 has a row in the memo database's [users]
    table, user 8 has none and the foreign key rejects the insert. *)
Example log_action_inserts :
  option_map (fun db => length (audit_trail db))
    (match log_action sample_env (Some user_of_IS) "login" None "" sample_db
     with Ok db => Some db | Raise _ => None end)
  = Some 1%nat.
Proof. reflexivity. Qed.

Example log_action_swallows :
  insert_audit_trail (today_ts sample_env) (Some 8) "login" None "" sample_db
  = Raise (IntegrityError "FOREIGN KEY constraint failed")
  /\ log_action sample_env (Some user_without_units) "login" None "" sample_db
     = Ok sample_db.
Proof. split; reflexivity. Qed.

(** ** C9: clearing the contents of a memo *)

(** C9. [clear_memo_contents] keeps every row in its place with its [id],
    [control_no], [category], [status] and [created_at]; on the row with the
    given id, [date_log] and [date_doc] become NULL, [memo_from], [thru],
    [memo_for], [subject] and [notes] become the empty text and
    [updated_at] the current timestamp; every other row, and every other
    table, is as it was. *)
Theorem clear_memo_contents_frame (e : env) (memo_id : Z) (db : memo_db) :
  let db' := clear_memo_contents e memo_id db in
  length (memos db') = length (memos db)
  /\ (forall i m, nth_error (memos db) i = Some m ->
        exists m',
          nth_error (memos db') i = Some m'
          /\ Memo.id m' = Memo.id m
          /\ Memo.control_no m' = Memo.control_no m
          /\ Memo.category m' = Memo.category m
          /\ Memo.status m' = Memo.status m
          /\ Memo.created_at m' = Memo.created_at m
          /\ (Memo.id m = memo_id ->
                Memo.date_log m' = None /\ Memo.date_doc m' = None
                /\ Memo.memo_from m' = Some "" /\ Memo.thru m' = Some ""
                /\ Memo.memo_for m' = Some "" /\ Memo.subject m' = Some ""
                /\ Memo.notes m' = Some ""
                /\ Memo.updated_at m' = Some (today_ts e))
          /\ (Memo.id m <> memo_id -> m' = m))
  /\ settings db' = settings db
  /\ control_prefixes db' = control_prefixes db
  /\ memos_seq db' = memos_seq db
  /\ memo_files db' = memo_files db
  /\ mirror_users db' = mirror_users db
  /\ audit_trail db' = audit_trail db.
Proof.
  intros db'. split; [apply length_map|].
  split; [|repeat split; reflexivity].
  intros i m Hi. unfold db'. cbn [memos clear_memo_contents].
  rewrite nth_error_map, Hi. cbn [option_map].
  eexists. split; [reflexivity|].
  destruct (Z.eqb_spec (Memo.id m) memo_id) as [Heq|Hne]; cbn.
  - split; [reflexivity|]. split; [reflexivity|]. split; [reflexivity|].
    split; [reflexivity|]. split; [reflexivity|].
    split; [intros _; repeat split|intros; congruence].
  - split; [reflexivity|]. split; [reflexivity|]. split; [reflexivity|].
    split; [reflexivity|]. split; [reflexivity|].
    split; [intros; congruence|reflexivity].
Qed.

Lemma clear_memo_contents_frame_witness :
  nth_error (memos sample_db) 1 = Some memo_is_last_year
  /\ Memo.id memo_is_last_year = 2
  /\ nth_error (memos (clear_memo_contents sample_env 2 sample_db)) 1
     = Some (wipe (today_ts sample_env) memo_is_last_year)
  /\ nth_error (memos (clear_memo_contents sample_env 2 sample_db)) 0
     = Some memo_fiscal_lower.
Proof.
  split; [reflexivity|]. split; [reflexivity|].
  pose proof (clear_memo_contents_frame sample_env 2 sample_db)
    as (_ & H & _).
  split.
  - destruct (H 1%nat memo_is_last_year eq_refl) as (m' & Hm' & _).
    rewrite Hm'. vm_compute in Hm'. now injection Hm' as <-.
  - destruct (H 0%nat memo_fiscal_lower eq_refl)
      as (m' & Hm' & _ & _ & _ & _ & _ & _ & Hsame).
    rewrite Hm'. now rewrite Hsame by discriminate.
Defined.

(** ** C10: reset tokens after a password change *)

Lemma purge_keeps_users e db :
  users (purge_expired_reset_tokens e db) = users db.
Proof. reflexivity. Qed.

Lemma purge_tokens_incl e db t :
  In t (password_reset_tokens (purge_expired_reset_tokens e db)) ->
  In t (password_reset_tokens db).
Proof. cbn. rewrite filter_In. tauto. Qed.

Lemma matching_reset_rows_In email token now_iso db row :
  In row (matching_reset_rows email token now_iso db) ->
  In row (password_reset_tokens db)
  /\ exists u, In u (users db) /\ Token.user_id row = User.id u
               /\ email_matches u email = true.
Proof.
  unfold matching_reset_rows. rewrite order_by_In, in_flat_map.
  intros (pr & Hpr & Hin). apply in_map_iff in Hin as (u & <- & Hu).
  apply filter_In in Hu as (Hu & Hc).
  rewrite !andb_true_iff in Hc. destruct Hc as (((Hid & Hem) & _) & _).
  split; [assumption|]. exists u. repeat split; auto. lia.
Qed.

Lemma validate_returns e email token db uid :
  fst (validate_password_reset_token e email token db) = Some uid ->
  exists row u,
    In row (password_reset_tokens db) /\ Token.user_id row = uid
    /\ In u (users db) /\ User.id u = uid
    /\ email_matches u (Text.strip email) = true.
Proof.
  unfold validate_password_reset_token.
  destruct (_ || _); [discriminate|].
  destruct (matching_reset_rows _ _ _ _) as [|row rest] eqn:E; [discriminate|].
  cbn. intros [= <-].
  assert (Hin : In row (matching_reset_rows (Text.strip email)
                  (Text.strip token) (isoformat (utcnow e))
                  (purge_expired_reset_tokens e db)))
    by (rewrite E; now left).
  apply matching_reset_rows_In in Hin as (Hrow & u & Hu & Hid & Hem).
  exists row, u. rewrite purge_keeps_users in Hu.
  repeat split; eauto using purge_tokens_incl.
Qed.

(** C10. When [update_user_password] has succeeded, no reset token of that
    user is left (those of other users are kept), so
    [validate_password_reset_token] never returns that user's id again, and
    for an email that only that user has, up to ASCII case, it returns
    [None], whatever token is presented and whenever.  When another account
    has the same email up to case, the validation can still succeed, for
    that other account. *)
Theorem reset_tokens_single_use (e : env) (user_id : Z)
    (new_password : string) (d d' : dbs) (msg : string) :
  update_user_password e user_id new_password d = ((true, msg), d') ->
  (forall t, In t (password_reset_tokens (udb d')) ->
             Token.user_id t <> user_id)
  /\ (forall t, In t (password_reset_tokens (udb d)) ->
                Token.user_id t <> user_id ->
                In t (password_reset_tokens (udb d')))
  /\ (forall e' email token,
        fst (validate_password_reset_token e' email token (udb d'))
        <> Some user_id)
  /\ (forall e' email token,
        (forall u, In u (users (udb d')) ->
                   email_matches u (Text.strip email) = true ->
                   User.id u = user_id) ->
        fst (validate_password_reset_token e' email token (udb d')) = None).
Proof.
  intros Hupd.
  assert (Htok : password_reset_tokens (udb d')
                 = List.filter (fun t => negb (Token.user_id t =? user_id))
                     (password_reset_tokens (udb d))).
  { unfold update_user_password in Hupd.
    destruct (String.eqb new_password ""); [discriminate|].
    cbn in Hupd. now injection Hupd as _ <-. }
  assert (Hgone : forall t, In t (password_reset_tokens (udb d')) ->
                            Token.user_id t <> user_id).
  { intros t. rewrite Htok, filter_In, negb_true_iff, Z.eqb_neq. tauto. }
  split; [exact Hgone|]. split; [|split].
  - intros t Hin Hne. rewrite Htok, filter_In, negb_true_iff, Z.eqb_neq.
    tauto.
  - intros e' email token Hv.
    apply validate_returns in Hv as (row & _ & Hrow & Hid & _).
    now apply (Hgone row).
  - intros e' email token Honly.
    destruct (fst (validate_password_reset_token e' email token (udb d')))
      as [uid|] eqn:Hv; [|reflexivity].
    apply validate_returns in Hv as (row & u & Hrow & Hid & Hu & Huid & Hem).
    exfalso. apply (Hgone row Hrow). rewrite Hid, <- Huid. now apply Honly.
Qed.

Lemma reset_tokens_single_use_witness :
  fst (validate_password_reset_token sample_env "Ana@Example.com" "123456"
         sample_udb) = Some 7
  /\ fst (update_user_password sample_env 7 "s3cret" sample_dbs)
     = (true, "Password updated successfully.")
  /\ map Token.id
       (password_reset_tokens
          (udb (snd (update_user_password sample_env 7 "s3cret" sample_dbs))))
     = [2]
  /\ fst (validate_password_reset_token sample_env "Ana@Example.com" "123456"
            (udb (snd (update_user_password sample_env 7 "s3cret"
                         sample_dbs)))) = None.
Proof.
  split; [vm_compute; reflexivity|]. split; [reflexivity|].
  split; [vm_compute; reflexivity|].
  apply (proj2 (proj2 (proj2
           (reset_tokens_single_use sample_env 7 "s3cret" sample_dbs
              (snd (update_user_password sample_env 7 "s3cret" sample_dbs))
              "Password updated successfully." eq_refl)))).
  intros u Hu Hem. vm_compute in Hu.
  destruct Hu as [<-|[<-|[]]]; [reflexivity|vm_compute in Hem; discriminate].
Defined.

(** Two accounts whose emails differ in case only, which the UNIQUE
    constraints allow, hold the same six digits: once the password of the
    first is changed, its token is gone, yet its email with those digits is
    still accepted, for the second account. *)
Lemma reset_tokens_counterexample :
  let d' := snd (update_user_password sample_env 7 "n3w" sample_dbs_twins) in
  users_wf (udb sample_dbs_twins)
  /\ map User.email (List.filter (fun u => User.id u =? 7)
                       (users (udb sample_dbs_twins)))
     = [Some "ana@example.com"]
  /\ map Token.user_id (password_reset_tokens (udb sample_dbs_twins)) = [7; 9]
  /\ fst (update_user_password sample_env 7 "n3w" sample_dbs_twins)
     = (true, "Password updated successfully.")
  /\ map Token.user_id (password_reset_tokens (udb d')) = [9]
  /\ fst (validate_password_reset_token sample_env "ana@example.com" "111111"
            (udb d')) = Some 9
  /\ fst (validate_password_reset_token sample_env "ana@example.com" "111111"
            (udb d')) <> None.
Proof.
  split.
  { unfold users_wf. cbn.
    repeat split; repeat (constructor; [cbn; intuition congruence|]);
      constructor. }
  repeat split; try (vm_compute; reflexivity). vm_compute. discriminate.
Qed.

(** ** C6: the password-reset wizard *)

Lemma reset_tab_stage e i s0 d :
  let s := reset_init s0 in
  let r := reset_tab e i s0 d in
  reset_stage (session_after r) = reset_stage s
  \/ reset_stage (session_after r) = next_stage (reset_stage s).
Proof.
  intros s r. unfold r, reset_tab. fold s.
  destruct (reset_stage s) eqn:Hst; tab_cases; cbn;
    rewrite ?Hst; auto.
Qed.

Lemma reset_tab_to_token e i s0 d :
  let s := reset_init s0 in
  let r := reset_tab e i s0 d in
  reset_stage s = stage_email ->
  reset_stage (session_after r) = stage_token ->
  exists msg,
    send_tok i = true
    /\ fst (create_password_reset_token e (Text.strip (email_input i)) (udb d))
       = (true, msg)
    /\ reset_email (session_after r) = Text.strip (email_input i)
    /\ calls r = [called_create (Text.strip (email_input i)) (true, msg)].
Proof.
  intros s r Hst. unfold r, reset_tab. fold s. rewrite Hst.
  destruct (send_tok i); [|cbn; congruence].
  destruct (String.eqb (email_input i) ""); [cbn; congruence|].
  destruct (create_password_reset_token _ _ _) as [[ok msg] u'].
  destruct ok; cbn; [|congruence]. intros _. exists msg. auto.
Qed.

Lemma reset_tab_to_password e i s0 d :
  let s := reset_init s0 in
  let r := reset_tab e i s0 d in
  reset_stage s = stage_token ->
  reset_stage (session_after r) = stage_password ->
  exists uid,
    verify_tok i = true
    /\ fst (validate_password_reset_token e (reset_email s)
              (Text.strip (token_input i)) (udb d)) = Some uid
    /\ reset_user_id (session_after r) = Some uid
    /\ reset_email (session_after r) = reset_email s
    /\ calls r = [called_validate (reset_email s)
                    (Text.strip (token_input i)) (Some uid)].
Proof.
  intros s r Hst. unfold r, reset_tab. fold s. rewrite Hst.
  destruct (verify_tok i); [|cbn; congruence].
  destruct (String.eqb (token_input i) ""); [cbn; congruence|].
  destruct (validate_password_reset_token _ _ _ _) as [ret u'].
  destruct ret as [uid|]; [|cbn; congruence].
  destruct (negb (uid =? 0)); cbn; [|congruence].
  intros _. exists uid. auto.
Qed.

Lemma reset_tab_update e i s0 d uid pw ret :
  let s := reset_init s0 in
  In (called_update uid pw ret) (calls (reset_tab e i s0 d)) ->
  reset_stage s = stage_password /\ reset_user_id s = Some uid
  /\ change_pw i = true /\ pw = new_pw i
  /\ ret = fst (update_user_password e uid pw d).
Proof.
  intros s. unfold reset_tab. fold s.
  destruct (reset_stage s) eqn:Hst.
  - tab_cases; cbn; intuition discriminate.
  - tab_cases; cbn; intuition discriminate.
  - destruct (change_pw i); [|cbn; tauto].
    destruct (String.eqb (new_pw i) ""); [cbn; tauto|].
    destruct (negb _); [cbn; tauto|].
    destruct (reset_user_id s) as [u|]; [|cbn; tauto].
    destruct (u =? 0); [cbn; tauto|].
    destruct (update_user_password e u (new_pw i) d) as [[ok msg] d'] eqn:E.
    destruct ok; cbn; intros [[= <- <- <-]|[]]; rewrite E; auto.
Qed.

Lemma update_was_validated_app tr cs uid :
  update_was_validated tr uid -> update_was_validated (tr ++ cs) uid.
Proof.
  intros (em & tk & msg & pre & mid & -> & Hin).
  exists em, tk, msg, pre, (mid ++ cs)%list. split.
  - now rewrite <- List.app_assoc.
  - apply in_or_app. now left.
Qed.

Lemma wizard_inv_app s tr cs :
  wizard_inv s tr -> wizard_inv s (tr ++ cs).
Proof.
  unfold wizard_inv. destruct (reset_stage s); [trivial| |].
  - intros (msg & pre & mid & ->). exists msg, pre, (mid ++ cs)%list.
    now rewrite <- List.app_assoc.
  - intros (uid & Hid & Hv). exists uid. split; [assumption|].
    now apply update_was_validated_app.
Qed.

Lemma reset_tab_calls e i s0 d :
  calls (reset_tab e i s0 d) = []
  \/ exists c, calls (reset_tab e i s0 d) = [c].
Proof.
  unfold reset_tab. tab_cases; cbn; eauto.
Qed.

Lemma reset_tab_inv e i s0 d tr :
  wizard_inv (reset_init s0) tr ->
  let r := reset_tab e i s0 d in
  wizard_inv (session_after r) (tr ++ calls r).
Proof.
  intros Hinv r.
  destruct (reset_tab_stage e i s0 d) as [Hsame|Hnext]; fold r in Hsame || fold r in Hnext.
  - (* the stage did not move: the session entries did not either *)
    assert (Hs : session_after r = reset_init s0).
    { unfold r, reset_tab in *.
      destruct (reset_stage (reset_init s0)) eqn:Hst; tab_cases;
        cbn in *; congruence. }
    rewrite Hs. now apply wizard_inv_app.
  - destruct (reset_stage (reset_init s0)) eqn:Hst; cbn in Hnext.
    + destruct (reset_tab_to_token e i s0 d Hst Hnext)
        as (msg & _ & _ & Hem & Hc).
      fold r in Hem, Hc. unfold wizard_inv. rewrite Hnext, Hem, Hc.
      exists msg, tr, []. reflexivity.
    + destruct (reset_tab_to_password e i s0 d Hst Hnext)
        as (uid & _ & _ & Hid & _ & Hc).
      fold r in Hid, Hc. unfold wizard_inv in *. rewrite Hnext, Hid, Hc.
      rewrite Hst in Hinv. destruct Hinv as (msg & pre & mid & ->).
      exists uid. split; [reflexivity|].
      exists (reset_email (reset_init s0)), (Text.strip (token_input i)), msg,
        pre, (mid ++ [called_validate (reset_email (reset_init s0))
                        (Text.strip (token_input i)) (Some uid)])%list.
      split; [now rewrite <- List.app_assoc|].
      apply in_or_app. right. now left.
    + unfold wizard_inv. now rewrite Hnext.
Qed.

Lemma updates_validated_snoc tr c :
  updates_validated tr ->
  (forall uid pw ret, c = called_update uid pw ret ->
                      update_was_validated tr uid) ->
  updates_validated (tr ++ [c]).
Proof.
  intros Htr Hc before uid pw ret after Heq.
  destruct (exists_last (l := called_update uid pw ret :: after))
    as (front & x & Hfx); [discriminate|].
  rewrite Hfx, List.app_assoc in Heq.
  apply app_inj_tail in Heq as [Htr' <-].
  destruct front as [|y front].
  - cbn in Hfx. injection Hfx as <- ->.
    rewrite List.app_nil_r in Htr'. subst before. now apply (Hc uid pw ret).
  - cbn in Hfx. injection Hfx as <- ->.
    apply (Htr before uid pw ret front). exact Htr'.
Qed.

Lemma reset_visit_inv runs : forall s0 tr,
  wizard_inv (reset_init s0) tr ->
  updates_validated tr ->
  wizard_inv (fst (reset_visit runs s0)) (tr ++ snd (reset_visit runs s0))
  /\ updates_validated (tr ++ snd (reset_visit runs s0)).
Proof.
  induction runs as [|[[e i] d] runs IH]; intros s0 tr Hinv Hval.
  - cbn. rewrite List.app_nil_r. auto.
  - cbn [reset_visit].
    destruct (reset_visit runs (Some (session_after (reset_tab e i s0 d))))
      as [s' cs] eqn:E. cbn [fst snd].
    pose proof (reset_tab_inv e i s0 d tr Hinv) as Hinv'. cbn zeta in Hinv'.
    assert (Hval' : updates_validated (tr ++ calls (reset_tab e i s0 d))).
    { destruct (reset_tab_calls e i s0 d) as [->|[c Hc]];
        [now rewrite List.app_nil_r|].
      rewrite Hc. apply updates_validated_snoc; [assumption|].
      intros uid pw ret ->.
      assert (Hin : In (called_update uid pw ret)
                      (calls (reset_tab e i s0 d))) by (rewrite Hc; now left).
      apply reset_tab_update in Hin as (Hst & Hid & _).
      unfold wizard_inv in Hinv. rewrite Hst in Hinv.
      destruct Hinv as (uid' & Hid' & Hv). congruence. }
    specialize (IH (Some (session_after (reset_tab e i s0 d))) _ Hinv' Hval').
    rewrite E in IH. cbn [fst snd] in IH.
    now rewrite List.app_assoc.
Qed.

Lemma create_keeps_users e email db :
  users (snd (create_password_reset_token e email db)) = users db.
Proof.
  unfold create_password_reset_token.
  destruct (email =? "")%string; [reflexivity|].
  destruct (List.find _ _); reflexivity.
Qed.

Lemma validate_keeps_users e email token db :
  users (snd (validate_password_reset_token e email token db)) = users db.
Proof.
  unfold validate_password_reset_token.
  destruct (_ || _); [reflexivity|].
  destruct (matching_reset_rows _ _ _ _); reflexivity.
Qed.

Lemma reset_tab_writes e i s0 d :
  let r := reset_tab e i s0 d in
  dbs_after r = fold_left (fun d' c => call_effect e c d') (calls r) d
  /\ Forall (fun c => call_returns e c d) (calls r).
Proof.
  cbv zeta. unfold reset_tab.
  destruct (reset_stage (reset_init s0)).
  - destruct (send_tok i); [|split; [reflexivity|constructor]].
    destruct (String.eqb (email_input i) ""); [split; [reflexivity|constructor]|].
    destruct (create_password_reset_token e _ (udb d)) as [[ok msg] u'] eqn:E.
    destruct ok; cbn [dbs_after calls fold_left call_effect];
      rewrite E; (split; [reflexivity|]); repeat constructor;
      cbn [call_returns]; now rewrite E.
  - destruct (verify_tok i); [|split; [reflexivity|constructor]].
    destruct (String.eqb (token_input i) ""); [split; [reflexivity|constructor]|].
    destruct (validate_password_reset_token e _ _ (udb d)) as [ret u'] eqn:E.
    destruct ret as [uid|]; [destruct (negb (uid =? 0))|];
      cbn [dbs_after calls fold_left call_effect];
      rewrite E; (split; [reflexivity|]); repeat constructor;
      cbn [call_returns]; now rewrite E.
  - destruct (change_pw i); [|split; [reflexivity|constructor]].
    destruct (String.eqb (new_pw i) ""); [split; [reflexivity|constructor]|].
    destruct (negb _); [split; [reflexivity|constructor]|].
    destruct (reset_user_id (reset_init s0)) as [u|];
      [|split; [reflexivity|constructor]].
    destruct (u =? 0); [split; [reflexivity|constructor]|].
    destruct (update_user_password e u (new_pw i) d) as [[ok msg] d'] eqn:E.
    destruct ok; cbn [dbs_after calls fold_left call_effect];
      rewrite E; (split; [reflexivity|]); repeat constructor;
      cbn [call_returns]; now rewrite E.
Qed.

Lemma reset_tab_keeps_passwords e i s0 d :
  reset_stage (reset_init s0) <> stage_password ->
  users (udb (dbs_after (reset_tab e i s0 d))) = users (udb d)
  /\ mdb (dbs_after (reset_tab e i s0 d)) = mdb d.
Proof.
  intros Hst. unfold reset_tab.
  destruct (reset_stage (reset_init s0)); [| |congruence].
  - destruct (send_tok i); [|split; reflexivity].
    destruct (String.eqb (email_input i) ""); [split; reflexivity|].
    pose proof (create_keeps_users e (Text.strip (email_input i)) (udb d)) as H.
    destruct (create_password_reset_token e _ (udb d)) as [[ok msg] u'].
    destruct ok; cbn [dbs_after with_udb udb mdb]; auto.
  - destruct (verify_tok i); [|split; reflexivity].
    destruct (String.eqb (token_input i) ""); [split; reflexivity|].
    pose proof (validate_keeps_users e (reset_email (reset_init s0))
                  (Text.strip (token_input i)) (udb d)) as H.
    destruct (validate_password_reset_token e _ _ (udb d)) as [ret u'].
    destruct ret as [uid|]; [destruct (negb (uid =? 0))|];
      cbn [dbs_after with_udb udb mdb]; auto.
Qed.

Lemma reset_tab_password_stage e i s0 d :
  reset_stage (reset_init s0) = stage_password ->
  dbs_after (reset_tab e i s0 d) = d
  \/ exists uid,
       reset_user_id (reset_init s0) = Some uid
       /\ dbs_after (reset_tab e i s0 d)
          = snd (update_user_password e uid (new_pw i) d).
Proof.
  intros Hst. unfold reset_tab. rewrite Hst.
  destruct (change_pw i); [|now left].
  destruct (String.eqb (new_pw i) ""); [now left|].
  destruct (negb _); [now left|].
  destruct (reset_user_id (reset_init s0)) as [u|]; [|now left].
  destruct (u =? 0); [now left|].
  right. exists u. split; [reflexivity|].
  destruct (update_user_password e u (new_pw i) d) as [[ok msg] d'].
  now destruct ok.
Qed.

Lemma reset_tab_same_stage e i s0 d :
  reset_stage (session_after (reset_tab e i s0 d))
  = reset_stage (reset_init s0) ->
  session_after (reset_tab e i s0 d) = reset_init s0.
Proof.
  unfold reset_tab.
  destruct (reset_stage (reset_init s0)) eqn:Hst; tab_cases;
    cbn in *; congruence.
Qed.

Lemma reset_tab_init e i s0 d :
  reset_tab e i (Some (reset_init s0)) d = reset_tab e i s0 d.
Proof. reflexivity. Qed.

Lemma validated_in_visit_app runs more uid :
  validated_in_visit runs uid -> validated_in_visit (runs ++ more) uid.
Proof.
  intros (pre & e0 & i0 & d0 & mid & e1 & i1 & d1 & post & msg & -> & Hc & Hv).
  exists pre, e0, i0, d0, mid, e1, i1, d1, (post ++ more)%list, msg.
  split; [|auto].
  rewrite <- !List.app_assoc. cbn [app]. rewrite <- List.app_assoc. reflexivity.
Qed.

Lemma visit_inv_app runs more s :
  visit_inv runs s -> visit_inv (runs ++ more) s.
Proof.
  unfold visit_inv. destruct (reset_stage s); [auto| |].
  - intros (pre & e0 & i0 & d0 & post & msg & -> & Hc & Hem).
    exists pre, e0, i0, d0, (post ++ more)%list, msg.
    split; [now rewrite <- List.app_assoc|auto].
  - intros (uid & Hid & Hv). exists uid.
    split; [assumption|now apply validated_in_visit_app].
Qed.

Lemma visit_inv_step runs e i d s :
  visit_inv runs s ->
  visit_inv (runs ++ [(e, i, d)]) (session_after (reset_tab e i (Some s) d)).
Proof.
  intros Hinv.
  destruct (reset_tab_stage e i (Some s) d) as [Hsame|Hnext];
    cbn [reset_init] in *.
  - rewrite (reset_tab_same_stage e i (Some s) d Hsame). cbn [reset_init].
    now apply visit_inv_app.
  - destruct (reset_stage s) eqn:Hst; cbn [next_stage] in Hnext.
    + destruct (reset_tab_to_token e i (Some s) d Hst Hnext)
        as (msg & _ & Hc & Hem & _).
      unfold visit_inv. rewrite Hnext.
      exists runs, e, i, d, [], msg. auto.
    + destruct (reset_tab_to_password e i (Some s) d Hst Hnext)
        as (uid & _ & Hv & Hid & _ & _).
      cbn [reset_init] in Hv.
      unfold visit_inv in *. rewrite Hnext. rewrite Hst in Hinv.
      destruct Hinv as (pre & e0 & i0 & d0 & post & msg & -> & Hc & Hem).
      exists uid. split; [assumption|].
      exists pre, e0, i0, d0, post, e, i, d, [], msg.
      split; [now rewrite <- List.app_assoc|].
      split; [assumption|]. now rewrite <- Hem.
    + unfold visit_inv. now rewrite Hnext.
Qed.

Lemma reset_visit_session_snoc runs : forall s0 e i d,
  fst (reset_visit (runs ++ [(e, i, d)]) s0)
  = session_after (reset_tab e i (Some (fst (reset_visit runs s0))) d).
Proof.
  induction runs as [|[[e0 i0] d0] runs IH]; intros s0 e i d.
  - cbn. reflexivity.
  - cbn [app reset_visit].
    specialize (IH (Some (session_after (reset_tab e0 i0 s0 d0))) e i d).
    destruct (reset_visit (runs ++ [(e, i, d)]) _) as [s1 c1].
    destruct (reset_visit runs _) as [s2 c2]. exact IH.
Qed.

Lemma visit_inv_holds runs : visit_inv runs (fst (reset_visit runs None)).
Proof.
  induction runs as [|[[e i] d] runs IH] using rev_ind; [exact I|].
  rewrite reset_visit_session_snoc. now apply visit_inv_step.
Qed.

Lemma reset_visit_password_change runs e i d :
  let s := fst (reset_visit runs None) in
  let r := reset_tab e i (Some s) d in
  users (udb (dbs_after r)) <> users (udb d) \/ mdb (dbs_after r) <> mdb d ->
  reset_stage s = stage_password
  /\ exists uid,
       reset_user_id s = Some uid
       /\ dbs_after r = snd (update_user_password e uid (new_pw i) d)
       /\ validated_in_visit runs uid.
Proof.
  intros s r Hchange.
  destruct (reset_stage s) eqn:Hst.
  - destruct (reset_tab_keeps_passwords e i (Some s) d) as [H1 H2];
      [cbn [reset_init]; congruence|].
    fold r in H1, H2. destruct Hchange; contradiction.
  - destruct (reset_tab_keeps_passwords e i (Some s) d) as [H1 H2];
      [cbn [reset_init]; congruence|].
    fold r in H1, H2. destruct Hchange; contradiction.
  - split; [reflexivity|].
    destruct (reset_tab_password_stage e i (Some s) d Hst) as [Hsame|Hupd].
    + fold r in Hsame. rewrite Hsame in Hchange. destruct Hchange; contradiction.
    + destruct Hupd as (uid & Hid & Hd). cbn [reset_init] in Hid.
      pose proof (visit_inv_holds runs) as Hinv. fold s in Hinv.
      unfold visit_inv in Hinv. rewrite Hst in Hinv.
      destruct Hinv as (uid' & Hid' & Hv).
      exists uid. split; [assumption|]. split; [exact Hd|]. congruence.
Qed.

(** C6. The password-reset wizard moves through its three stages in order.
    A run of the tab leaves the stage where it is or moves it to the next
    one (email, token, password, and back to email once the password is
    changed).  It moves from email to token only when
    [create_password_reset_token] returned success for the email typed, which
    is then stored; from token to password only when
    [validate_password_reset_token] returned a user id for the stored email
    and the token typed, which is then stored; and [update_user_password] is
    called only in the password stage, with the stored user id.  Over a
    whole visit, every call of [update_user_password] comes after a
    validation that returned its user id, itself after a successful token
    request for the same email.
    The databases follow the calls: what a run leaves in them is what the
    calls it made leave, each call returning what the helper returns on the
    databases the run met.  Outside the password stage the [users] table and
    the memo database are left as they were; in the password stage the
    databases are left as they were or as [update_user_password] leaves them
    for the stored user id and the password typed.  In a visit that starts
    with no session entries, a run that changes the [users] table or the memo
    database is in the password stage and leaves what
    [update_user_password] leaves for a user id that an earlier run of the
    visit had validated for the email of a still earlier successful token
    request. *)
Theorem reset_wizard_linear (e : env) (i : reset_inputs)
    (s0 : option reset_session) (d : dbs) :
  let s := reset_init s0 in
  let r := reset_tab e i s0 d in
  (reset_stage (session_after r) = reset_stage s
   \/ reset_stage (session_after r) = next_stage (reset_stage s))
  /\ (reset_stage s = stage_email ->
      reset_stage (session_after r) = stage_token ->
      exists msg,
        fst (create_password_reset_token e (Text.strip (email_input i))
               (udb d)) = (true, msg)
        /\ reset_email (session_after r) = Text.strip (email_input i))
  /\ (reset_stage s = stage_token ->
      reset_stage (session_after r) = stage_password ->
      exists uid,
        fst (validate_password_reset_token e (reset_email s)
               (Text.strip (token_input i)) (udb d)) = Some uid
        /\ reset_user_id (session_after r) = Some uid)
  /\ (forall uid pw ret,
        In (called_update uid pw ret) (calls r) ->
        reset_stage s = stage_password /\ reset_user_id s = Some uid)
  /\ (forall runs,
        reset_stage (reset_init None) = stage_email
        /\ updates_validated (snd (reset_visit runs None)))
  /\ (dbs_after r = fold_left (fun d' c => call_effect e c d') (calls r) d
      /\ Forall (fun c => call_returns e c d) (calls r))
  /\ (reset_stage s <> stage_password ->
      users (udb (dbs_after r)) = users (udb d) /\ mdb (dbs_after r) = mdb d)
  /\ (reset_stage s = stage_password ->
      dbs_after r = d
      \/ exists uid,
           reset_user_id s = Some uid
           /\ dbs_after r = snd (update_user_password e uid (new_pw i) d))
  /\ (forall runs e1 i1 d1,
        let s1 := fst (reset_visit runs None) in
        let r1 := reset_tab e1 i1 (Some s1) d1 in
        users (udb (dbs_after r1)) <> users (udb d1)
        \/ mdb (dbs_after r1) <> mdb d1 ->
        reset_stage s1 = stage_password
        /\ exists uid,
             reset_user_id s1 = Some uid
             /\ dbs_after r1 = snd (update_user_password e1 uid (new_pw i1) d1)
             /\ validated_in_visit runs uid).
Proof.
  intros s r. split; [apply reset_tab_stage|].
  split; [|split; [|split; [|split; [|split; [|split; [|split]]]]]].
  - intros Hst Hnext.
    destruct (reset_tab_to_token e i s0 d Hst Hnext) as (msg & _ & Hc & Hem & _).
    eauto.
  - intros Hst Hnext.
    destruct (reset_tab_to_password e i s0 d Hst Hnext)
      as (uid & _ & Hv & Hid & _).
    eauto.
  - intros uid pw ret Hin.
    apply reset_tab_update in Hin as (Hst & Hid & _). auto.
  - intros runs. split; [reflexivity|].
    apply (reset_visit_inv runs None []).
    + exact I.
    + intros before uid pw ret after Heq. now destruct before.
  - apply reset_tab_writes.
  - apply reset_tab_keeps_passwords.
  - apply reset_tab_password_stage.
  - intros runs e1 i1 d1. apply reset_visit_password_change.
Qed.

Lemma reset_wizard_linear_witness :
  reset_stage (reset_init None) = stage_email
  /\ reset_stage (session_after visit_run1) = stage_token
  /\ (exists msg,
       fst (create_password_reset_token sample_env_mail
              (Text.strip "Ana@example.com ") (udb sample_dbs)) = (true, msg)
       /\ reset_email (session_after visit_run1)
          = Text.strip "Ana@example.com ")
  /\ map User.password_hash (users (udb (dbs_after visit_run3)))
     <> map User.password_hash (users (udb (dbs_after visit_run2)))
  /\ exists uid,
       reset_user_id (session_after visit_run2) = Some uid
       /\ dbs_after visit_run3
          = snd (update_user_password sample_env_mail uid "n3w"
                   (dbs_after visit_run2))
       /\ validated_in_visit sample_visit uid.
Proof.
  split; [reflexivity|]. split; [vm_compute; reflexivity|].
  split.
  - apply (proj1 (proj2
             (reset_wizard_linear sample_env_mail
                (typed "Ana@example.com " "" "") None sample_dbs)));
      vm_compute; reflexivity.
  - split; [vm_compute; discriminate|].
    apply (proj2 (proj2 (proj2 (proj2 (proj2 (proj2 (proj2 (proj2
             (reset_wizard_linear sample_env_mail
                (typed "" "" "") None sample_dbs))))))))
             sample_visit sample_env_mail (typed "" "" "n3w")
             (dbs_after visit_run2)).
    left. intros H.
    apply (f_equal (map User.password_hash)) in H.
    vm_compute in H. discriminate H.
Defined.

(** The three runs of the sample visit call, in this order, the token
    request, the validation and the password update, and end where they
    began. *)
Example sample_visit_calls :
  (calls visit_run1 ++ calls visit_run2 ++ calls visit_run3)%list
  = [called_create "Ana@example.com"
       (true, "A reset token has been sent to your email.");
     called_validate "Ana@example.com" "012345" (Some 7);
     called_update 7 "n3w" (true, "Password updated successfully.")]
  /\ map (fun r => reset_stage (session_after r))
       [visit_run1; visit_run2; visit_run3]
     = [stage_token; stage_password; stage_email].
Proof. split; vm_compute; reflexivity. Qed.

(* ===================================================================== *)
(** * Further properties *)
(* ===================================================================== *)

(** ** Suggested control numbers *)

Lemma of_uint_acc_value d : forall acc,
  Z.pos (Pos.of_uint_acc d acc) = uint_value (Z.pos acc) d.
Proof.
  induction d; intros acc; cbn [Pos.of_uint_acc uint_value];
    [reflexivity|rewrite IHd; f_equal; lia..].
Qed.

Lemma of_uint_value d : Z.of_N (Pos.of_uint d) = uint_value 0 d.
Proof.
  induction d; cbn [Pos.of_uint uint_value]; try reflexivity;
    try exact IHd; cbn [Z.of_N]; rewrite of_uint_acc_value; reflexivity.
Qed.

Lemma int_digits_uint d : forall acc sep,
  d <> Decimal.Nil ->
  Text.int_digits acc sep (NilEmpty.string_of_uint d) = Some (uint_value acc d).
Proof.
  induction d; intros acc sep Hne; try congruence;
    cbn [NilEmpty.string_of_uint Text.int_digits uint_value];
    (destruct d; [reflexivity|apply IHd; discriminate..]).
Qed.

Lemma to_uint_nonnil n : N.to_uint n <> Decimal.Nil.
Proof.
  destruct n; [discriminate|]. apply Unsigned.to_uint_nonnil.
Qed.

Lemma int_digits_dec n sep : 0 <= n ->
  Text.int_digits 0 sep (Text.dec n) = Some n.
Proof.
  intros Hn. unfold Text.dec. rewrite int_digits_uint by apply to_uint_nonnil.
  rewrite <- of_uint_value.
  change (Pos.of_uint (N.to_uint (Z.to_N n))) with (N.of_uint (N.to_uint (Z.to_N n))).
  rewrite DecimalN.Unsigned.of_to. f_equal. lia.
Qed.

Lemma append_empty_l s : "" +:+ s = s.
Proof. reflexivity. Qed.

Lemma append_cons c a b : String c a +:+ b = String c (a +:+ b).
Proof. reflexivity. Qed.

Lemma all_digits_app a b : all_digits (a +:+ b) = all_digits a && all_digits b.
Proof. induction a as [|c a IH]; simpl; [reflexivity|]. now rewrite IH, andb_assoc. Qed.

Lemma all_digits_zeros k : all_digits (Text.zeros k) = true.
Proof. induction k; simpl; auto. Qed.

Lemma all_digits_uint d : all_digits (NilEmpty.string_of_uint d) = true.
Proof. induction d; simpl; auto. Qed.

Lemma all_digits_zfill w n : 0 <= n -> all_digits (Text.zfill_d w n) = true.
Proof.
  intros Hn. unfold Text.zfill_d.
  destruct (Z.ltb_spec n 0); [lia|].
  cbv zeta. rewrite append_empty_l, all_digits_app, all_digits_zeros.
  apply all_digits_uint.
Qed.

Lemma int_digits_zeros k s acc :
  Text.int_digits acc false (Text.zeros k +:+ s) = Text.int_digits (acc * 10 ^ Z.of_nat k) false s.
Proof.
  revert acc. induction k as [|k IH]; intros acc.
  - cbn [Text.zeros]. rewrite append_empty_l. f_equal. cbn. lia.
  - cbn [Text.zeros]. rewrite append_cons. cbn [Text.int_digits].
    change (Text.isdigit "0") with true. cbv iota.
    rewrite IH. f_equal. unfold Text.digit_value. cbn [Text.code N_of_ascii N_of_digits].
    rewrite Nat2Z.inj_succ, Z.pow_succ_r by lia. lia.
Qed.

Lemma int_digits_start s :
  s <> "" -> all_digits s = true ->
  Text.int_digits 0 true s = Text.int_digits 0 false s.
Proof.
  destruct s as [|c s]; [congruence|]. simpl. intros _ H.
  apply andb_true_iff in H as [-> _]. reflexivity.
Qed.

Lemma dec_nonempty n : Text.dec n <> "".
Proof.
  unfold Text.dec. pose proof (to_uint_nonnil (Z.to_N n)).
  destruct (N.to_uint (Z.to_N n)); [congruence|discriminate..].
Qed.

Lemma zfill_nonempty w n : Text.zfill_d w n <> "".
Proof.
  unfold Text.zfill_d. intros H.
  destruct (if n <? 0 then "-" else "") eqn:E; [|discriminate].
  rewrite append_empty_l in H.
  destruct (Text.zeros _); [|discriminate]. rewrite append_empty_l in H.
  now apply dec_nonempty in H.
Qed.

Lemma int_digits_zfill w n : 0 <= n ->
  Text.int_digits 0 true (Text.zfill_d w n) = Some n.
Proof.
  intros Hn.
  rewrite int_digits_start by (auto using zfill_nonempty, all_digits_zfill).
  unfold Text.zfill_d. destruct (Z.ltb_spec n 0); [lia|].
  cbv zeta. rewrite append_empty_l, int_digits_zeros, Z.abs_eq by lia.
  cbn [Z.mul]. now apply int_digits_dec.
Qed.

Lemma isdigit_not_space c : Text.isdigit c = true -> Text.isspace c = false.
Proof.
  unfold Text.isdigit, Text.isspace. generalize (Text.code c). intros n.
  rewrite andb_true_iff, !N.leb_le. intros [H1 H2].
  repeat match goal with
  | |- context [(?a <=? ?b)%N] => destruct (N.leb_spec a b)
  | |- context [(?a =? ?b)%N] => destruct (N.eqb_spec a b)
  end; simpl; try reflexivity; lia.
Qed.

Lemma lstrip_digits s : all_digits s = true -> Text.lstrip s = s.
Proof.
  destruct s as [|c s]; [reflexivity|]. simpl. intros H.
  apply andb_true_iff in H as [H _]. now rewrite (isdigit_not_space c H).
Qed.

Lemma rstrip_digits s : all_digits s = true -> Text.rstrip s = s.
Proof.
  induction s as [|c s IH]; [reflexivity|]. simpl. intros H.
  apply andb_true_iff in H as [Hc Hs]. rewrite (IH Hs).
  destruct s; [now rewrite (isdigit_not_space c Hc)|reflexivity].
Qed.

Lemma strip_digits s : all_digits s = true -> Text.strip s = s.
Proof.
  intros H. unfold Text.strip. rewrite lstrip_digits by assumption.
  now apply rstrip_digits.
Qed.

Lemma isdigit_not c x : Text.isdigit c = true -> Text.isdigit x = false -> Ascii.eqb c x = false.
Proof.
  intros Hc Hx. destruct (Ascii.eqb_spec c x); [congruence|reflexivity].
Qed.

Lemma split_digits sep s :
  Text.isdigit sep = false -> all_digits s = true -> Text.split sep s = [s].
Proof.
  intros Hsep. induction s as [|c s IH]; [reflexivity|]. simpl. intros H.
  apply andb_true_iff in H as [Hc Hs].
  rewrite (isdigit_not c sep Hc Hsep), (IH Hs). reflexivity.
Qed.

Lemma last_split_app sep a b :
  Text.last_item (Text.split sep (a +:+ String sep b))
  = Text.last_item (Text.split sep b).
Proof.
  unfold Text.last_item.
  induction a as [|c a IH];
    rewrite ?append_empty_l, ?append_cons; cbn [Text.split].
  - rewrite Ascii.eqb_refl.
    destruct (Text.split sep b) eqn:E; [now apply split_nonempty in E|reflexivity].
  - destruct (Ascii.eqb c sep).
    + destruct (Text.split sep (a +:+ String sep b)) eqn:E;
        [now apply split_nonempty in E|]. exact IH.
    + destruct (Text.split sep (a +:+ String sep b)) as [|h t] eqn:E;
        [now apply split_nonempty in E|].
      destruct t; [|exact IH].
      (* a single piece cannot be: the separator occurs *)
      exfalso. clear IH.
      assert (Hlen : forall s, (1 < length (Text.split sep (s +:+ String sep b)))%nat).
      { clear. induction s as [|d s IH];
          rewrite ?append_empty_l, ?append_cons; cbn [Text.split].
        - rewrite Ascii.eqb_refl. cbn [length].
          destruct (Text.split sep b) eqn:E; [now apply split_nonempty in E|]. cbn. lia.
        - destruct (Ascii.eqb d sep); [cbn [length]; lia|].
          destruct (Text.split sep (s +:+ String sep b)); cbn [length] in *; lia. }
      specialize (Hlen a). rewrite E in Hlen. cbn in Hlen. lia.
Qed.

Lemma int_of_digits s n :
  s <> "" -> all_digits s = true ->
  Text.int_digits 0 true s = Some n -> Text.int s = Some n.
Proof.
  intros Hne Hd H. unfold Text.int. rewrite strip_digits by assumption.
  destruct s as [|c r]; [congruence|].
  simpl in Hd. apply andb_true_iff in Hd as [Hc _].
  destruct c as [[] [] [] [] [] [] [] []]; try exact H; discriminate.
Qed.

Lemma parse_control_sequence_formatted head w n :
  0 <= n ->
  parse_control_sequence (head +:+ "-" +:+ Text.zfill_d w n) = Some n.
Proof.
  intros Hn. unfold parse_control_sequence.
  change (head +:+ "-" +:+ Text.zfill_d w n)
    with (head +:+ String "-" (Text.zfill_d w n)).
  rewrite last_split_app, split_digits by (auto using all_digits_zfill).
  cbn [Text.last_item List.last].
  rewrite strip_digits by auto using all_digits_zfill.
  apply int_of_digits; auto using zfill_nonempty, all_digits_zfill, int_digits_zfill.
Qed.

Lemma append_assoc_r a b c : (a +:+ b) +:+ c = a +:+ (b +:+ c).
Proof. induction a as [|x a IH]; [reflexivity|]. rewrite !append_cons. now rewrite IH. Qed.

Lemma prefix_append u z : String.prefix u (u +:+ z) = true.
Proof.
  induction u as [|c u IH]; [now destruct z|].
  rewrite append_cons. cbn [String.prefix].
  destruct (ascii_dec c c); [exact IH|congruence].
Qed.

Lemma next_control_no_eq e prefix db :
  next_control_no e prefix db
  = (prefix +:+ " " +:+ yymm (now e)) +:+ "-"
    +:+ Text.zfill_d 3
          (max_seq (omap parse_control_sequence
                      (matching_control_nos
                         (prefix +:+ " " +:+ yymm (now e) +:+ "-%") db)) + 1).
Proof.
  unfold next_control_no, select_control_no_like.
  rewrite fold_bump_last_seq by lia.
  rewrite (max_seq_perm _ (omap parse_control_sequence
             (matching_control_nos (prefix +:+ " " +:+ yymm (now e) +:+ "-%") db)))
    by apply omap_Permutation, order_by_perm.
  rewrite Z.max_r by apply max_seq_nonneg.
  now rewrite !append_assoc_r.
Qed.

Lemma like_own_pattern head tail_ :
  Text.like (head +:+ "-%") (head +:+ "-" +:+ tail_) = true.
Proof.
  replace (head +:+ "-%") with ((head +:+ "-") +:+ "%")
    by now rewrite append_assoc_r.
  replace (head +:+ "-" +:+ tail_) with ((head +:+ "-") +:+ tail_)
    by now rewrite append_assoc_r.
  apply like_literal_prefix, prefix_append.
Qed.

Lemma pattern_shape prefix yy :
  prefix +:+ " " +:+ yy +:+ "-%" = (prefix +:+ " " +:+ yy) +:+ "-%".
Proof. now rewrite !append_assoc_r. Qed.

Lemma next_control_no_parsed e prefix db :
  parse_control_sequence (next_control_no e prefix db)
  = Some (max_seq (omap parse_control_sequence
                     (matching_control_nos
                        (prefix +:+ " " +:+ yymm (now e) +:+ "-%") db)) + 1).
Proof.
  rewrite next_control_no_eq. apply parse_control_sequence_formatted.
  pose proof (max_seq_nonneg (omap parse_control_sequence
    (matching_control_nos (prefix +:+ " " +:+ yymm (now e) +:+ "-%") db))).
  lia.
Qed.

Lemma next_control_no_like e prefix db :
  Text.like (prefix +:+ " " +:+ yymm (now e) +:+ "-%")
    (next_control_no e prefix db) = true.
Proof.
  rewrite next_control_no_eq, pattern_shape. apply like_own_pattern.
Qed.

(** X1. The number [next_control_no] suggests reads back, through
    [parse_control_sequence], as one more than the largest sequence among
    the stored numbers its query selects, and it passes the LIKE pattern of
    that query. *)
Theorem next_control_no_parses_back (e : env) (prefix : string) (db : memo_db) :
  parse_control_sequence (next_control_no e prefix db)
  = Some (max_seq (omap parse_control_sequence
                     (matching_control_nos
                        (prefix +:+ " " +:+ yymm (now e) +:+ "-%") db)) + 1)
  /\ Text.like (prefix +:+ " " +:+ yymm (now e) +:+ "-%")
       (next_control_no e prefix db) = true.
Proof.
  split; [apply next_control_no_parsed|apply next_control_no_like].
Qed.

Lemma next_control_no_not_stored e prefix db m :
  In m (memos db) -> Memo.control_no m <> Some (next_control_no e prefix db).
Proof.
  intros Hin Heq.
  pose proof (next_control_no_parsed e prefix db) as Hp.
  pose proof (next_control_no_like e prefix db) as Hl.
  set (pat := prefix +:+ " " +:+ yymm (now e) +:+ "-%") in *.
  set (cn := next_control_no e prefix db) in *.
  assert (Hrow : cn ∈ matching_control_nos pat db).
  { unfold matching_control_nos. apply list_elem_of_omap. exists m.
    split; [now apply list_elem_of_In|]. now rewrite Heq, Hl. }
  assert (Hseq : max_seq (omap parse_control_sequence (matching_control_nos pat db)) + 1
                 ∈ omap parse_control_sequence (matching_control_nos pat db)).
  { apply list_elem_of_omap. eauto. }
  apply list_elem_of_In in Hseq.
  pose proof (max_seq_upper (omap parse_control_sequence (matching_control_nos pat db))) as Hup.
  rewrite List.Forall_forall in Hup. specialize (Hup _ Hseq). lia.
Qed.

Lemma insert_memo_fresh row db :
  (forall m cn, In m (memos db) -> Memo.control_no row = Some cn ->
                Memo.control_no m <> Some cn) ->
  fst (insert_memo row db)
  = Ok (Sql.next_rowid (memos_seq db) (map Memo.id (memos db)))
  /\ exists stored,
       memos (snd (insert_memo row db)) = (memos db ++ [stored])%list
       /\ Memo.id stored = Sql.next_rowid (memos_seq db) (map Memo.id (memos db))
       /\ Memo.control_no stored = Memo.control_no row
       /\ Memo.memo_for stored = Memo.memo_for row.
Proof.
  intros Hfresh. unfold insert_memo.
  assert (Hc : match Memo.control_no row with
               | Some cn => existsb (fun m => match Memo.control_no m with
                                              | Some cn' => String.eqb cn' cn
                                              | None => false end) (memos db)
               | None => false end = false).
  { destruct (Memo.control_no row) as [cn|] eqn:E; [|reflexivity].
    apply not_true_is_false. intros H. apply existsb_exists in H as (m & Hm & Heq).
    destruct (Memo.control_no m) as [cn'|] eqn:E'; [|discriminate].
    apply String.eqb_eq in Heq. subst cn'. now apply (Hfresh m cn). }
  rewrite Hc. cbn [fst snd memos]. split; [reflexivity|].
  eexists. split; [reflexivity|]. repeat split; reflexivity.
Qed.

Lemma max_seq_snoc l x : 0 <= x -> max_seq (l ++ [x]) = Z.max (max_seq l) x.
Proof.
  intros Hx. induction l as [|y l IH]; cbn [max_seq fold_right app] in *; [lia|].
  fold (max_seq (l ++ [x])). fold (max_seq l). rewrite IH. lia.
Qed.

(** X2. No stored memorandum carries the number [next_control_no]
    suggests, so inserting a row with that number meets the UNIQUE
    constraint and returns the new row id. *)
Theorem next_control_no_is_free (e : env) (prefix : string) (db : memo_db)
    (row : Memo.t) :
  (forall m, In m (memos db) ->
             Memo.control_no m <> Some (next_control_no e prefix db))
  /\ (Memo.control_no row = Some (next_control_no e prefix db) ->
      fst (insert_memo row db)
      = Ok (Sql.next_rowid (memos_seq db) (map Memo.id (memos db)))).
Proof.
  split; [intros m; apply next_control_no_not_stored|].
  intros Hrow. apply insert_memo_fresh.
  intros m cn Hm Hcn. rewrite Hrow in Hcn. injection Hcn as <-.
  now apply next_control_no_not_stored.
Qed.

Lemma next_control_no_is_free_witness :
  Memo.control_no (sample_memo 9 "MEMO 25-003" "2025-09-10" "IS")
  = Some (next_control_no sample_env "MEMO" sample_db)
  /\ fst (insert_memo (sample_memo 9 "MEMO 25-003" "2025-09-10" "IS") sample_db)
     = Ok (Sql.next_rowid (memos_seq sample_db) (map Memo.id (memos sample_db))).
Proof.
  assert (H : Memo.control_no (sample_memo 9 "MEMO 25-003" "2025-09-10" "IS")
              = Some (next_control_no sample_env "MEMO" sample_db))
    by (vm_compute; reflexivity).
  split; [exact H|].
  exact (proj2 (next_control_no_is_free sample_env "MEMO" sample_db _) H).
Defined.

(** X3. Once a memorandum is stored under the suggested number, the next
    suggestion for the same prefix and year carries the following sequence
    number. *)
Theorem next_control_no_advances (e : env) (prefix : string) (db : memo_db)
    (row : Memo.t) :
  Memo.control_no row = Some (next_control_no e prefix db) ->
  let db' := snd (insert_memo row db) in
  let seq := max_seq (omap parse_control_sequence
                        (matching_control_nos
                           (prefix +:+ " " +:+ yymm (now e) +:+ "-%") db)) in
  parse_control_sequence (next_control_no e prefix db') = Some (seq + 2)
  /\ next_control_no e prefix db'
     = prefix +:+ " " +:+ yymm (now e) +:+ "-" +:+ Text.zfill_d 3 (seq + 2).
Proof.
  intros Hrow db' seq.
  pose proof (next_control_no_parsed e prefix db) as Hp.
  pose proof (next_control_no_like e prefix db) as Hl. fold seq in Hp.
  destruct (insert_memo_fresh row db) as (_ & stored & Hmem & _ & Hcn & _).
  { intros m cn Hm Hc. rewrite Hrow in Hc. injection Hc as <-.
    now apply next_control_no_not_stored. }
  fold db' in Hmem.
  set (pat := prefix +:+ " " +:+ yymm (now e) +:+ "-%") in *.
  assert (Hrows : matching_control_nos pat db'
                  = (matching_control_nos pat db ++ [next_control_no e prefix db])%list).
  { unfold matching_control_nos. rewrite Hmem, omap_app. f_equal.
    cbn [omap list_omap]. now rewrite Hcn, Hrow, Hl. }
  assert (Hseq : max_seq (omap parse_control_sequence (matching_control_nos pat db'))
                 = seq + 1).
  { rewrite Hrows, omap_app. cbn [omap list_omap]. rewrite Hp.
    pose proof (max_seq_nonneg (omap parse_control_sequence (matching_control_nos pat db))).
    fold seq in H. rewrite max_seq_snoc by lia. fold seq. lia. }
  pose proof (next_control_no_parsed e prefix db') as Hp'.
  fold pat in Hp'. rewrite Hseq in Hp'.
  split; [rewrite Hp'; f_equal; lia|].
  rewrite next_control_no_eq. fold pat. rewrite Hseq, !append_assoc_r.
  do 5 f_equal. lia.
Qed.

Lemma next_control_no_advances_witness :
  next_control_no sample_env "MEMO"
    (snd (insert_memo (sample_memo 9 "MEMO 25-003" "2025-09-10" "IS") sample_db))
  = "MEMO 25-004".
Proof.
  pose proof (next_control_no_advances sample_env "MEMO" sample_db
                (sample_memo 9 "MEMO 25-003" "2025-09-10" "IS")) as H.
  cbv zeta in H. rewrite (proj2 (H ltac:(vm_compute; reflexivity))).
  vm_compute. reflexivity.
Defined.

Lemma log_action_frame e user action memo_id details db :
  exists db',
    log_action e user action memo_id details db = Ok db'
    /\ memos db' = memos db /\ memos_seq db' = memos_seq db
    /\ settings db' = settings db
    /\ control_prefixes db' = control_prefixes db
    /\ memo_files db' = memo_files db
    /\ memo_files_seq db' = memo_files_seq db
    /\ mirror_users db' = mirror_users db.
Proof.
  unfold log_action, insert_audit_trail.
  destruct (match (match user with Some u => su_id u | None => None end)
            with Some _ => _ | None => _ end);
    cbn [try_except_Exception_pass is_Exception];
    eexists; split; try reflexivity; repeat split; reflexivity.
Qed.

Lemma rstrip_app_digits a d :
  d <> "" -> all_digits d = true -> Text.rstrip (a +:+ d) = a +:+ d.
Proof.
  intros Hne Hd. induction a as [|c a IH].
  - rewrite append_empty_l. now apply rstrip_digits.
  - rewrite append_cons. cbn [Text.rstrip]. rewrite IH.
    destruct (a +:+ d) eqn:E; [|reflexivity].
    destruct a; [rewrite append_empty_l in E; congruence|discriminate].
Qed.

Lemma strip_next_control_no e c p db :
  Text.isspace c = false ->
  Text.strip (next_control_no e (String c p) db)
  = next_control_no e (String c p) db.
Proof.
  intros Hc. rewrite next_control_no_eq.
  set (n := max_seq _ + 1).
  assert (Hn : 0 <= n) by (unfold n; pose proof (max_seq_nonneg
    (omap parse_control_sequence (matching_control_nos
       (String c p +:+ " " +:+ yymm (now e) +:+ "-%") db))); lia).
  unfold Text.strip.
  replace (Text.lstrip ((String c p +:+ " " +:+ yymm (now e)) +:+ "-" +:+ Text.zfill_d 3 n))
    with ((String c p +:+ " " +:+ yymm (now e)) +:+ "-" +:+ Text.zfill_d 3 n)
    by (rewrite !append_cons; cbn [Text.lstrip]; now rewrite Hc).
  rewrite <- !append_assoc_r.
  apply rstrip_app_digits; auto using zfill_nonempty, all_digits_zfill.
Qed.

Lemma save_files_ok e files memo_id db :
  existsb (fun m => Memo.id m =? memo_id) (memos db) = true ->
  exists saved db',
    save_files e files memo_id db = (Ok saved, db')
    /\ length saved = length files
    /\ memos db' = memos db.
Proof.
  intros Hex. unfold save_files. destruct files as [|f files].
  - exists [], db. auto.
  - rewrite Hex. eexists _, _. split; [reflexivity|].
    split; [now rewrite length_map|reflexivity].
Qed.

Lemma save_memorandum_fresh e user nmu form db ctrl :
  memo_control_no form = Some ctrl -> ctrl <> "" ->
  role_in (session_role user) ["admin"; "super"; "user"] = true ->
  in_subject form <> "" ->
  save_memo_for_units (session_role user) nmu (session_units user) <> [] ->
  (forall m, In m (memos db) -> Memo.control_no m <> Some (Text.strip ctrl)) ->
  let memo_id := Sql.next_rowid (memos_seq db) (map Memo.id (memos db)) in
  exists db' stored,
    save_memorandum e user nmu form db
    = (Ok [st_success
             ("Memorandum saved (ID: " +:+ Text.zfill_d 0 memo_id +:+ "). "
              +:+ Text.zfill_d 0 (Z.of_nat (length (in_files form)))
              +:+ " file(s) attached.");
           st_balloons], db')
    /\ memos db' = (memos db ++ [stored])%list
    /\ Memo.id stored = memo_id
    /\ Memo.control_no stored = Some (Text.strip ctrl)
    /\ Memo.memo_for stored
       = Some (join_comma
                 (map Text.strip
                    (save_memo_for_units (session_role user) nmu
                       (session_units user)))).
Proof.
  intros Hctrl Hne Hrole Hsub Hunits Hfresh memo_id.
  unfold save_memorandum. rewrite Hctrl, Hrole. cbn [negb].
  apply String.eqb_neq in Hne, Hsub. rewrite Hne, Hsub.
  destruct (save_memo_for_units _ _ _) as [|u0 us] eqn:Hu; [congruence|].
  match goal with |- context [insert_memo ?r db] => set (row := r) end.
  destruct (insert_memo_fresh row db) as (Hok & stored & Hmem & Hid & Hcn & Hfor).
  { intros m cn Hm Hcn. cbn in Hcn. injection Hcn as <-. now apply Hfresh. }
  destruct (insert_memo row db) as [r db1]. cbn [fst snd] in *. subst r.
  fold memo_id in Hid |- *.
  destruct (save_files_ok e (in_files form) memo_id db1)
    as (saved & db2 & Hsf & Hlen & Hm2).
  { rewrite Hmem, existsb_app. cbn. rewrite Hid, Z.eqb_refl. now rewrite orb_true_r. }
  rewrite Hsf.
  destruct (log_action_frame e user "memo_create" (Some memo_id)
              ("control=" +:+ Text.strip ctrl) db2)
    as (db3 & Hlog & Hm3 & _).
  rewrite Hlog, Hlen. exists db3, stored.
  split; [reflexivity|]. rewrite Hm3, Hm2. auto.
Qed.

(** X4. "Save Memorandum" with the suggested control number left in the
    form, a subject, a role that may save and at least one unit, for a
    prefix that starts with a non-blank character: the page reports the new
    id and the table gains one row with that control number. *)
Theorem save_suggested_succeeds (e : env) (user : option session_user)
    (new_memo_units : option (list string)) (form : memo_form) (db : memo_db)
    (c : ascii) (p : string) :
  Text.isspace c = false ->
  memo_control_no form = Some (next_control_no e (String c p) db) ->
  role_in (session_role user) ["admin"; "super"; "user"] = true ->
  in_subject form <> "" ->
  save_memo_for_units (session_role user) new_memo_units (session_units user)
    <> [] ->
  let memo_id := Sql.next_rowid (memos_seq db) (map Memo.id (memos db)) in
  exists db' stored,
    save_memorandum e user new_memo_units form db
    = (Ok [st_success
             ("Memorandum saved (ID: " +:+ Text.zfill_d 0 memo_id +:+ "). "
              +:+ Text.zfill_d 0 (Z.of_nat (length (in_files form)))
              +:+ " file(s) attached.");
           st_balloons], db')
    /\ memos db' = (memos db ++ [stored])%list
    /\ Memo.id stored = memo_id
    /\ Memo.control_no stored = Some (next_control_no e (String c p) db).
Proof.
  intros Hc Hctrl Hrole Hsub Hunits memo_id.
  assert (Hne : next_control_no e (String c p) db <> "").
  { rewrite next_control_no_eq, !append_cons. discriminate. }
  assert (Hfresh : forall m, In m (memos db) ->
            Memo.control_no m
            <> Some (Text.strip (next_control_no e (String c p) db))).
  { intros m Hm. rewrite strip_next_control_no by assumption.
    now apply next_control_no_not_stored. }
  destruct (save_memorandum_fresh e user new_memo_units form db _ Hctrl Hne
              Hrole Hsub Hunits Hfresh)
    as (db' & stored & Hsave & Hmem & Hid & Hcn & _).
  exists db', stored. rewrite strip_next_control_no in Hcn by assumption. auto.
Qed.

Lemma save_suggested_succeeds_witness :
  exists db' stored,
    save_memorandum sample_env (Some user_of_IS) None
      (sample_form "MEMO 25-003") sample_db
    = (Ok [st_success "Memorandum saved (ID: 4). 0 file(s) attached.";
           st_balloons], db')
    /\ memos db' = (memos sample_db ++ [stored])%list
    /\ Memo.id stored = 4
    /\ Memo.control_no stored = Some "MEMO 25-003".
Proof.
  destruct (save_suggested_succeeds sample_env (Some user_of_IS) None
              (sample_form "MEMO 25-003") sample_db "M" "EMO")
    as (db' & stored & H1 & H2 & H3 & H4);
    [reflexivity|vm_compute; reflexivity|reflexivity|discriminate|discriminate|].
  exists db', stored. split; [exact H1|]. split; [exact H2|].
  split; [exact H3|]. rewrite H4. vm_compute. reflexivity.
Defined.

(** ** Stored prefixes *)

Lemma lstrip_fixed c s : Text.isspace c = false -> Text.lstrip (String c s) = String c s.
Proof. intros H. cbn. now rewrite H. Qed.

Lemma lstrip_head_nospace s c r : Text.lstrip s = String c r -> Text.isspace c = false.
Proof.
  induction s as [|d s IH]; cbn; [discriminate|].
  destruct (Text.isspace d) eqn:E; [exact IH|]. now intros [= <- _].
Qed.

Lemma rstrip_cons c t :
  Text.rstrip t <> "" -> Text.rstrip (String c t) = String c (Text.rstrip t).
Proof. cbn [Text.rstrip]. destruct (Text.rstrip t); [congruence|reflexivity]. Qed.

Lemma rstrip_idem s : Text.rstrip (Text.rstrip s) = Text.rstrip s.
Proof.
  induction s as [|c s IH]; [reflexivity|].
  destruct (Text.rstrip s) as [|d r] eqn:E.
  - cbn [Text.rstrip]. rewrite E.
    destruct (Text.isspace c) eqn:Hc; [reflexivity|]. cbn. now rewrite Hc.
  - rewrite (rstrip_cons c s) by (rewrite E; discriminate).
    rewrite E in *. rewrite rstrip_cons by (rewrite IH; discriminate).
    now rewrite IH.
Qed.

Lemma strip_idem s : Text.strip (Text.strip s) = Text.strip s.
Proof.
  unfold Text.strip.
  destruct (Text.rstrip (Text.lstrip s)) as [|c r] eqn:E; [reflexivity|].
  destruct (rstrip_head c r _ E) as [s' Hs'].
  pose proof (lstrip_head_nospace _ _ _ Hs') as Hc.
  rewrite lstrip_fixed by assumption. rewrite <- E. apply rstrip_idem.
Qed.

Lemma strip_head_nospace s c r : Text.strip s = String c r -> Text.isspace c = false.
Proof.
  unfold Text.strip. intros E. destruct (rstrip_head c r _ E) as [s' Hs'].
  eapply lstrip_head_nospace, Hs'.
Qed.

Lemma py_or_nonempty x y : y <> "" -> py_or x y <> "".
Proof.
  unfold py_or. destruct (String.eqb_spec x ""); auto.
Qed.

(** X5. [set_unit_prefix] followed by [get_unit_prefix]: the unit reads
    back the stripped prefix, every other unit reads what it read before,
    and an empty unit name or prefix changes nothing. *)
Theorem set_unit_prefix_round_trip (unit_name : string)
    (prefix : option string) (db : memo_db) :
  (unit_name <> "" -> forall p, prefix = Some p -> p <> "" ->
     get_unit_prefix unit_name (set_unit_prefix unit_name prefix db)
     = Some (Text.strip p))
  /\ (forall other, other <> unit_name ->
        get_unit_prefix other (set_unit_prefix unit_name prefix db)
        = get_unit_prefix other db)
  /\ (unit_name = "" \/ prefix = None \/ prefix = Some "" ->
      set_unit_prefix unit_name prefix db = db).
Proof.
  split; [|split].
  - intros Hu p -> Hp. unfold set_unit_prefix, get_unit_prefix.
    apply String.eqb_neq in Hu, Hp. rewrite Hu, Hp.
    cbn [control_prefixes]. now rewrite lookup_insert_eq.
  - intros other Hne. unfold set_unit_prefix.
    destruct (String.eqb unit_name ""); [reflexivity|].
    destruct prefix as [p|]; [|reflexivity].
    destruct (String.eqb p ""); [reflexivity|].
    unfold get_unit_prefix, get_setting. cbn [control_prefixes settings].
    now rewrite lookup_insert_ne by congruence.
  - intros [ -> | [ -> | -> ]]; unfold set_unit_prefix; [reflexivity| |];
      now destruct (String.eqb unit_name "").
Qed.

Lemma set_unit_prefix_round_trip_witness :
  get_unit_prefix "EID" (set_unit_prefix "EID" (Some " FIN ") sample_db)
  = Some "FIN"
  /\ get_unit_prefix "IS" (set_unit_prefix "EID" (Some " FIN ") sample_db)
     = get_unit_prefix "IS" sample_db.
Proof.
  destruct (set_unit_prefix_round_trip "EID" (Some " FIN ") sample_db)
    as (H1 & H2 & _).
  split.
  - rewrite (H1 ltac:(discriminate) " FIN " eq_refl ltac:(discriminate)).
    reflexivity.
  - apply H2. discriminate.
Defined.

(** X6. Settings, "Save Default Prefix": a role other than admin and super
    changes nothing; otherwise the stored default is the stripped input, or
    MEMO when that is empty, it is never empty, and it is what
    [get_unit_prefix] returns for every unit without a prefix of its own,
    while units with one keep it. *)
Theorem saved_default_prefix (e : env) (user : option session_user)
    (input : string) (db : memo_db) :
  let value := py_or (Text.strip input) "MEMO" in
  (role_in (session_role user) ["admin"; "super"] = false ->
   save_default_prefix e user input db = Ok db)
  /\ (role_in (session_role user) ["admin"; "super"] = true ->
      exists db',
        save_default_prefix e user input db = Ok db'
        /\ value <> "" /\ Text.strip value = value
        /\ get_setting "control_prefix" (Some "MEMO") db' = Some value
        /\ get_unit_prefix "" db' = Some value
        /\ (forall unit_name, control_prefixes db !! unit_name = None ->
              get_unit_prefix unit_name db' = Some value)
        /\ (forall unit_name, unit_name <> "" ->
              get_unit_prefix unit_name db'
              = match control_prefixes db !! unit_name with
                | Some p => Some p
                | None => Some value
                end)
        /\ memos db' = memos db).
Proof.
  intros value. unfold save_default_prefix. split; intros Hr; rewrite Hr;
    [reflexivity|].
  destruct (log_action_frame e user "settings_update" None
              ("control_prefix=" +:+ Text.strip input)
              (set_setting "control_prefix" value db))
    as (db' & Hlog & Hm & _ & Hs & Hp & _).
  fold value. exists db'. split; [exact Hlog|].
  assert (Hget : get_setting "control_prefix" (Some "MEMO") db' = Some value).
  { unfold get_setting. rewrite Hs. cbn [settings set_setting].
    now rewrite lookup_insert_eq. }
  split; [apply py_or_nonempty; discriminate|].
  split.
  { unfold value, py_or. destruct (String.eqb (Text.strip input) "");
      [reflexivity|apply strip_idem]. }
  split; [exact Hget|]. split; [exact Hget|]. split; [|split].
  - intros u Hu. unfold get_unit_prefix. rewrite Hp. cbn [control_prefixes set_setting].
    rewrite Hu. now destruct (String.eqb u "").
  - intros u Hu. unfold get_unit_prefix. apply String.eqb_neq in Hu.
    rewrite Hu, Hp. cbn [control_prefixes set_setting].
    now destruct (control_prefixes db !! u).
  - exact Hm.
Qed.

Lemma saved_default_prefix_witness :
  exists db',
    save_default_prefix sample_env (Some sample_admin) " FMG " sample_db = Ok db'
    /\ get_setting "control_prefix" (Some "MEMO") db' = Some "FMG"
    /\ get_unit_prefix "EID" db' = Some "FMG".
Proof.
  destruct (saved_default_prefix sample_env (Some sample_admin) " FMG " sample_db)
    as (_ & H).
  destruct (H eq_refl) as (db' & H1 & _ & _ & H2 & _ & H3 & _).
  exists db'. split; [exact H1|]. split; [exact H2|].
  apply H3. reflexivity.
Defined.

(** ** Categories and statuses *)

Lemma max_ids_ge seq ids x : In x ids -> x <= fold_right Z.max seq ids.
Proof.
  induction ids as [|y ids IH]; cbn; [tauto|]. intros [->|H]; [lia|].
  specialize (IH H). lia.
Qed.

Lemma next_rowid_fresh seq ids : ~ In (Sql.next_rowid seq ids) ids.
Proof.
  intros H. apply (max_ids_ge seq) in H. unfold Sql.next_rowid in H. lia.
Qed.

Lemma NoDup_snoc {A} (l : list A) x :
  List.NoDup l -> ~ In x l -> List.NoDup (l ++ [x]).
Proof.
  induction l as [|y l IH]; intros Hl Hx; cbn.
  - constructor; [tauto|constructor].
  - inversion Hl as [|? ? Hy Hl']; subst. constructor.
    + rewrite in_app_iff. cbn. intros [H|[H|[]]]; [contradiction|].
      apply Hx. now left.
    + apply IH; [assumption|]. intros H. apply Hx. now right.
Qed.

Lemma existsb_false_forall {A} (p : A -> bool) l :
  existsb p l = false -> forall x, In x l -> p x = false.
Proof.
  intros H x Hx. destruct (p x) eqn:E; [|reflexivity].
  assert (existsb p l = true) by (apply existsb_exists; eauto). congruence.
Qed.

Lemma statuses_wf_insert c nm rowid :
  statuses_wf c ->
  ~ In rowid (map Status.id (statuses c)) ->
  existsb (fun r => same_status_name r nm) (statuses c) = false ->
  statuses_wf
    (with_statuses c
       (statuses c ++ [{| Status.id := rowid; Status.name := nm;
                          Status.is_active := Some 1 |}]) rowid).
Proof.
  intros [Hid Hnm] Hfresh Hno. split; cbn [statuses with_statuses];
    rewrite map_app; cbn [map]; apply NoDup_snoc; auto.
  cbn [Status.name]. intros Hin. apply in_map_iff in Hin as (r & Hr & Hin).
  pose proof (existsb_false_forall _ _ Hno r Hin) as Hf.
  unfold same_status_name in Hf. rewrite Hr, String.eqb_refl in Hf. discriminate.
Qed.

Lemma add_status_wf name c : statuses_wf c -> statuses_wf (snd (add_status name c)).
Proof.
  intros Hwf. unfold add_status.
  destruct (String.eqb (Text.strip name) ""); [assumption|].
  destruct (existsb (fun r => same_status_name r (Text.strip name)) (statuses c)) eqn:E;
    [assumption|].
  unfold insert_status.
  destruct (existsb (fun r => String.eqb (Status.name r) (Text.strip name)) (statuses c));
    [assumption|].
  cbn [snd]. apply statuses_wf_insert; auto using next_rowid_fresh.
Qed.

Lemma renamed_ids stat_id nm l :
  map Status.id (map (renamed stat_id nm) l) = map Status.id l.
Proof.
  induction l as [|r l IH]; [reflexivity|]. cbn [map]. rewrite IH. f_equal.
  unfold renamed. now destruct (Status.id r =? stat_id).
Qed.

Lemma renamed_absent stat_id nm l :
  ~ In stat_id (map Status.id l) -> map (renamed stat_id nm) l = l.
Proof.
  induction l as [|r l IH]; [reflexivity|]. cbn [map]. intros H.
  rewrite IH by (intros H'; apply H; now right). f_equal.
  unfold renamed. destruct (Z.eqb_spec (Status.id r) stat_id); [|reflexivity].
  exfalso. apply H. now left.
Qed.

Lemma renamed_names stat_id nm l :
  List.NoDup (map Status.id l) ->
  List.NoDup (map (fun r => Text.lower (Status.name r)) l) ->
  (forall r, In r l -> Status.id r <> stat_id ->
             Text.lower (Status.name r) <> Text.lower nm) ->
  List.NoDup (map (fun r => Text.lower (Status.name r))
                (map (renamed stat_id nm) l)).
Proof.
  induction l as [|r l IH]; intros Hid Hnm Hother; [constructor|].
  cbn [map] in *. inversion Hid as [|? ? Hr Hid']; subst.
  inversion Hnm as [|? ? Hn Hnm']; subst.
  unfold renamed at 1. destruct (Z.eqb_spec (Status.id r) stat_id) as [Heq|Hne].
  - subst stat_id. rewrite renamed_absent by assumption.
    constructor; [|assumption]. cbn [Status.name].
    intros Hin. apply in_map_iff in Hin as (r' & Hr' & Hin).
    apply (Hother r'); [now right| |assumption].
    intros Heq. apply Hr. rewrite <- Heq. now apply in_map.
  - constructor.
    + intros Hin. apply in_map_iff in Hin as (r' & Hr' & Hin).
      apply in_map_iff in Hin as (r0 & <- & Hin0).
      unfold renamed in Hr'. destruct (Z.eqb_spec (Status.id r0) stat_id).
      * cbn [Status.name] in Hr'. apply (Hother r); [now left|assumption|now symmetry].
      * apply Hn. apply in_map_iff. eauto.
    + apply IH; auto. intros r' Hr'. apply Hother. now right.
Qed.

Lemma rename_status_wf stat_id new_name c db :
  statuses_wf c -> statuses_wf (snd (fst (rename_status stat_id new_name c db))).
Proof.
  intros Hwf. unfold rename_status.
  destruct (String.eqb (Text.strip new_name) ""); [assumption|].
  destruct (List.find _ (statuses c)) as [row|]; [|assumption].
  destruct (String.eqb (Status.name row) (Text.strip new_name)); [assumption|].
  destruct (existsb _ (statuses c)) eqn:E; [assumption|].
  cbn [fst snd]. destruct Hwf as [Hid Hnm].
  split; cbn [statuses with_statuses].
  - fold (renamed stat_id (Text.strip new_name)). now rewrite renamed_ids.
  - fold (renamed stat_id (Text.strip new_name)). apply renamed_names; auto.
    intros r Hr Hne Heq.
    pose proof (existsb_false_forall _ _ E r Hr) as Hf. cbn beta in Hf.
    unfold same_status_name in Hf. rewrite Heq, String.eqb_refl in Hf.
    apply Z.eqb_neq in Hne. rewrite Hne in Hf. discriminate.
Qed.

Lemma NoDup_map_filter {A B} (g : A -> B) (p : A -> bool) l :
  List.NoDup (map g l) -> List.NoDup (map g (List.filter p l)).
Proof.
  induction l as [|x l IH]; cbn; [auto|]. intros H.
  inversion H as [|? ? Hx Hl]; subst. destruct (p x); [|auto].
  cbn. constructor; [|auto]. intros Hin. apply Hx.
  apply in_map_iff in Hin as (y & Hy & Hin). apply filter_In in Hin as [Hin _].
  apply in_map_iff. eauto.
Qed.

(** X7. Status ids, and status names up to ASCII case, stay distinct under
    [add_status], [rename_status], [set_status_active] and
    [delete_status]. *)
Theorem statuses_stay_distinct (c : catalog) :
  statuses_wf c ->
  (forall name, statuses_wf (snd (add_status name c)))
  /\ (forall stat_id new_name db,
        statuses_wf (snd (fst (rename_status stat_id new_name c db))))
  /\ (forall stat_id active, statuses_wf (set_status_active stat_id active c))
  /\ (forall stat_id, statuses_wf (delete_status stat_id c)).
Proof.
  intros Hwf. split; [intros; now apply add_status_wf|].
  split; [intros; now apply rename_status_wf|]. destruct Hwf as [Hid Hnm]. split.
  - intros stat_id active. split; cbn [statuses set_status_active with_statuses];
      rewrite map_map.
    + erewrite map_ext; [exact Hid|]. intros r. cbn beta.
      now destruct (Status.id r =? stat_id).
    + erewrite map_ext; [exact Hnm|]. intros r. cbn beta.
      now destruct (Status.id r =? stat_id).
  - intros stat_id. split; cbn [statuses delete_status with_statuses];
      now apply NoDup_map_filter.
Qed.

Lemma statuses_stay_distinct_witness :
  statuses_wf sample_catalog
  /\ statuses_wf (snd (add_status "open" sample_catalog))
  /\ statuses_wf (snd (fst (rename_status 1 "Active" sample_catalog sample_db))).
Proof.
  assert (H : statuses_wf sample_catalog).
  { split; vm_compute; repeat constructor; cbn; intuition discriminate. }
  split; [exact H|].
  destruct (statuses_stay_distinct sample_catalog H) as (H1 & H2 & _).
  split; [apply H1|apply H2].
Defined.

Lemma has_status_spec old m :
  has_status old m = true <-> Memo.status m = Some old.
Proof.
  unfold has_status. destruct (Memo.status m) as [s|]; [|split; discriminate].
  rewrite String.eqb_eq. split; congruence.
Qed.

(** X8. [rename_status] on an existing status: an empty or unchanged name,
    or a name another status has up to ASCII case, leaves both tables as
    they were; otherwise the status carries the new name, every memorandum
    that had the old status has the new one, no memorandum keeps the old
    name, and nothing else in the memoranda changes. *)
Theorem rename_status_propagates (stat_id : Z) (new_name : string)
    (c : catalog) (db : memo_db) (row : Status.t) :
  let nm := Text.strip new_name in
  let out := rename_status stat_id new_name c db in
  List.find (fun r => Status.id r =? stat_id) (statuses c) = Some row ->
  (nm = "" \/ Status.name row = nm
   \/ existsb (fun r => same_status_name r nm && negb (Status.id r =? stat_id))
        (statuses c) = true ->
   snd (fst out) = c /\ snd out = db)
  /\ (nm <> "" -> Status.name row <> nm ->
      existsb (fun r => same_status_name r nm && negb (Status.id r =? stat_id))
        (statuses c) = false ->
      fst (fst out) = []
      /\ (forall r, In r (statuses (snd (fst out))) ->
                    Status.id r = stat_id -> Status.name r = nm)
      /\ length (memos (snd out)) = length (memos db)
      /\ (forall i m, nth_error (memos db) i = Some m ->
            nth_error (memos (snd out)) i
            = Some (if has_status (Status.name row) m
                    then set_memo_status nm m else m))
      /\ (forall m, In m (memos (snd out)) ->
                    Memo.status m <> Some (Status.name row))
      /\ settings (snd out) = settings db
      /\ audit_trail (snd out) = audit_trail db
      /\ memo_files (snd out) = memo_files db).
Proof.
  intros nm out Hfind. unfold out, rename_status. fold nm. rewrite Hfind. split.
  - intros [H|[H|H]].
    + apply String.eqb_eq in H. now rewrite H.
    + destruct (String.eqb nm ""); [auto|].
      apply String.eqb_eq in H. now rewrite H.
    + destruct (String.eqb nm ""); [auto|].
      destruct (String.eqb (Status.name row) nm); [auto|]. now rewrite H.
  - intros Hnm Hold Hfree.
    apply String.eqb_neq in Hnm. rewrite Hnm.
    pose proof Hold as Hold'. apply String.eqb_neq in Hold. rewrite Hold, Hfree.
    cbn [fst snd statuses with_statuses memos with_memos settings audit_trail memo_files].
    split; [reflexivity|]. split.
    { intros r Hr Hid. apply in_map_iff in Hr as (r0 & <- & _).
      destruct (Z.eqb_spec (Status.id r0) stat_id) as [|Hne]; [reflexivity|].
      now destruct Hne. }
    split; [apply length_map|]. split.
    { intros i m Hi. now rewrite nth_error_map, Hi. }
    split; [|auto].
    intros m Hm. apply in_map_iff in Hm as (m0 & <- & _).
    destruct (has_status (Status.name row) m0) eqn:E.
    + cbn [Memo.status set_memo_status]. congruence.
    + intros H. apply has_status_spec in H. congruence.
Qed.

Lemma rename_status_propagates_witness :
  map Memo.status
    (memos (snd (rename_status 1 " Active " sample_catalog sample_db)))
  = [Some "Active"; Some "Active"; Some "Active"]
  /\ forall m,
       In m (memos (snd (rename_status 1 " Active " sample_catalog sample_db))) ->
       Memo.status m <> Some "Open".
Proof.
  split; [vm_compute; reflexivity|].
  destruct (rename_status_propagates 1 " Active " sample_catalog sample_db
              {| Status.id := 1; Status.name := "Open";
                 Status.is_active := Some 1 |} eq_refl) as (_ & H).
  destruct (H ltac:(discriminate) ltac:(discriminate) eq_refl)
    as (_ & _ & _ & _ & Hgone & _).
  exact Hgone.
Defined.

Lemma category_exists_spec nm c :
  category_exists nm c = true <-> In nm (map Category.name (categories c)).
Proof.
  unfold category_exists. rewrite existsb_exists, in_map_iff.
  split; intros (r & H1 & H2); exists r.
  - apply String.eqb_eq in H2. auto.
  - rewrite String.eqb_eq. auto.
Qed.

Lemma insert_category_ok nm c :
  category_exists nm c = false ->
  exists row,
    insert_category nm c
    = Ok (with_categories c (categories c ++ [row]) (Category.id row))
    /\ Category.name row = nm /\ Category.is_active row = Some 1
    /\ ~ In (Category.id row) (map Category.id (categories c)).
Proof.
  intros H. unfold insert_category. rewrite H.
  exists {| Category.id := Sql.next_rowid (categories_seq c)
                             (map Category.id (categories c));
            Category.name := nm; Category.is_active := Some 1 |}.
  split; [reflexivity|]. cbn [Category.id Category.name Category.is_active].
  repeat split. apply next_rowid_fresh.
Qed.

Lemma categories_wf_insert c row :
  categories_wf c ->
  ~ In (Category.id row) (map Category.id (categories c)) ->
  category_exists (Category.name row) c = false ->
  categories_wf (with_categories c (categories c ++ [row]) (Category.id row)).
Proof.
  intros [Hid Hnm] Hfresh Hno. split; cbn [categories with_categories];
    rewrite map_app; cbn [map]; apply NoDup_snoc; auto.
  intros Hin. apply category_exists_spec in Hin. congruence.
Qed.

(** X9. [add_category]: a name already in the table gives the warning and
    no change; a new one is appended stripped and active, and is then among
    [get_active_categories]; distinct ids and names stay distinct. *)
Theorem add_category_spec (name : string) (c : catalog) :
  (category_exists (Text.strip name) c = true ->
   add_category name c
   = ([st_warning ("Category '" +:+ name +:+ "' already exists.")], c))
  /\ (category_exists (Text.strip name) c = false ->
      fst (add_category name c) = []
      /\ (exists row,
            categories (snd (add_category name c))
            = (categories c ++ [row])%list
            /\ Category.name row = Text.strip name
            /\ Category.is_active row = Some 1)
      /\ In (Text.strip name) (get_active_categories (snd (add_category name c))))
  /\ (categories_wf c -> categories_wf (snd (add_category name c))).
Proof.
  split; [|split].
  - intros H. unfold add_category, insert_category. now rewrite H.
  - intros H. destruct (insert_category_ok _ _ H) as (row & Hins & Hn & Ha & _).
    unfold add_category. rewrite Hins. cbn [fst snd].
    split; [reflexivity|]. split; [eauto|].
    unfold get_active_categories. rewrite order_by_In. apply in_map_iff.
    exists row. split; [assumption|]. cbn [categories with_categories].
    rewrite filter_In, in_app_iff. split; [right; now left|]. now rewrite Ha.
  - intros Hwf. destruct (category_exists (Text.strip name) c) eqn:H.
    + unfold add_category, insert_category. now rewrite H.
    + destruct (insert_category_ok _ _ H) as (row & Hins & Hn & _ & Hf).
      unfold add_category. rewrite Hins. cbn [snd].
      apply categories_wf_insert; auto. now rewrite Hn.
Qed.

Lemma add_category_spec_witness :
  add_category " Finance" sample_catalog
  = ([st_warning "Category ' Finance' already exists."], sample_catalog)
  /\ In "HR" (get_active_categories (snd (add_category "HR " sample_catalog))).
Proof.
  split.
  - exact (proj1 (add_category_spec " Finance" sample_catalog) eq_refl).
  - destruct (add_category_spec "HR " sample_catalog) as (_ & H & _).
    destruct (H eq_refl) as (_ & _ & Hin). exact Hin.
Defined.

(** X10. [ensure_category] answers [True] exactly when the stripped name is
    not empty and either exists or may be created; then the category
    exists afterwards.  Without [auto_create], with an empty name or with
    an existing one the table is unchanged. *)
Theorem ensure_category_spec (name : string) (auto_create : bool)
    (c : catalog) :
  let nm := Text.strip name in
  let out := ensure_category name auto_create c in
  (fst out = true <->
     nm <> "" /\ (category_exists nm c = true \/ auto_create = true))
  /\ (fst out = true -> category_exists nm (snd out) = true)
  /\ (auto_create = false \/ nm = "" \/ category_exists nm c = true ->
      snd out = c)
  /\ (categories_wf c -> categories_wf (snd out)).
Proof.
  intros nm out. unfold out, ensure_category. fold nm.
  destruct (String.eqb_spec nm "") as [He|Hne].
  { cbn [fst snd]. split; [split; [discriminate|intros [? _]; congruence]|].
    split; [discriminate|]. auto. }
  destruct (category_exists nm c) eqn:Hex; cbn [negb andb].
  { cbn [fst snd]. split; [split; auto|]. auto. }
  destruct auto_create.
  - destruct (insert_category_ok _ _ Hex) as (row & Hins & Hn & Ha & Hf).
    rewrite Hins. cbn [fst snd]. split; [split; auto|]. split; [|split].
    + intros _. apply category_exists_spec. cbn [categories with_categories].
      rewrite map_app, in_app_iff. right. left. exact Hn.
    + intros [H|[H|H]]; congruence.
    + intros Hwf. apply categories_wf_insert; auto. now rewrite Hn.
  - cbn [fst snd]. split; [split; [discriminate|intros [_ [H|H]]; discriminate]|].
    split; [discriminate|]. auto.
Qed.

Lemma ensure_category_spec_witness :
  fst (ensure_category " HR " true sample_catalog) = true
  /\ category_exists "HR" (snd (ensure_category " HR " true sample_catalog)) = true
  /\ ensure_category " HR " false sample_catalog = (false, sample_catalog).
Proof.
  destruct (ensure_category_spec " HR " true sample_catalog) as (H1 & H2 & _).
  cbv zeta in H1, H2.
  assert (Hok : fst (ensure_category " HR " true sample_catalog) = true).
  { apply H1. split; [discriminate|now right]. }
  split; [exact Hok|]. split; [exact (H2 Hok)|].
  destruct (ensure_category_spec " HR " false sample_catalog) as (_ & _ & H3 & _).
  cbv zeta in H3. specialize (H3 (or_introl eq_refl)).
  destruct (ensure_category " HR " false sample_catalog) as [b c] eqn:E.
  cbn [snd] in H3. subst c. f_equal. vm_compute in E. now injection E as <-.
Defined.

(** ** Editing and deleting memoranda *)

Lemma In_omap {A B} (g : A -> option B) l y :
  In y (omap g l) <-> exists x, In x l /\ g x = Some y.
Proof.
  rewrite <- list_elem_of_In, list_elem_of_omap.
  split; intros (x & H1 & H2); exists x; [rewrite <- list_elem_of_In|rewrite list_elem_of_In]; auto.
Qed.

Lemma omap_cons {A B} (g : A -> option B) x l :
  omap g (x :: l) = match g x with Some y => y :: omap g l | None => omap g l end.
Proof. reflexivity. Qed.

Lemma has_control_no_spec cn m :
  has_control_no cn m = true <-> Memo.control_no m = Some cn.
Proof.
  unfold has_control_no. destruct (Memo.control_no m); [|split; discriminate].
  rewrite String.eqb_eq. split; congruence.
Qed.

Lemma insert_memo_wf row db : memos_wf db -> memos_wf (snd (insert_memo row db)).
Proof.
  intros [Hid Hcn]. unfold memos_wf, insert_memo.
  destruct (match Memo.control_no row with Some _ => _ | None => _ end) eqn:E;
    [split; assumption|].
  cbv zeta. cbn [snd memos]. split.
  - rewrite map_app. cbn [map Memo.id]. apply NoDup_snoc; auto using next_rowid_fresh.
  - rewrite omap_app. cbn [omap list_omap Memo.control_no].
    destruct (Memo.control_no row) as [cn|]; [|now rewrite List.app_nil_r].
    apply NoDup_snoc; [assumption|].
    intros Hin. apply In_omap in Hin as (m & Hm & Hc).
    pose proof (existsb_false_forall _ _ E m Hm) as Hf. cbn beta in Hf.
    rewrite Hc, String.eqb_refl in Hf. discriminate.
Qed.

Lemma save_files_memos e files memo_id db :
  memos (snd (save_files e files memo_id db)) = memos db.
Proof.
  unfold save_files. destruct files; [reflexivity|].
  destruct (existsb _ (memos db)); reflexivity.
Qed.

Lemma save_memorandum_memos e user nmu form db :
  memos (snd (save_memorandum e user nmu form db)) = memos db
  \/ exists row, memos (snd (save_memorandum e user nmu form db))
                 = memos (snd (insert_memo row db)).
Proof.
  unfold save_memorandum.
  destruct (negb _); [now left|].
  destruct (memo_control_no form) as [ctrl|]; [|now left].
  destruct (String.eqb ctrl ""); [now left|].
  destruct (String.eqb (in_subject form) ""); [now left|].
  destruct (save_memo_for_units _ _ _); [now left|].
  match goal with |- context [insert_memo ?r db] => set (row := r) end.
  right. exists row.
  destruct (insert_memo row db) as [[memo_id|ex] db1] eqn:E; cbn [snd].
  - pose proof (save_files_memos e (in_files form) memo_id db1) as Hsf.
    destruct (save_files e (in_files form) memo_id db1) as [[saved|ex] db2];
      cbn [snd] in Hsf.
    + destruct (log_action_frame e user "memo_create" (Some memo_id)
                  ("control=" +:+ Text.strip ctrl) db2) as (db3 & Hlog & Hm & _).
      rewrite Hlog. cbn [snd]. congruence.
    + destruct ex; exact Hsf.
  - destruct ex; reflexivity.
Qed.

Lemma edit_row_ids sel_id f mf upd l :
  map Memo.id (map (edit_row sel_id f mf upd) l) = map Memo.id l.
Proof.
  induction l as [|r l IH]; [reflexivity|]. cbn [map]. rewrite IH. f_equal.
  unfold edit_row. now destruct (Memo.id r =? sel_id).
Qed.

Lemma edit_row_absent sel_id f mf upd l :
  ~ In sel_id (map Memo.id l) -> map (edit_row sel_id f mf upd) l = l.
Proof.
  induction l as [|r l IH]; [reflexivity|]. cbn [map]. intros H.
  rewrite IH by (intros H'; apply H; now right). f_equal.
  unfold edit_row. destruct (Z.eqb_spec (Memo.id r) sel_id); [|reflexivity].
  exfalso. apply H. now left.
Qed.

Lemma NoDup_omap_tail {A B} (g : A -> option B) x l :
  List.NoDup (omap g (x :: l)) -> List.NoDup (omap g l).
Proof.
  rewrite omap_cons. destruct (g x); [|auto]. now inversion 1.
Qed.

Lemma edit_row_control_nos sel_id f mf upd l :
  List.NoDup (map Memo.id l) ->
  List.NoDup (omap Memo.control_no l) ->
  (forall r, In r l -> Memo.id r <> sel_id ->
             Memo.control_no r <> Some (Text.strip (new_control f))) ->
  List.NoDup (omap Memo.control_no (map (edit_row sel_id f mf upd) l)).
Proof.
  induction l as [|r l IH]; intros Hid Hcn Hother; [constructor|].
  cbn [map] in *. inversion Hid as [|? ? Hr Hid']; subst.
  pose proof (NoDup_omap_tail _ _ _ Hcn) as Hcn'.
  rewrite omap_cons.
  unfold edit_row at 1. destruct (Z.eqb_spec (Memo.id r) sel_id) as [Heq|Hne].
  - subst sel_id. rewrite edit_row_absent by assumption.
    cbn [Memo.control_no edited]. constructor; [|assumption].
    intros Hin. apply In_omap in Hin as (r' & Hr' & Hc).
    apply (Hother r'); [now right| |assumption].
    intros Heq. apply Hr. rewrite <- Heq. now apply in_map.
  - assert (Hrest : List.NoDup (omap Memo.control_no (map (edit_row sel_id f mf upd) l))).
    { apply IH; auto. intros r' Hr'. apply Hother. now right. }
    destruct (Memo.control_no r) as [cn|] eqn:Ec; [|assumption].
    constructor; [|assumption].
    intros Hin. apply In_omap in Hin as (r' & Hr' & Hc).
    apply in_map_iff in Hr' as (r0 & <- & Hin0).
    unfold edit_row in Hc. destruct (Z.eqb_spec (Memo.id r0) sel_id).
    + cbn [Memo.control_no edited] in Hc. injection Hc as <-.
      apply (Hother r); [now left|assumption|assumption].
    + rewrite omap_cons, Ec in Hcn. inversion Hcn as [|? ? Hx _]; subst.
      apply Hx. apply In_omap. eauto.
Qed.

Lemma update_memo_row_wf sel_id f mf upd db db' :
  memos_wf db -> update_memo_row sel_id f mf upd db = Ok db' -> memos_wf db'.
Proof.
  intros [Hid Hcn]. unfold update_memo_row.
  destruct (existsb (fun m => Memo.id m =? sel_id) (memos db)) eqn:Ex; cbn [andb].
  - destruct (existsb (fun m => negb _ && _) (memos db)) eqn:Ec;
      [discriminate|]. cbv iota.
    intros [= <-]. split; cbn [memos with_memos].
    + fold (edit_row sel_id f mf upd). now rewrite edit_row_ids.
    + fold (edit_row sel_id f mf upd). apply edit_row_control_nos; auto.
      intros r Hr Hne Hc.
      pose proof (existsb_false_forall _ _ Ec r Hr) as Hf. cbn beta in Hf.
      apply Z.eqb_neq in Hne. rewrite Hne in Hf. cbn [negb andb] in Hf.
      apply has_control_no_spec in Hc. congruence.
  - cbv iota. intros [= <-]. split; cbn [memos with_memos];
      fold (edit_row sel_id f mf upd); rewrite edit_row_absent; auto.
    + intros Hin. apply in_map_iff in Hin as (m & Hm & Hin).
      pose proof (existsb_false_forall _ _ Ex m Hin) as Hf. cbn beta in Hf. lia.
    + intros Hin. apply in_map_iff in Hin as (m & Hm & Hin).
      pose proof (existsb_false_forall _ _ Ex m Hin) as Hf. cbn beta in Hf. lia.
Qed.

Lemma press_update_wf e user sel_id f db :
  memos_wf db -> memos_wf (db_after (press_update e user sel_id f db)).
Proof.
  intros Hwf. unfold press_update.
  destruct (List.find _ (memos db)) as [memo|]; [|exact Hwf].
  destruct (can_edit user memo); [|exact Hwf].
  destruct (if role_in _ _ then _ else _) as [|u0 us]; [exact Hwf|].
  destruct (update_memo_row _ _ _ _ _) as [db1|ex] eqn:E.
  - apply (update_memo_row_wf _ _ _ _ _ _ Hwf) in E.
    destruct (log_action_frame e user "memo_update" (Some sel_id)
                ("control=" +:+ Text.strip (new_control f)) db1)
      as (db2 & Hlog & Hm & _).
    rewrite Hlog. cbn [db_after]. destruct E as [E1 E2].
    split; now rewrite Hm.
  - destruct ex; exact Hwf.
Qed.

Lemma NoDup_omap_filter {A B} (g : A -> option B) (p : A -> bool) l :
  List.NoDup (omap g l) -> List.NoDup (omap g (List.filter p l)).
Proof.
  induction l as [|x l IH]; [auto|]. intros H.
  pose proof (NoDup_omap_tail _ _ _ H) as Ht. cbn [List.filter].
  destruct (p x); [|auto]. rewrite omap_cons in *.
  destruct (g x) as [y|]; [|auto]. inversion H as [|? ? Hy _]; subst.
  constructor; [|auto]. intros Hin. apply Hy.
  apply In_omap in Hin as (z & Hz & Hg). apply filter_In in Hz as [Hz _].
  apply In_omap. eauto.
Qed.

Lemma omap_map_wipe ts memo_id l :
  omap Memo.control_no
    (map (fun m => if Memo.id m =? memo_id then wipe ts m else m) l)
  = omap Memo.control_no l.
Proof.
  induction l as [|m l IH]; [reflexivity|]. cbn [map]. rewrite !omap_cons, IH.
  now destruct (Memo.id m =? memo_id).
Qed.

(** X11. Memo ids and non-NULL control numbers stay distinct under every
    write of the memos table: the INSERT, "Save Memorandum", "Update",
    [clear_memo_contents] and the hard delete. *)
Theorem control_numbers_stay_unique (db : memo_db) :
  memos_wf db ->
  (forall row, memos_wf (snd (insert_memo row db)))
  /\ (forall e user new_memo_units form,
        memos_wf (snd (save_memorandum e user new_memo_units form db)))
  /\ (forall e user sel_id f,
        memos_wf (db_after (press_update e user sel_id f db)))
  /\ (forall e memo_id, memos_wf (clear_memo_contents e memo_id db))
  /\ (forall sel_id, memos_wf (delete_memo_row sel_id db)).
Proof.
  intros Hwf. split; [intros; now apply insert_memo_wf|]. split.
  { intros e user nmu form.
    destruct (save_memorandum_memos e user nmu form db) as [H|[row H]];
      unfold memos_wf; rewrite H; [exact Hwf|].
    now apply insert_memo_wf. }
  split; [intros; now apply press_update_wf|]. destruct Hwf as [Hid Hcn]. split.
  - intros e memo_id. split; cbn [memos clear_memo_contents].
    + rewrite map_map. erewrite map_ext; [exact Hid|]. intros m. cbn beta.
      now destruct (Memo.id m =? memo_id).
    + rewrite omap_map_wipe. exact Hcn.
  - intros sel_id. split; cbn [memos delete_memo_row].
    + now apply NoDup_map_filter.
    + now apply NoDup_omap_filter.
Qed.

Lemma control_numbers_stay_unique_witness :
  memos_wf sample_db
  /\ memos_wf (snd (save_memorandum sample_env (Some user_of_IS) None
                      (sample_form "MEMO 25-001") sample_db))
  /\ memos_wf (db_after (press_update sample_env (Some user_of_IS) 2
                           sample_edit sample_db))
  /\ memos_wf (delete_memo_row 1 sample_db).
Proof.
  assert (H : memos_wf sample_db).
  { split; vm_compute; repeat constructor; cbn; intuition discriminate. }
  split; [exact H|].
  destruct (control_numbers_stay_unique sample_db H) as (_ & H1 & H2 & _ & H3).
  split; [apply H1|]. split; [apply H2|apply H3].
Defined.

Lemma fold_join xs : forall acc,
  fold_left (fun acc y => acc +:+ ", " +:+ y) xs acc = acc +:+ join_tail xs.
Proof.
  induction xs as [|y ys IH]; intros acc; cbn [fold_left join_tail].
  - induction acc as [|c acc IHa]; [reflexivity|]. rewrite append_cons. now f_equal.
  - rewrite IH. now rewrite !append_assoc_r.
Qed.

Lemma join_comma_cons x xs : join_comma (x :: xs) = x +:+ join_tail xs.
Proof. unfold join_comma. apply fold_join. Qed.

Lemma split_no_sep sep s : ~ occurs sep s -> Text.split sep s = [s].
Proof.
  induction s as [|c s IH]; [reflexivity|]. cbn [occurs Text.split]. intros H.
  destruct (Ascii.eqb_spec c sep); [tauto|]. rewrite IH by tauto. reflexivity.
Qed.

Lemma split_app_sep sep a b :
  ~ occurs sep a ->
  Text.split sep (a +:+ String sep b) = a :: Text.split sep b.
Proof.
  induction a as [|c a IH]; intros H.
  - rewrite append_empty_l. cbn [Text.split]. now rewrite Ascii.eqb_refl.
  - rewrite append_cons. cbn [Text.split occurs] in *.
    destruct (Ascii.eqb_spec c sep); [tauto|]. rewrite IH by tauto. reflexivity.
Qed.

Lemma split_join_tail xs :
  Forall (fun x => ~ occurs "," x) xs ->
  forall x, ~ occurs "," x ->
  Text.split "," (x +:+ join_tail xs) = x :: map (fun y => " " +:+ y) xs.
Proof.
  induction 1 as [|y ys Hy Hys IH]; intros x Hx; cbn [join_tail map].
  - replace (x +:+ "") with x by (clear; induction x; [reflexivity|rewrite append_cons; now f_equal]).
    now apply split_no_sep.
  - change (", " +:+ y +:+ join_tail ys) with (String "," (" " +:+ y +:+ join_tail ys)).
    rewrite split_app_sep by assumption. f_equal.
    rewrite <- append_assoc_r. rewrite (IH (" " +:+ y)).
    + reflexivity.
    + cbn. intros [H|H]; [discriminate|contradiction].
Qed.

Lemma strip_blank_front s : Text.strip (" " +:+ s) = Text.strip s.
Proof. reflexivity. Qed.

Lemma memo_units_read_back (xs : list string) :
  Forall (fun x => ~ occurs "," x /\ Text.strip x = x /\ x <> "") xs ->
  memo_units (Some (join_comma xs)) = xs.
Proof.
  intros Hall. unfold memo_units.
  destruct xs as [|u us]; [reflexivity|].
  inversion Hall as [|? ? (Hu & Hfix & Hne) Hus]; subst.
  rewrite join_comma_cons.
  assert (Hcomma : Forall (fun x => ~ occurs "," x) us).
  { eapply List.Forall_impl; [|exact Hus]. cbv beta. tauto. }
  rewrite split_join_tail by assumption.
  cbn [map List.filter]. rewrite Hfix.
  replace (not_blank u) with true
    by (unfold not_blank; apply String.eqb_neq in Hne; now rewrite Hne).
  f_equal. clear Hcomma Hall Hu Hfix Hne.
  induction us as [|v vs IH]; [reflexivity|].
  inversion Hus as [|? ? (_ & Hfix & Hv) Hvs]; subst.
  cbn [map List.filter]. rewrite strip_blank_front, Hfix.
  replace (not_blank v) with true
    by (unfold not_blank; apply String.eqb_neq in Hv; now rewrite Hv).
  f_equal. now apply IH.
Qed.

(** X12. The unit tags written by the save and update handlers,
    [", ".join(u.strip() ...)], are read back by the editor's split of
    [memo_for] as the same stripped names, when no name contains a comma or
    is blank. *)
Theorem memo_units_of_joined (names : list string) :
  Forall (fun u => ~ occurs "," u /\ Text.strip u <> "") names ->
  memo_units (Some (join_comma (map Text.strip names))) = map Text.strip names.
Proof.
  intros Hall. apply memo_units_read_back.
  apply List.Forall_forall. intros x Hx.
  apply in_map_iff in Hx as (u & <- & Hu).
  rewrite List.Forall_forall in Hall. destruct (Hall u Hu) as [Hc Hne].
  split; [now apply strip_no_occurs|]. split; [apply strip_idem|exact Hne].
Qed.

Lemma memo_units_of_joined_witness :
  memo_units (Some (join_comma (map Text.strip [" IS "; "EID"; "F M"])))
  = ["IS"; "EID"; "F M"].
Proof.
  rewrite (memo_units_of_joined [" IS "; "EID"; "F M"]); [reflexivity|].
  repeat constructor; cbn; intuition discriminate.
Defined.

Lemma append_empty_r s : s +:+ "" = s.
Proof. induction s; [reflexivity|rewrite append_cons; now f_equal]. Qed.




Lemma like_nocase_prefix u : forall x rest,
  Text.lower u = Text.lower x -> Text.like (u +:+ "%") (x +:+ rest) = true.
Proof.
  induction u as [|c u IH]; intros [|d x] rest Heq; try discriminate.
  - apply like_percent_any.
  - cbn [Text.lower] in Heq. injection Heq as Hcd Hux.
    specialize (IH x rest Hux). rewrite !append_cons.
    destruct (Ascii.eqb_spec c "%") as [->|Hne].
    + apply like_percent_step, like_percent_here, IH.
    + cbn [Text.like]. apply Ascii.eqb_neq in Hne. rewrite Hne.
      unfold Text.eq_nocase. rewrite Hcd, Ascii.eqb_refl, orb_true_r. exact IH.
Qed.

Lemma like_percent_skip pat pre s :
  Text.like (String "%" pat) s = true ->
  Text.like (String "%" pat) (pre +:+ s) = true.
Proof.
  intros H. induction pre as [|c pre IH]; [exact H|].
  rewrite append_cons. now apply like_percent_step.
Qed.

Lemma like_nocase_infix u x pre post :
  Text.lower u = Text.lower x ->
  Text.like ("%" +:+ u +:+ "%") (pre +:+ x +:+ post) = true.
Proof.
  intros H. change ("%" +:+ u +:+ "%") with (String "%" (u +:+ "%")).
  apply like_percent_skip, like_percent_here, like_nocase_prefix, H.
Qed.










Lemma find_id_In sel_id l memo :
  List.find (fun m => Memo.id m =? sel_id) l = Some memo ->
  In memo l /\ Memo.id memo = sel_id.
Proof. intros H. apply find_some in H as [H1 H2]. split; [assumption|lia]. Qed.

(** X14. "Update" on the selected memorandum: without the right to edit
    nothing happens; with no unit tag, or with a control number that
    another memorandum has, an error is shown and nothing is written;
    otherwise the success message is shown, the page asks for a rerun, only
    the selected row changes and it carries the edited fields. *)
Theorem press_update_spec (e : env) (user : option session_user) (sel_id : Z)
    (f : edit_form) (db : memo_db) (memo : Memo.t) :
  List.find (fun m => Memo.id m =? sel_id) (memos db) = Some memo ->
  let run := press_update e user sel_id f db in
  let tags :=
    if role_in (session_role user) ["admin"; "super"]
    then picked_units f else memo_units (Memo.memo_for memo) in
  let taken :=
    existsb (fun m => negb (Memo.id m =? sel_id)
                      && has_control_no (Text.strip (new_control f)) m)
      (memos db) in
  (can_edit user memo = false -> run = shows [] db)
  /\ (can_edit user memo = true -> tags = [] ->
      run = shows [st_error
              "At least one division/unit is required to tag this memorandum."]
              db)
  /\ (can_edit user memo = true -> tags <> [] -> taken = true ->
      run = shows [st_error "Control No. must be unique. Update aborted."] db)
  /\ (can_edit user memo = true -> tags <> [] -> taken = false ->
      shown_msgs run = [st_success "Memorandum updated."]
      /\ wants_rerun run = true /\ raised run = None
      /\ (forall i m, nth_error (memos db) i = Some m ->
            nth_error (memos (db_after run)) i
            = Some (if Memo.id m =? sel_id
                    then edited f (join_comma (map Text.strip tags))
                           (today_ts e) m
                    else m))
      /\ settings (db_after run) = settings db
      /\ control_prefixes (db_after run) = control_prefixes db
      /\ memo_files (db_after run) = memo_files db).
Proof.
  intros Hfind run tags taken. unfold run, press_update. rewrite Hfind.
  fold tags. destruct (find_id_In _ _ _ Hfind) as [Hin Hid].
  assert (Hex : existsb (fun m => Memo.id m =? sel_id) (memos db) = true).
  { apply existsb_exists. exists memo. split; [assumption|lia]. }
  split; [intros ->; reflexivity|].
  split; [intros -> ->; reflexivity|].
  split.
  - intros -> Htags Htaken. destruct tags as [|t0 ts] eqn:Et; [congruence|].
    unfold update_memo_row. fold taken. now rewrite Hex, Htaken.
  - intros -> Htags Htaken. destruct tags as [|t0 ts] eqn:Et; [congruence|].
    unfold update_memo_row. fold taken. rewrite Hex, Htaken. cbn [andb].
    match goal with |- context [log_action e user ?a ?b ?c ?d] =>
      destruct (log_action_frame e user a b c d)
        as (db2 & Hlog & Hm & _ & Hs & Hp & Hf & _) end.
    rewrite Hlog. cbn [shown_msgs wants_rerun raised db_after].
    split; [reflexivity|]. split; [reflexivity|]. split; [reflexivity|].
    rewrite Hm, Hs, Hp, Hf. cbn [memos with_memos settings control_prefixes memo_files].
    split; [|auto]. intros i m Hi. now rewrite nth_error_map, Hi.
Qed.

Lemma press_update_spec_witness :
  shown_msgs (press_update sample_env (Some user_of_IS) 2 sample_edit sample_db)
  = [st_success "Memorandum updated."]
  /\ nth_error
       (memos (db_after (press_update sample_env (Some user_of_IS) 2
                           sample_edit sample_db))) 0
     = Some memo_fiscal_lower
  /\ press_update sample_env (Some user_of_IS) 1 sample_edit sample_db
     = shows [] sample_db.
Proof.
  destruct (press_update_spec sample_env (Some user_of_IS) 2 sample_edit
              sample_db memo_is_last_year eq_refl) as (_ & _ & _ & H).
  destruct (H ltac:(vm_compute; reflexivity) ltac:(vm_compute; discriminate)
              ltac:(vm_compute; reflexivity)) as (H1 & _ & _ & H2 & _).
  split; [exact H1|]. split; [exact (H2 0%nat memo_fiscal_lower eq_refl)|].
  destruct (press_update_spec sample_env (Some user_of_IS) 1 sample_edit
              sample_db memo_fiscal_lower eq_refl) as (H0 & _).
  apply H0. vm_compute. reflexivity.
Defined.

Lemma strip_fixed_all (names : list string) :
  Forall (fun u => ~ occurs "," u /\ Text.strip u = u /\ u <> "") names ->
  map Text.strip names = names
  /\ Forall (fun u => ~ occurs "," u /\ Text.strip u <> "") names.
Proof.
  induction 1 as [|u us (Hc & Hs & Hne) _ [IH1 IH2]]; [split; constructor|].
  cbn [map]. rewrite Hs, IH1. split; [reflexivity|].
  constructor; [|assumption]. split; [assumption|]. now rewrite Hs.
Qed.

(** X15. A memorandum saved by a plain user is tagged with that user's
    units, so that user may edit it and finds it in the listing: for unit
    names that are stripped, not empty and free of commas. *)
Theorem author_can_edit (e : env) (u : session_user)
    (nmu : option (list string)) (form : memo_form) (db : memo_db)
    (ctrl : string) :
  su_role u = Some "user" ->
  su_units u <> [] ->
  Forall (fun n => ~ occurs "," n /\ Text.strip n = n /\ n <> "") (su_units u) ->
  memo_control_no form = Some ctrl -> ctrl <> "" ->
  in_subject form <> "" ->
  (forall m, In m (memos db) -> Memo.control_no m <> Some (Text.strip ctrl)) ->
  exists msgs db' stored,
    save_memorandum e (Some u) nmu form db = (Ok msgs, db')
    /\ memos db' = (memos db ++ [stored])%list
    /\ Memo.memo_for stored = Some (join_comma (su_units u))
    /\ can_edit (Some u) stored = true
    /\ memo_matches_units (su_units u) stored = true.
Proof.
  intros Hrole Hunits Hall Hctrl Hne Hsub Hfresh.
  destruct (strip_fixed_all _ Hall) as [Hfix Hall'].
  assert (Hsave : save_memo_for_units (session_role (Some u)) nmu
                    (session_units (Some u)) = su_units u).
  { cbn [session_role session_units]. now rewrite Hrole. }
  destruct (save_memorandum_fresh e (Some u) nmu form db ctrl Hctrl Hne)
    as (db' & stored & Hrun & Hmem & _ & _ & Hfor); try assumption.
  { cbn [session_role]. now rewrite Hrole. }
  { now rewrite Hsave. }
  rewrite Hsave, Hfix in Hfor.
  eexists; exists db', stored. split; [exact Hrun|]. split; [exact Hmem|].
  split; [exact Hfor|].
  destruct (su_units u) as [|n ns] eqn:Hu; [contradiction|]. split.
  - unfold can_edit. cbn [session_role session_units]. rewrite Hrole, Hu.
    cbn [is_admin_role role_in existsb andb orb].
    change (("user" =? "admin")%string) with false.
    change (("user" =? "super")%string) with false.
    change (("user" =? "user")%string) with true. cbn [orb andb].
    rewrite Hfor, (memo_units_read_back _ Hall).
    cbn [map existsb]. now rewrite String.eqb_refl.
  - apply memo_matches_units_iff. exists n, (join_comma (n :: ns)).
    split; [now left|]. split; [exact Hfor|].
    rewrite join_comma_cons.
    change (n +:+ join_tail ns) with ("" +:+ n +:+ join_tail ns).
    now apply like_nocase_infix.
Qed.

Lemma author_can_edit_witness :
  exists msgs db' stored,
    save_memorandum sample_env (Some user_of_IS) None
      (sample_form "MEMO 25-003") sample_db = (Ok msgs, db')
    /\ memos db' = (memos sample_db ++ [stored])%list
    /\ Memo.memo_for stored = Some "IS"
    /\ can_edit (Some user_of_IS) stored = true
    /\ memo_matches_units (su_units user_of_IS) stored = true.
Proof.
  apply (author_can_edit sample_env user_of_IS None (sample_form "MEMO 25-003")
           sample_db "MEMO 25-003");
    try reflexivity; try discriminate.
  - repeat constructor; cbn; intuition discriminate.
  - intros m [<-|[<-|[<-|[]]]]; discriminate.
Defined.

(** ** Password hashes *)

Lemma hex_digit_value (n : N) :
  (n < 16)%N ->
  hex_value (hex_digit n) = Some n /\ ascii_space (hex_digit n) = false.
Proof.
  intros H.
  destruct n as [|p]; [now vm_compute|].
  destruct p as [p|p|]; [| |now vm_compute];
    (destruct p as [p|p|]; [| |now vm_compute]);
    (destruct p as [p|p|]; [| |now vm_compute]);
    (destruct p as [p|p|]; [| |now vm_compute]); lia.
Qed.

Lemma fromhex_tohex (bs : list N) :
  Forall (fun b => (b < 256)%N) bs -> fromhex (tohex bs) = Some bs.
Proof.
  induction 1 as [|b bs Hb _ IH]; [reflexivity|].
  assert (Hq : (b / 16 < 16)%N) by (apply N.Div0.div_lt_upper_bound; lia).
  assert (Hr : (b mod 16 < 16)%N) by (apply N.mod_lt; lia).
  destruct (hex_digit_value _ Hq) as [Hv1 Hs1].
  destruct (hex_digit_value _ Hr) as [Hv2 _].
  cbn [tohex fromhex]. rewrite Hs1, Hv1, Hv2, IH. cbn [option_map].
  f_equal. f_equal. rewrite (N.div_mod b 16) at 3 by lia. lia.
Qed.

Lemma verify_password_made (e e' : env) (password attempt : string)
    (salt_bytes : list N) :
  os_urandom e = tohex salt_bytes ->
  salt_bytes <> [] ->
  Forall (fun b => (b < 256)%N) salt_bytes ->
  (forall pw salt, pbkdf2_hmac e' pw salt = pbkdf2_hmac e pw salt) ->
  verify_password e' attempt (Some (fst (hash_password e password)))
    (Some (snd (hash_password e password)))
  = Ok (String.eqb (pbkdf2_hmac e password (os_urandom e))
          (pbkdf2_hmac e attempt (os_urandom e))).
Proof.
  intros Hsalt Hne Hbytes Hsame. unfold hash_password, verify_password.
  cbn [fst snd]. unfold hash_password_salted. rewrite Hsalt.
  destruct salt_bytes as [|b bs]; [contradiction|].
  change (tohex (b :: bs) =? "")%string with false. cbv iota.
  rewrite (fromhex_tohex _ Hbytes), !Hsame. cbn [text_is].
  now rewrite String.eqb_sym.
Qed.

(** X16. A hash made by [hash_password] verifies the password it was made
    from, and another password exactly when it hashes the same, for a salt
    that is the hex form of a non-empty byte string. *)
Theorem verify_password_round_trip (e e' : env) (password attempt : string)
    (salt_bytes : list N) :
  os_urandom e = tohex salt_bytes ->
  salt_bytes <> [] ->
  Forall (fun b => (b < 256)%N) salt_bytes ->
  (forall pw salt, pbkdf2_hmac e' pw salt = pbkdf2_hmac e pw salt) ->
  let '(salt, hash) := hash_password e password in
  verify_password e' password (Some salt) (Some hash) = Ok true
  /\ verify_password e' attempt (Some salt) (Some hash)
     = Ok (String.eqb (pbkdf2_hmac e password salt)
             (pbkdf2_hmac e attempt salt)).
Proof.
  intros Hsalt Hne Hbytes Hsame.
  pose proof (verify_password_made e e' password password _ Hsalt Hne Hbytes Hsame) as H1.
  pose proof (verify_password_made e e' password attempt _ Hsalt Hne Hbytes Hsame) as H2.
  unfold hash_password in *. cbn [fst snd] in *.
  rewrite String.eqb_refl in H1. auto.
Qed.

Lemma sample_salt_bytes : Forall (fun b => (b < 256)%N) sample_salt.
Proof. repeat constructor. Qed.

Lemma verify_password_round_trip_witness :
  verify_password sample_env "pw"
    (Some (fst (hash_password sample_env "pw")))
    (Some (snd (hash_password sample_env "pw"))) = Ok true
  /\ verify_password sample_env "pW"
       (Some (fst (hash_password sample_env "pw")))
       (Some (snd (hash_password sample_env "pw"))) = Ok false.
Proof.
  pose proof (verify_password_round_trip sample_env sample_env "pw" "pW"
                sample_salt eq_refl ltac:(discriminate) sample_salt_bytes
                (fun _ _ => eq_refl)) as H.
  exact H.
Defined.

(** ** Units *)

Lemma ids_name_mono t t' req ids :
  (forall r, In r (units t) -> In r (units t')) ->
  ids_name t req ids -> ids_name t' req ids.
Proof.
  intros Hm H. unfold ids_name in *.
  induction H as [|n i req ids (r & Hr & Hi & Hn) _ IH]; constructor; [|exact IH].
  exists r. auto.
Qed.

Lemma ensure_units_loop_spec names : forall t,
  (exists added, units (snd (ensure_units_loop names t)) = (units t ++ added)%list)
  /\ user_units (snd (ensure_units_loop names t)) = user_units t
  /\ users_seq (snd (ensure_units_loop names t)) = users_seq t
  /\ ids_name (snd (ensure_units_loop names t)) (requested_units names)
       (fst (ensure_units_loop names t)).
Proof.
  induction names as [|n names IH]; intros t.
  - cbn. split; [exists []; now rewrite app_nil_r|]. repeat split. constructor.
  - cbn [ensure_units_loop]. cbv zeta. unfold requested_units. cbn [map List.filter].
    unfold not_blank at 1.
    destruct (Text.strip n =? "")%string eqn:Eb; cbn [negb].
    + apply IH.
    + destruct (List.find _ (units t)) as [row|] eqn:Ef.
      * destruct (IH t) as ((added & Ha) & Hu & Hs & Hids).
        destruct (ensure_units_loop names t) as [ids t'] eqn:El. cbn [fst snd] in *.
        split; [eauto|]. split; [assumption|]. split; [assumption|].
        constructor; [|exact Hids].
        apply find_some in Ef as [Hin Hsame]. exists row.
        rewrite Ha, in_app_iff. auto.
      * set (unit_id := Sql.next_rowid (units_seq t) (map OrgUnit.id (units t))).
        set (row := {| OrgUnit.id := unit_id; OrgUnit.name := Text.strip n;
                       OrgUnit.is_active := Some 1 |}).
        set (t1 := {| units := units t ++ [row]; units_seq := unit_id;
                      user_units := user_units t; users_seq := users_seq t |}).
        destruct (IH t1) as ((added & Ha) & Hu & Hs & Hids).
        destruct (ensure_units_loop names t1) as [ids t'] eqn:El. cbn [fst snd] in *.
        split; [exists (row :: added); rewrite Ha; cbn [units t1];
                now rewrite <- List.app_assoc|].
        split; [assumption|]. split; [assumption|].
        constructor; [|exact Hids].
        exists row. rewrite Ha. cbn [units t1]. rewrite !in_app_iff. cbn [In].
        split; [auto|]. split; [reflexivity|].
        unfold same_unit_name. cbn [OrgUnit.name row]. apply String.eqb_refl.
Qed.

(** X17. [ensure_units_exist]: the rows already there are kept, links and
    users are not touched, and the ids returned name, position by position,
    units called like the non-blank requests up to ASCII case. *)
Theorem ensure_units_exist_spec (names : list string) (t : unit_tables) :
  let '(ids, t') := ensure_units_exist names t in
  (exists added, units t' = (units t ++ added)%list)
  /\ user_units t' = user_units t
  /\ users_seq t' = users_seq t
  /\ ids_name t' (requested_units names) ids.
Proof.
  unfold ensure_units_exist. pose proof (ensure_units_loop_spec names t) as H.
  destruct (ensure_units_loop names t) as [ids t']. exact H.
Qed.

Lemma find_none_lower name l :
  List.find (fun r => same_unit_name r name) l = None ->
  ~ In (Text.lower name) (map (fun r => Text.lower (OrgUnit.name r)) l).
Proof.
  intros Hf Hin. apply in_map_iff in Hin as (r & Hr & Hin).
  pose proof (find_none _ _ Hf r Hin) as H. cbn in H. unfold same_unit_name in H.
  rewrite Hr, String.eqb_refl in H. discriminate.
Qed.

Lemma ensure_units_loop_wf names : forall t,
  units_wf t -> units_wf (snd (ensure_units_loop names t)).
Proof.
  induction names as [|n names IH]; intros t Hwf; [exact Hwf|].
  cbn [ensure_units_loop]. cbv zeta.
  destruct (Text.strip n =? "")%string; [now apply IH|].
  destruct (List.find _ (units t)) as [row|] eqn:Ef.
  - specialize (IH t Hwf). now destruct (ensure_units_loop names t).
  - match goal with |- context [ensure_units_loop names ?t1] =>
      specialize (IH t1); destruct (ensure_units_loop names t1) end.
    cbn [snd] in *. apply IH. destruct Hwf as [Hi Hn].
    split; cbn [units]; rewrite map_app; cbn [map OrgUnit.id OrgUnit.name];
      apply NoDup_snoc; try assumption.
    + apply next_rowid_fresh.
    + now apply find_none_lower.
Qed.

Lemma link_units_spec user_id x : forall ids links,
  In (user_id, x) (link_units user_id ids links)
  <-> In (user_id, x) links \/ In x ids.
Proof.
  induction ids as [|i ids IH]; intros links; cbn [link_units In]; [tauto|].
  destruct (existsb _ links) eqn:E.
  - rewrite IH. apply existsb_exists in E as ([a b] & Hin & Hab). cbn in Hab.
    apply andb_true_iff in Hab as [Ha Hb].
    apply Z.eqb_eq in Ha, Hb. subst a b.
    split; [tauto|]. intros [H|[<-|H]]; auto.
  - rewrite IH, in_app_iff. cbn [In].
    split; [intros [[H|[[= <-]|[]]]|H]; auto|].
    intros [H|[<-|H]]; auto.
Qed.

Lemma link_units_other user_id u x : forall ids links,
  u <> user_id ->
  In (u, x) (link_units user_id ids links) <-> In (u, x) links.
Proof.
  induction ids as [|i ids IH]; intros links Hne; cbn [link_units]; [tauto|].
  destruct (existsb _ links); rewrite IH by assumption; [tauto|].
  rewrite in_app_iff. cbn [In]. split; [intros [H|[[= <- _]|[]]]; tauto|auto].
Qed.

Lemma linked_iff user_id r links :
  existsb (fun l => (fst l =? user_id) && (snd l =? OrgUnit.id r)) links = true
  <-> In (user_id, OrgUnit.id r) links.
Proof.
  rewrite existsb_exists. split.
  - intros ([a b] & Hin & H). cbn in H. apply andb_true_iff in H as [Ha Hb].
    apply Z.eqb_eq in Ha, Hb. now subst.
  - intros H. exists (user_id, OrgUnit.id r). cbn. now rewrite !Z.eqb_refl.
Qed.

Lemma ids_name_In t req ids i :
  ids_name t req ids -> In i ids ->
  exists n r, In n req /\ In r (units t) /\ OrgUnit.id r = i
              /\ same_unit_name r n = true.
Proof.
  induction 1 as [|n j req ids (r & Hr & Hi & Hn) _ IH]; cbn [In]; [tauto|].
  intros [<-|H].
  - exists n, r. auto.
  - destruct (IH H) as (n' & r' & ? & ? & ? & ?). exists n', r'. auto.
Qed.

Lemma ids_name_req t req ids n :
  ids_name t req ids -> In n req ->
  exists r, In r (units t) /\ In (OrgUnit.id r) ids /\ same_unit_name r n = true.
Proof.
  induction 1 as [|m j req ids (r & Hr & Hi & Hn) _ IH]; cbn [In]; [tauto|].
  intros [->|H].
  - exists r. subst j. auto.
  - destruct (IH H) as (r' & ? & ? & ?). exists r'. auto.
Qed.

Lemma NoDup_id_inj (l : list OrgUnit.t) r r' :
  List.NoDup (map OrgUnit.id l) -> In r l -> In r' l ->
  OrgUnit.id r = OrgUnit.id r' -> r = r'.
Proof.
  induction l as [|x l IH]; cbn [map In]; [tauto|].
  intros Hnd. inversion Hnd as [|? ? Hx Hl]; subst.
  intros [->|Hr] [->|Hr'] Heq; auto.
  - exfalso. apply Hx. rewrite Heq. now apply in_map.
  - exfalso. apply Hx. rewrite <- Heq. now apply in_map.
Qed.

(** X18. Admin page, "Apply Changes": afterwards the user's units are
    exactly the active units called, up to ASCII case, like one of the names
    picked or typed, each requested name has such a unit linked to the
    user, the links of every other user are as before, and unit ids and
    names stay distinct. *)
Theorem apply_user_changes_units (sel_id : Z) (role_new : string)
    (active_new : bool) (units_selected : list string) (new_units_raw : string)
    (s : stores) :
  units_wf (st_units s) ->
  let s' := apply_user_changes sel_id role_new active_new units_selected
              new_units_raw s in
  let requested :=
    requested_units
      (units_selected
       ++ List.filter not_blank (map Text.strip (Text.split "," new_units_raw))) in
  units_wf (st_units s')
  /\ (forall name,
        In name (user_unit_names sel_id (st_units s')) <->
        exists r n, In r (units (st_units s')) /\ OrgUnit.name r = name
                    /\ is_one (OrgUnit.is_active r) = true
                    /\ In n requested /\ same_unit_name r n = true)
  /\ (forall n, In n requested ->
        exists r, In r (units (st_units s')) /\ same_unit_name r n = true
                  /\ In (sel_id, OrgUnit.id r) (user_units (st_units s')))
  /\ (forall other x, other <> sel_id ->
        In (other, x) (user_units (st_units s'))
        <-> In (other, x) (user_units (st_units s))).
Proof.
  intros Hwf. cbv zeta. unfold apply_user_changes.
  set (names := (units_selected ++ _)%list).
  pose proof (ensure_units_loop_spec names (st_units s)) as Hspec.
  pose proof (ensure_units_loop_wf names (st_units s) Hwf) as Hwf'.
  unfold ensure_units_exist in *.
  destruct (ensure_units_loop names (st_units s)) as [ids t1].
  destruct Hspec as (_ & Hlinks & _ & Hids). cbn [fst snd] in Hwf', Hlinks, Hids.
  cbn [st_units].
  assert (Hlink : forall x,
            In (sel_id, x)
              (link_units sel_id ids
                 (List.filter (fun l => negb (fst l =? sel_id)) (user_units t1)))
            <-> In x ids).
  { intros x. rewrite link_units_spec, filter_In. cbn [fst].
    rewrite Z.eqb_refl. cbn [negb]. intuition discriminate. }
  split; [exact Hwf'|]. split; [|split].
  - intros name. unfold user_unit_names. cbn [units user_units].
    rewrite in_map_iff. split.
    + intros (r & Hname & Hin). apply filter_In in Hin as [Hin Hp].
      apply andb_true_iff in Hp as [Hact Hl].
      apply linked_iff, Hlink in Hl.
      destruct (ids_name_In _ _ _ _ Hids Hl) as (n & r' & Hn & Hr' & Hid & Hsame).
      assert (r' = r) as ->
        by (eapply NoDup_id_inj; [apply Hwf'|assumption|assumption|assumption]).
      exists r, n. auto.
    + intros (r & n & Hin & Hname & Hact & Hn & Hsame).
      exists r. split; [assumption|]. apply filter_In. split; [assumption|].
      rewrite Hact. cbn [andb]. apply linked_iff, Hlink.
      destruct (ids_name_req _ _ _ _ Hids Hn) as (r' & Hr' & Hi & Hsame').
      assert (r' = r) as ->; [|assumption].
      destruct Hwf' as [_ Hnames].
      unfold same_unit_name in *. apply String.eqb_eq in Hsame, Hsame'.
      clear - Hnames Hin Hr' Hsame Hsame'.
      induction (units t1) as [|x l IH]; [contradiction|].
      cbn [map] in Hnames. inversion Hnames as [|? ? Hx Hl]; subst.
      destruct Hin as [->|Hin], Hr' as [->|Hr']; auto.
      * exfalso. apply Hx. rewrite Hsame, <- Hsame'.
        apply (in_map (fun r => Text.lower (OrgUnit.name r))). assumption.
      * exfalso. apply Hx. rewrite Hsame', <- Hsame.
        apply (in_map (fun r => Text.lower (OrgUnit.name r))). assumption.
  - intros n Hn. cbn [units user_units].
    destruct (ids_name_req _ _ _ _ Hids Hn) as (r & Hr & Hi & Hsame).
    exists r. split; [assumption|]. split; [assumption|]. now apply Hlink.
  - intros other x Hne. cbn [user_units].
    rewrite link_units_other by assumption. rewrite filter_In, Hlinks. cbn [fst].
    apply Z.eqb_neq in Hne. rewrite Hne. cbn [negb]. tauto.
Qed.

Lemma apply_user_changes_units_witness :
  units_wf (st_units sample_stores)
  /\ (forall name,
        In name (user_unit_names 9
                   (st_units (apply_user_changes 9 "super" true ["is"] " Audit ,"
                                sample_stores)))
        -> name = "IS" \/ name = "Audit")
  /\ In (7, 1) (user_units
                  (st_units (apply_user_changes 9 "super" true ["is"] " Audit ,"
                               sample_stores))).
Proof.
  assert (H : units_wf (st_units sample_stores)).
  { split; vm_compute; repeat constructor; cbn; intuition discriminate. }
  split; [exact H|].
  destruct (apply_user_changes_units 9 "super" true ["is"] " Audit ,"
              sample_stores H) as (_ & Hnames & _ & Hother).
  split.
  - intros name Hin. apply Hnames in Hin as (r & n & Hr & <- & _ & Hn & Hsame).
    vm_compute in Hr, Hn.
    destruct Hr as [<-|[<-|[<-|[]]]]; destruct Hn as [<-|[<-|[]]];
      vm_compute in Hsame; try discriminate; vm_compute; auto.
  - apply Hother; [discriminate|]. vm_compute. auto.
Defined.

(** ** Registration and sign-in *)

Lemma find_snoc {A} (p : A -> bool) l x :
  (forall y, In y l -> p y = false) -> p x = true ->
  List.find p (l ++ [x]) = Some x.
Proof.
  induction l as [|y l IH]; intros Hl Hx; cbn.
  - now rewrite Hx.
  - rewrite (Hl y) by now left. apply IH; [|assumption].
    intros z Hz. apply Hl. now right.
Qed.

Lemma existsb_false_of {A} (p : A -> bool) l :
  (forall x, In x l -> p x = false) -> existsb p l = false.
Proof.
  induction l as [|x l IH]; intros H; cbn; [reflexivity|].
  rewrite (H x) by now left. apply IH. intros y Hy. apply H. now right.
Qed.

Lemma create_user_registers e username email password unit_names role is_active s :
  username <> "" -> email <> "" -> password <> "" ->
  (forall r, In r (users (st_users s)) ->
     text_is (User.username r) (Text.strip username) = false
     /\ text_is (User.email r) (Text.strip email) = false) ->
  exists row s',
    create_user e username email password unit_names role is_active s
    = ((true, "Registered"), s')
    /\ users (st_users s') = (users (st_users s) ++ [row])%list
    /\ password_reset_tokens (st_users s') = password_reset_tokens (st_users s)
    /\ User.id row = new_user_id s
    /\ User.username row = Some (Text.strip username)
    /\ User.email row = Some (Text.strip email)
    /\ User.password_salt row = Some (fst (hash_password e password))
    /\ User.password_hash row = Some (snd (hash_password e password))
    /\ User.role row = Some role
    /\ User.is_active row = Some is_active
    /\ st_memo s' = mirror_user row (st_memo s)
    /\ units (st_units s')
       = units (snd (ensure_units_exist
                       (match unit_names with Some ns => ns | None => [] end)
                       (st_units s)))
    /\ user_units (st_units s')
       = link_units (new_user_id s)
           (fst (ensure_units_exist
                   (match unit_names with Some ns => ns | None => [] end)
                   (st_units s)))
           (user_units (st_units s)).
Proof.
  intros Hu He Hp Hfree. unfold create_user.
  apply String.eqb_neq in Hu, He, Hp. rewrite Hu, He, Hp. cbn [orb].
  unfold hash_password. cbv zeta beta iota.
  rewrite existsb_false_of.
  2:{ intros r Hr. destruct (Hfree r Hr) as [-> ->]. reflexivity. }
  pose proof (ensure_units_loop_spec
                (match unit_names with Some ns => ns | None => [] end)
                (st_units s)) as Hspec.
  unfold ensure_units_exist.
  destruct (ensure_units_loop _ (st_units s)) as [ids t1].
  destruct Hspec as (_ & Hl & _ & _). cbn [snd] in Hl.
  eexists; eexists. split; [reflexivity|]. cbn [st_users st_units st_memo users
    password_reset_tokens units user_units fst snd User.id User.username
    User.email User.password_salt User.password_hash User.role User.is_active].
  rewrite Hl. repeat split; reflexivity.
Qed.

Lemma strip_not_empty s : Text.strip s <> "" -> s <> "".
Proof. intros H ->. now apply H. Qed.

Lemma find_map_same {A} (p : A -> bool) (f : A -> A) l :
  (forall x, p (f x) = p x) ->
  List.find p (map f l) = option_map f (List.find p l).
Proof.
  intros H. induction l as [|x l IH]; cbn; [reflexivity|].
  rewrite H. destruct (p x); [reflexivity|exact IH].
Qed.

Lemma find_all_false {A} (p : A -> bool) l :
  (forall y, In y l -> p y = false) -> List.find p l = None.
Proof.
  induction l as [|y l IH]; intros H; cbn; [reflexivity|].
  rewrite (H y) by now left. apply IH. intros z Hz. apply H. now right.
Qed.

Lemma lookup_user_snoc key l x :
  (forall r, In r l -> username_or_email_is key r = false) ->
  username_or_email_is key x = true ->
  lookup_user key (l ++ [x]) = Some x.
Proof.
  intros Hl Hx. unfold lookup_user.
  destruct (text_is (User.username x) key) eqn:Eu.
  - rewrite find_snoc; [reflexivity| |assumption].
    intros r Hr. specialize (Hl r Hr). unfold username_or_email_is in Hl.
    now apply orb_false_iff in Hl.
  - rewrite find_all_false.
    + apply find_snoc.
      * intros r Hr. specialize (Hl r Hr). unfold username_or_email_is in Hl.
        now apply orb_false_iff in Hl.
      * unfold username_or_email_is in Hx. now rewrite Eu in Hx.
    + intros r Hr. apply in_app_iff in Hr as [Hr|[<-|[]]]; [|assumption].
      specialize (Hl r Hr). unfold username_or_email_is in Hl.
      now apply orb_false_iff in Hl.
Qed.

Lemma lookup_user_map_same key (f : User.t -> User.t) l :
  (forall x, User.username (f x) = User.username x) ->
  (forall x, User.email (f x) = User.email x) ->
  lookup_user key (map f l) = option_map f (lookup_user key l).
Proof.
  intros Hn Hm. unfold lookup_user.
  rewrite !find_map_same by (intros x; now rewrite ?Hn, ?Hm).
  now destruct (List.find _ l).
Qed.

Lemma lookup_user_found key l u :
  lookup_user key l = Some u -> In u l /\ username_or_email_is key u = true.
Proof.
  unfold lookup_user, username_or_email_is.
  destruct (List.find (fun r => text_is (User.username r) key) l) eqn:E.
  - intros [= <-]. apply find_some in E as [H1 H2]. now rewrite H2.
  - intros H. apply find_some in H as [H1 H2]. rewrite H2.
    split; [assumption|apply orb_true_r].
Qed.

Lemma lookup_user_In key l u : lookup_user key l = Some u -> In u l.
Proof. intros H. now apply lookup_user_found in H. Qed.

Lemma lookup_user_unique key l u :
  In u l -> username_or_email_is key u = true ->
  (forall r, In r l -> username_or_email_is key r = true -> r = u) ->
  lookup_user key l = Some u.
Proof.
  intros Hin Hm Huniq.
  destruct (lookup_user key l) as [x|] eqn:E.
  - apply lookup_user_found in E as [Hx Hmx]. f_equal. now apply Huniq.
  - exfalso. unfold lookup_user in E.
    destruct (List.find (fun r => text_is (User.username r) key) l) eqn:Eu;
      [discriminate|].
    pose proof (find_none _ _ Eu u Hin) as H1.
    pose proof (find_none _ _ E u Hin) as H2. cbv beta in H1, H2.
    unfold username_or_email_is in Hm. rewrite H1, H2 in Hm. discriminate.
Qed.

Lemma press_register_accepts (e : env)
    (r_user r_email r_pw r_units_raw : string) (s : stores) :
  Text.strip r_user <> "" -> Text.strip r_email <> "" -> r_pw <> "" ->
  unknown_key (Text.strip r_user) s ->
  unknown_key (Text.strip r_email) s ->
  exists row s',
    press_register e r_user r_email r_pw r_pw r_units_raw s
    = ([st_success
          "Registration submitted. An admin must approve your account before you can log in."],
       s')
    /\ users (st_users s') = (users (st_users s) ++ [row])%list
    /\ User.id row = new_user_id s
    /\ User.username row = Some (Text.strip r_user)
    /\ User.email row = Some (Text.strip r_email)
    /\ User.password_salt row = Some (fst (hash_password e r_pw))
    /\ User.password_hash row = Some (snd (hash_password e r_pw))
    /\ User.is_active row = Some 0
    /\ (forall key, key = r_user \/ key = r_email ->
          (key =? "")%string = false
          /\ lookup_user (Text.strip key) (users (st_users s')) = Some row).
Proof.
  intros Hu He Hp Hku Hke. unfold press_register.
  pose proof (strip_not_empty _ Hu) as Hu0.
  pose proof (strip_not_empty _ He) as He0.
  apply String.eqb_neq in Hu0, He0. rewrite Hu0, He0.
  pose proof Hp as Hp0. apply String.eqb_neq in Hp0. rewrite Hp0.
  cbn [orb]. rewrite String.eqb_refl. cbn [negb].
  set (units_list := if (r_units_raw =? "")%string then [] else _).
  destruct (create_user_registers e (Text.strip r_user) (Text.strip r_email)
              r_pw (Some units_list) "user" 0 s Hu He Hp)
    as (row & s1 & Hc & Hus & _ & Hid & Hname & Hmail & Hsalt & Hhash & _
        & Hact & _).
  { intros r Hr. rewrite !strip_idem.
    pose proof (Hku r Hr) as H1. pose proof (Hke r Hr) as H2.
    unfold username_or_email_is in *.
    apply orb_false_iff in H1 as [H1 _]. apply orb_false_iff in H2 as [_ H2].
    auto. }
  rewrite Hc. cbv iota.
  destruct (log_action_frame e None "register" None
              ("username=" +:+ Text.strip r_user) (st_memo s1))
    as (m' & Hlog & _).
  rewrite Hlog. exists row. eexists. split; [reflexivity|].
  cbn [st_users]. rewrite !strip_idem in *.
  repeat (split; [assumption|]).
  intros key Hkey.
  split; [destruct Hkey as [-> | ->]; assumption|].
  rewrite Hus. apply lookup_user_snoc.
  - intros r Hr. destruct Hkey as [-> | ->]; [apply (Hku r Hr)|apply (Hke r Hr)].
  - unfold username_or_email_is. rewrite Hname, Hmail. cbn [text_is].
    destruct Hkey as [-> | ->]; rewrite String.eqb_refl;
      [reflexivity|apply orb_true_r].
Qed.

(** X19. A registration with a name and an address nobody uses is
    accepted, and the account cannot sign in, by name or by address and
    whatever the password, until an administrator activates it. *)
Theorem registered_user_pending (e : env)
    (r_user r_email r_pw r_units_raw : string) (s : stores) :
  Text.strip r_user <> "" -> Text.strip r_email <> "" -> r_pw <> "" ->
  unknown_key (Text.strip r_user) s ->
  unknown_key (Text.strip r_email) s ->
  exists s',
    press_register e r_user r_email r_pw r_pw r_units_raw s
    = ([st_success
          "Registration submitted. An admin must approve your account before you can log in."],
       s')
    /\ forall e' key pw,
         key = r_user \/ key = r_email ->
         press_login e' key pw s'
         = login_shows "Your account is pending admin approval." (st_memo s').
Proof.
  intros Hu He Hp Hku Hke.
  destruct (press_register_accepts e r_user r_email r_pw r_units_raw s
              Hu He Hp Hku Hke)
    as (row & s' & Hreg & _ & _ & _ & _ & _ & _ & Hact & Hfind).
  exists s'. split; [exact Hreg|].
  intros e' key pw Hkey. destruct (Hfind key Hkey) as [Hk0 Hf].
  unfold press_login, get_user_by_key. rewrite Hk0.
  rewrite Hf. cbv iota beta. rewrite Hact. reflexivity.
Qed.

Lemma sample_unknown_cara :
  unknown_key "cara" sample_stores
  /\ unknown_key "cara@example.com" sample_stores.
Proof. split; intros r [<-|[<-|[<-|[]]]]; reflexivity. Qed.

Lemma registered_user_pending_witness :
  exists s',
    press_register sample_env " cara" "cara@example.com " "pw" "pw" "IS, Audit"
      sample_stores
    = ([st_success
          "Registration submitted. An admin must approve your account before you can log in."],
       s')
    /\ press_login sample_env " cara" "pw" s'
       = login_shows "Your account is pending admin approval." (st_memo s').
Proof.
  destruct (registered_user_pending sample_env " cara" "cara@example.com " "pw"
              "IS, Audit" sample_stores ltac:(discriminate) ltac:(discriminate)
              ltac:(discriminate) (proj1 sample_unknown_cara)
              (proj2 sample_unknown_cara)) as (s' & Hreg & Hlogin).
  exists s'. split; [exact Hreg|].
  exact (Hlogin sample_env " cara" "pw" (or_introl eq_refl)).
Defined.

Lemma apply_user_changes_users sel_id role_new active_new sel raw s :
  users (st_users (apply_user_changes sel_id role_new active_new sel raw s))
  = map (set_role sel_id role_new active_new) (users (st_users s)).
Proof.
  unfold apply_user_changes.
  destruct (ensure_units_exist _ (st_units s)). reflexivity.
Qed.

(** X20. Once an administrator has ticked Active for a registered account,
    its owner signs in with the registered password under the role given,
    and with no password that hashes differently, whatever the memo
    database holds by then. *)
Theorem approved_user_can_login (e e' : env)
    (r_user r_email r_pw r_units_raw : string) (s : stores)
    (salt_bytes : list N) (role_new : string)
    (units_selected : list string) (new_units_raw : string)
    (memo_now : memo_db) (key attempt : string) :
  Text.strip r_user <> "" -> Text.strip r_email <> "" -> r_pw <> "" ->
  unknown_key (Text.strip r_user) s ->
  unknown_key (Text.strip r_email) s ->
  os_urandom e = tohex salt_bytes ->
  salt_bytes <> [] ->
  Forall (fun b => (b < 256)%N) salt_bytes ->
  (forall pw salt, pbkdf2_hmac e' pw salt = pbkdf2_hmac e pw salt) ->
  key = r_user \/ key = r_email ->
  let s1 := snd (press_register e r_user r_email r_pw r_pw r_units_raw s) in
  let s2 := apply_user_changes (new_user_id s) role_new true units_selected
              new_units_raw s1 in
  let run :=
    press_login e' key attempt
      {| st_users := st_users s2; st_units := st_units s2;
         st_memo := memo_now |} in
  if String.eqb (pbkdf2_hmac e r_pw (os_urandom e))
       (pbkdf2_hmac e attempt (os_urandom e))
  then
    signed_in run
    = Some {| su_id := Some (new_user_id s);
              su_username := Some (Text.strip r_user);
              su_role := Some role_new;
              su_units := user_unit_names (new_user_id s) (st_units s2) |}
    /\ login_shown run = [st_success "Logged in successfully."]
    /\ login_rerun run = true
    /\ login_raised run = None
  else run = login_shows "Invalid credentials." memo_now.
Proof.
  intros Hu He Hp Hku Hke Hsalt Hne Hbytes Hsame Hkey.
  destruct (press_register_accepts e r_user r_email r_pw r_units_raw s
              Hu He Hp Hku Hke)
    as (row & s' & Hreg & _ & Hid & Hname & _ & Hs & Hh & _ & Hfind).
  rewrite Hreg. cbn [snd]. cbv zeta.
  destruct (Hfind key Hkey) as [Hk0 Hf].
  unfold press_login, get_user_by_key. rewrite Hk0.
  cbn [st_users st_units st_memo].
  rewrite apply_user_changes_users.
  rewrite lookup_user_map_same
    by (intros x; unfold set_role; now destruct (User.id x =? _)).
  rewrite Hf. cbn [option_map]. cbv iota beta.
  unfold set_role. rewrite Hid, Z.eqb_refl.
  cbn [User.is_active User.password_salt User.password_hash flag
       User.id User.username User.role].
  change (negb (negb (1 =? 0))) with false. cbv iota.
  rewrite Hs, Hh.
  rewrite (verify_password_made e e' r_pw attempt _ Hsalt Hne Hbytes Hsame).
  destruct (String.eqb (pbkdf2_hmac e r_pw (os_urandom e)) _); [|reflexivity].
  match goal with |- context [log_action ?a ?b ?c ?d ?x ?m] =>
    destruct (log_action_frame a b c d x m) as (m' & Hlog & _) end.
  rewrite Hlog. cbn [signed_in login_shown login_rerun login_raised].
  rewrite Hname. auto.
Qed.

Lemma approved_user_can_login_witness :
  let s1 := snd (press_register sample_env "cara" "cara@example.com" "pw" "pw"
                   "IS, Audit" sample_stores) in
  let s2 := apply_user_changes 12 "user" true ["IS"] "" s1 in
  let s3 := {| st_users := st_users s2; st_units := st_units s2;
               st_memo := st_memo s2 |} in
  signed_in (press_login sample_env "cara@example.com" "pw" s3)
  = Some {| su_id := Some 12; su_username := Some "cara";
            su_role := Some "user"; su_units := ["IS"] |}
  /\ press_login sample_env "cara@example.com" "PW" s3
     = login_shows "Invalid credentials." (st_memo s2).
Proof.
  cbv zeta. split.
  - pose proof (approved_user_can_login sample_env sample_env "cara"
                  "cara@example.com" "pw" "IS, Audit" sample_stores sample_salt
                  "user" ["IS"] ""
                  (st_memo (apply_user_changes 12 "user" true ["IS"] ""
                              (snd (press_register sample_env "cara"
                                      "cara@example.com" "pw" "pw" "IS, Audit"
                                      sample_stores))))
                  "cara@example.com" "pw"
                  ltac:(discriminate) ltac:(discriminate) ltac:(discriminate)
                  (proj1 sample_unknown_cara) (proj2 sample_unknown_cara)
                  eq_refl ltac:(discriminate) sample_salt_bytes
                  (fun _ _ => eq_refl) (or_intror eq_refl)) as H.
    cbv zeta in H. rewrite String.eqb_refl in H. destruct H as (H & _).
    change (new_user_id sample_stores) with 12 in H. rewrite H.
    vm_compute. reflexivity.
  - pose proof (approved_user_can_login sample_env sample_env "cara"
                  "cara@example.com" "pw" "IS, Audit" sample_stores sample_salt
                  "user" ["IS"] ""
                  (st_memo (apply_user_changes 12 "user" true ["IS"] ""
                              (snd (press_register sample_env "cara"
                                      "cara@example.com" "pw" "pw" "IS, Audit"
                                      sample_stores))))
                  "cara@example.com" "PW"
                  ltac:(discriminate) ltac:(discriminate) ltac:(discriminate)
                  (proj1 sample_unknown_cara) (proj2 sample_unknown_cara)
                  eq_refl ltac:(discriminate) sample_salt_bytes
                  (fun _ _ => eq_refl) (or_intror eq_refl)) as H.
    cbv zeta in H.
    change (pbkdf2_hmac sample_env "pw" (os_urandom sample_env)
            =? pbkdf2_hmac sample_env "PW" (os_urandom sample_env))%string
      with false in H.
    exact H.
Defined.

(** ** Invariants of the accounts *)

Lemma omap_app_list {A B} (g : A -> option B) l1 l2 :
  omap g (l1 ++ l2)%list = (omap g l1 ++ omap g l2)%list.
Proof.
  induction l1 as [|x l1 IH]; [reflexivity|].
  cbn [app]. rewrite !omap_cons, IH. now destruct (g x).
Qed.

Lemma omap_map_same {A B} (g : A -> option B) (f : A -> A) l :
  (forall x, g (f x) = g x) -> omap g (map f l) = omap g l.
Proof.
  intros H. induction l as [|x l IH]; [reflexivity|].
  cbn [map]. now rewrite !omap_cons, H, IH.
Qed.

Lemma text_is_false_not_in (g : User.t -> Sql.text) v l :
  (forall r, In r l -> text_is (g r) v = false) -> ~ In v (omap g l).
Proof.
  intros H Hin. apply In_omap in Hin as (r & Hr & Hg).
  specialize (H r Hr). rewrite Hg in H. cbn in H.
  now rewrite String.eqb_refl in H.
Qed.

Lemma create_user_cases e username email password unit_names role is_active s :
  let r := create_user e username email password unit_names role is_active s in
  (fst (fst r) = false /\ snd r = s)
  \/ (fst (fst r) = true
      /\ username <> "" /\ email <> "" /\ password <> ""
      /\ forall x, In x (users (st_users s)) ->
           text_is (User.username x) (Text.strip username) = false
           /\ text_is (User.email x) (Text.strip email) = false).
Proof.
  cbv zeta. unfold create_user.
  destruct (username =? "")%string eqn:Eu; [now left|].
  destruct (email =? "")%string eqn:Ee; [now left|].
  destruct (password =? "")%string eqn:Ep; [now left|].
  cbn [orb]. unfold hash_password. cbv zeta beta iota.
  destruct (existsb _ (users (st_users s))) eqn:Ex; [now left|].
  right. destruct (ensure_units_exist _ (st_units s)). cbn [fst].
  apply String.eqb_neq in Eu, Ee, Ep. split; [reflexivity|].
  repeat (split; [assumption|]).
  intros x Hx. pose proof (existsb_false_forall _ _ Ex x Hx) as H. cbn in H.
  now apply orb_false_iff in H.
Qed.

Lemma users_wf_snoc u row toks seq :
  users_wf u ->
  ~ In (User.id row) (map User.id (users u)) ->
  (forall v, User.username row = Some v -> ~ In v (omap User.username (users u))) ->
  (forall v, User.email row = Some v -> ~ In v (omap User.email (users u))) ->
  users_wf {| users := users u ++ [row]; password_reset_tokens := toks;
              tokens_seq := seq |}.
Proof.
  intros (Hi & Hn & Hm) Hid Hname Hmail. unfold users_wf. cbn [users].
  rewrite map_app, !omap_app_list. cbn [map]. rewrite !omap_cons.
  split; [now apply NoDup_snoc|]. split.
  - destruct (User.username row) as [v|]; cbn [omap].
    + apply NoDup_snoc; auto.
    + now rewrite app_nil_r.
  - destruct (User.email row) as [v|]; cbn [omap].
    + apply NoDup_snoc; auto.
    + now rewrite app_nil_r.
Qed.

Lemma users_wf_map (f : User.t -> User.t) u toks seq :
  (forall r, User.id (f r) = User.id r) ->
  (forall r, User.username (f r) = User.username r) ->
  (forall r, User.email (f r) = User.email r) ->
  users_wf u ->
  users_wf {| users := map f (users u); password_reset_tokens := toks;
              tokens_seq := seq |}.
Proof.
  intros Hi Hn Hm (H1 & H2 & H3). unfold users_wf. cbn [users].
  rewrite map_map, !omap_map_same by assumption.
  rewrite (map_ext _ User.id) by assumption. auto.
Qed.

Lemma mirrored_map (f g : User.t -> User.t) us ms u' m' :
  (forall r, User.id (f r) = User.id r) ->
  (forall r, User.id (g r) = User.id r) ->
  users u' = map f us -> mirror_users m' = map g ms ->
  (forall r, In r us -> exists r', In r' ms /\ User.id r' = User.id r) ->
  mirrored u' m'.
Proof.
  intros Hf Hg Hu Hm H r Hr. rewrite Hu in Hr.
  apply in_map_iff in Hr as (r0 & <- & Hr0).
  destruct (H r0 Hr0) as (r' & Hr' & Hid).
  exists (g r'). rewrite Hm, Hf, Hg. split; [now apply in_map|assumption].
Qed.

Lemma mirror_user_In row m r :
  In r (mirror_users (mirror_user row m)) <->
  (In r (mirror_users m) /\ User.id r <> User.id row) \/ r = row.
Proof.
  unfold mirror_user. cbn [mirror_users]. rewrite in_app_iff, filter_In.
  cbn [In]. rewrite negb_true_iff, Z.eqb_neq. intuition.
Qed.

Lemma create_user_wf e username email password unit_names role is_active s :
  users_wf (st_users s) ->
  users_wf (st_users
              (snd (create_user e username email password unit_names role
                      is_active s))).
Proof.
  intros Hwf.
  destruct (create_user_cases e username email password unit_names role
              is_active s) as [[_ ->]|(_ & Hu & He & Hp & Hfree)];
    [assumption|].
  destruct (create_user_registers e username email password unit_names role
              is_active s Hu He Hp Hfree)
    as (row & s' & -> & Hus & Htok & Hid & Hname & Hmail & _).
  cbn [snd]. destruct (st_users s') as [us toks seq]. cbn [users] in Hus.
  subst us. apply users_wf_snoc; [assumption| | |].
  - rewrite Hid. apply next_rowid_fresh.
  - rewrite Hname. intros v [= <-].
    apply text_is_false_not_in. intros r Hr. now apply Hfree.
  - rewrite Hmail. intros v [= <-].
    apply text_is_false_not_in. intros r Hr. now apply Hfree.
Qed.

Lemma create_user_mirrored e username email password unit_names role is_active s :
  mirrored (st_users s) (st_memo s) ->
  let s' := snd (create_user e username email password unit_names role
                   is_active s) in
  mirrored (st_users s') (st_memo s').
Proof.
  intros Hm. cbv zeta.
  destruct (create_user_cases e username email password unit_names role
              is_active s) as [[_ ->]|(_ & Hu & He & Hp & Hfree)];
    [assumption|].
  destruct (create_user_registers e username email password unit_names role
              is_active s Hu He Hp Hfree)
    as (row & s' & -> & Hus & _ & _ & _ & _ & _ & _ & _ & _ & Hmem & _).
  cbn [snd]. intros r Hr. rewrite Hus in Hr. rewrite Hmem.
  apply in_app_iff in Hr as [Hr|[<-|[]]].
  - destruct (Z.eq_dec (User.id r) (User.id row)) as [E|E].
    + exists row. rewrite mirror_user_In. auto.
    + destruct (Hm r Hr) as (r' & Hr' & Hid). exists r'.
      rewrite mirror_user_In. split; [left; split; [assumption|congruence]|assumption].
  - exists row. rewrite mirror_user_In. auto.
Qed.

Lemma press_register_stores e r_user r_email r_pw1 r_pw2 r_units_raw s :
  let s' := snd (press_register e r_user r_email r_pw1 r_pw2 r_units_raw s) in
  s' = s
  \/ exists units_list,
       st_users s'
       = st_users (snd (create_user e (Text.strip r_user) (Text.strip r_email)
                          r_pw1 (Some units_list) "user" 0 s))
       /\ mirror_users (st_memo s')
          = mirror_users
              (st_memo (snd (create_user e (Text.strip r_user)
                               (Text.strip r_email) r_pw1 (Some units_list)
                               "user" 0 s))).
Proof.
  cbv zeta. unfold press_register.
  destruct (_ || _ || _); [now left|].
  destruct (negb _); [now left|].
  set (units_list := if (r_units_raw =? "")%string then [] else _).
  right. exists units_list.
  destruct (create_user e (Text.strip r_user) (Text.strip r_email) r_pw1
              (Some units_list) "user" 0 s) as [[ok msg] s1].
  cbn [snd]. destruct ok; [|auto].
  match goal with |- context [log_action ?a ?b ?c ?d ?x ?m] =>
    destruct (log_action_frame a b c d x m)
      as (m' & Hlog & _ & _ & _ & _ & _ & _ & Hmir) end.
  rewrite Hlog. cbn [snd st_users st_memo]. auto.
Qed.

(** X21. User ids, user names and addresses stay distinct under
    [create_user], the Register form, the admin's "Apply Changes" and
    [update_user_password]. *)
Theorem accounts_stay_unique (e : env) (s : stores) :
  users_wf (st_users s) ->
  (forall username email password unit_names role is_active,
     users_wf (st_users (snd (create_user e username email password unit_names
                                role is_active s))))
  /\ (forall r_user r_email r_pw1 r_pw2 r_units_raw,
        users_wf (st_users (snd (press_register e r_user r_email r_pw1 r_pw2
                                   r_units_raw s))))
  /\ (forall sel_id role_new active_new units_selected new_units_raw,
        users_wf (st_users (apply_user_changes sel_id role_new active_new
                              units_selected new_units_raw s)))
  /\ (forall user_id new_password,
        users_wf (udb (snd (update_user_password e user_id new_password
                              {| udb := st_users s; mdb := st_memo s |})))).
Proof.
  intros Hwf. split; [|split; [|split]].
  - intros. now apply create_user_wf.
  - intros. destruct (press_register_stores e r_user r_email r_pw1 r_pw2
                        r_units_raw s) as [->|(ul & -> & _)];
      [assumption|now apply create_user_wf].
  - intros. unfold apply_user_changes.
    destruct (ensure_units_exist _ (st_units s)). cbn [st_users].
    apply users_wf_map; try assumption; intros r; now destruct (User.id r =? sel_id).
  - intros. unfold update_user_password.
    destruct (new_password =? "")%string; [assumption|].
    unfold hash_password. cbv zeta beta iota.
    cbn [update_users_with_updated_at is_Exception snd udb].
    apply users_wf_map; try assumption; intros r;
      now destruct (User.id r =? user_id).
Qed.

Lemma sample_users_wf : users_wf (st_users sample_stores).
Proof.
  repeat split; vm_compute; repeat constructor; cbn; intuition discriminate.
Qed.

Lemma accounts_stay_unique_witness :
  users_wf (st_users sample_stores)
  /\ users_wf (st_users (snd (press_register sample_env "dan" "d@example.com"
                                "pw" "pw" "" sample_stores)))
  /\ users_wf (st_users (apply_user_changes 9 "admin" true [] "" sample_stores)).
Proof.
  split; [exact sample_users_wf|].
  destruct (accounts_stay_unique sample_env sample_stores sample_users_wf)
    as (_ & H1 & H2 & _).
  split; [apply H1|apply H2].
Defined.

(** X22. Every account keeps a row of the same id in the memo database,
    which the foreign key of the audit trail needs, under [create_user],
    the Register form, "Apply Changes" and [update_user_password]. *)
Theorem accounts_stay_mirrored (e : env) (s : stores) :
  mirrored (st_users s) (st_memo s) ->
  (forall username email password unit_names role is_active,
     let s' := snd (create_user e username email password unit_names role
                      is_active s) in
     mirrored (st_users s') (st_memo s'))
  /\ (forall r_user r_email r_pw1 r_pw2 r_units_raw,
        let s' := snd (press_register e r_user r_email r_pw1 r_pw2
                         r_units_raw s) in
        mirrored (st_users s') (st_memo s'))
  /\ (forall sel_id role_new active_new units_selected new_units_raw,
        let s' := apply_user_changes sel_id role_new active_new
                    units_selected new_units_raw s in
        mirrored (st_users s') (st_memo s'))
  /\ (forall user_id new_password,
        let d' := snd (update_user_password e user_id new_password
                         {| udb := st_users s; mdb := st_memo s |}) in
        mirrored (udb d') (mdb d')).
Proof.
  intros Hm. split; [|split; [|split]].
  - intros. now apply create_user_mirrored.
  - intros. subst s'.
    destruct (press_register_stores e r_user r_email r_pw1 r_pw2
                r_units_raw s) as [->|(ul & Hu & Hmir)]; [assumption|].
    pose proof (create_user_mirrored e (Text.strip r_user) (Text.strip r_email)
                  r_pw1 (Some ul) "user" 0 s Hm) as H. cbv zeta in H.
    intros r Hr. rewrite Hu in Hr. rewrite Hmir. now apply H.
  - intros. subst s'. unfold apply_user_changes.
    destruct (ensure_units_exist _ (st_units s)). cbn [st_users st_memo].
    eapply mirrored_map with (us := users (st_users s))
                             (ms := mirror_users (st_memo s));
      [| |reflexivity|reflexivity|exact Hm];
      intros r; cbv beta; now destruct (User.id r =? sel_id).
  - intros. subst d'. unfold update_user_password.
    destruct (new_password =? "")%string; [assumption|].
    unfold hash_password. cbv zeta beta iota.
    cbn [update_users_with_updated_at is_Exception snd udb mdb].
    eapply mirrored_map with (us := users (st_users s))
                             (ms := mirror_users (st_memo s));
      [| |reflexivity|reflexivity|exact Hm];
      intros r; cbv beta; now destruct (User.id r =? user_id).
Qed.

Lemma sample_mirrored : mirrored (st_users sample_stores) (st_memo sample_stores).
Proof.
  intros r [<-|[<-|[<-|[]]]].
  - exists (sample_mirror_user 7). split; [vm_compute; auto|reflexivity].
  - exists (sample_user 9 "ben@example.com"). split; [vm_compute; auto|reflexivity].
  - exists sample_account. split; [vm_compute; auto|reflexivity].
Qed.

Lemma accounts_stay_mirrored_witness :
  mirrored (st_users sample_stores) (st_memo sample_stores)
  /\ (let s' := snd (press_register sample_env "cara" "cara@example.com" "pw"
                       "pw" "IS" sample_stores) in
      mirrored (st_users s') (st_memo s'))
  /\ (let s' := apply_user_changes 9 "admin" true [] "" sample_stores in
      mirrored (st_users s') (st_memo s')).
Proof.
  split; [exact sample_mirrored|].
  destruct (accounts_stay_mirrored sample_env sample_stores sample_mirrored)
    as (_ & H1 & H2 & _).
  split; [apply H1|apply H2].
Defined.

(** X23. A sign-in that succeeds is written to the audit trail, under the
    id of the account and the action [login], when the accounts are
    mirrored in the memo database. *)
Theorem login_is_audited (e : env) (key pw : string) (s : stores)
    (su : session_user) :
  mirrored (st_users s) (st_memo s) ->
  signed_in (press_login e key pw s) = Some su ->
  exists user row,
    In user (users (st_users s))
    /\ su_id su = Some (User.id user)
    /\ su_role su = User.role user
    /\ su_units su = user_unit_names (User.id user) (st_units s)
    /\ login_raised (press_login e key pw s) = None
    /\ audit_trail (login_memo (press_login e key pw s))
       = (audit_trail (st_memo s) ++ [row])%list
    /\ Audit.user_id row = Some (User.id user)
    /\ Audit.action row = Some "login"
    /\ Audit.ts row = Some (today_ts e).
Proof.
  intros Hm. unfold press_login.
  destruct (key =? "")%string; [discriminate|].
  unfold get_user_by_key.
  destruct (lookup_user _ (users (st_users s))) as [user|] eqn:Ef; [|discriminate].
  cbv iota beta.
  destruct (negb _); [discriminate|].
  destruct (verify_password _ _ _ _) as [[|]|]; try discriminate.
  apply lookup_user_In in Ef as Hin.
  destruct (Hm user Hin) as (r' & Hr' & Hid).
  unfold log_action, insert_audit_trail. cbn [su_id].
  assert (Hfk : existsb (fun u => User.id u =? User.id user)
                  (mirror_users (st_memo s)) = true).
  { apply existsb_exists. exists r'. split; [assumption|]. now apply Z.eqb_eq. }
  rewrite Hfk. cbn [try_except_Exception_pass signed_in login_raised login_memo
                   audit_trail].
  intros [= <-]. exists user. eexists. cbn [su_id su_role su_units].
  repeat (split; [reflexivity|]). split; [assumption|].
  repeat (split; [reflexivity|]). cbn. auto.
Qed.

Lemma login_is_audited_witness :
  exists row,
    audit_trail (login_memo (press_login sample_env " dan " "pw" sample_stores))
    = (audit_trail (st_memo sample_stores) ++ [row])%list
    /\ Audit.user_id row = Some 11
    /\ Audit.action row = Some "login".
Proof.
  destruct (login_is_audited sample_env " dan " "pw" sample_stores
              {| su_id := Some 11; su_username := Some "dan";
                 su_role := Some "super"; su_units := [] |}
              sample_mirrored ltac:(vm_compute; reflexivity))
    as (user & row & Hin & Hid & _ & _ & _ & Haudit & Huid & Hact & _).
  exists row. split; [exact Haudit|]. split; [|exact Hact].
  rewrite Huid. cbn [su_id] in Hid. now rewrite Hid.
Defined.

(** ** Password reset, continued *)

Lemma isdigit_drawn k :
  Text.isdigit (ascii_of_nat (48 + Nat.modulo k 10)) = true.
Proof.
  assert (H : (Nat.modulo k 10 < 10)%nat) by (apply Nat.mod_upper_bound; lia).
  destruct (Nat.modulo k 10) as [|[|[|[|[|[|[|[|[|[|n]]]]]]]]]];
    try reflexivity; lia.
Qed.

Lemma all_digits_draw e n : forall i, all_digits (draw_digits e i n) = true.
Proof.
  induction n as [|n IH]; intros i; cbn [draw_digits all_digits]; [reflexivity|].
  now rewrite isdigit_drawn, IH.
Qed.

Lemma ltb_asym a b : Text.ltb a b = true -> Text.ltb b a = false.
Proof.
  unfold Text.ltb, String.ltb. rewrite (String.compare_antisym a b).
  destruct (String.compare b a); cbn; congruence.
Qed.

(** X24. A reset token issued for an address is accepted for that address
    until it expires, whether or not the mail went out, and yields the id of
    the account, when no other account has the address up to ASCII case. *)
Theorem issued_token_validates (e e' : env) (email : string) (db : user_db)
    (u : User.t) :
  email <> "" ->
  In u (users db) -> email_matches u (Text.strip email) = true ->
  (forall r, In r (users db) -> email_matches r (Text.strip email) = true ->
             User.id r = User.id u) ->
  Text.ltb (isoformat (utcnow e')) (isoformat (plus_30_minutes (utcnow e)))
  = true ->
  let db2 := snd (create_password_reset_token e email db) in
  fst (validate_password_reset_token e' email (generate_reset_token e) db2)
  = Some (User.id u)
  /\ users db2 = users db.
Proof.
  intros Hne Hin0 Hmatch0 Huniq Hfresh. cbv zeta.
  unfold create_password_reset_token.
  apply String.eqb_neq in Hne. rewrite Hne.
  destruct (List.find _ (users_by_email (users db))) as [u'|] eqn:Hfind.
  2:{ exfalso. pose proof (find_none _ _ Hfind u) as Hn. cbv beta in Hn.
      rewrite Hmatch0 in Hn. discriminate Hn.
      unfold users_by_email. now apply order_by_In. }
  cbv zeta. cbn [snd].
  split; [|reflexivity].
  set (tok := {| Token.id := _; Token.user_id := User.id u';
                 Token.token := generate_reset_token e;
                 Token.expires_at := isoformat (plus_30_minutes (utcnow e));
                 Token.created_at := isoformat (utcnow e) |}).
  set (db2 := {| users := _; password_reset_tokens := _ ++ [tok];
                 tokens_seq := _ |}).
  unfold validate_password_reset_token. rewrite Hne.
  change (generate_reset_token e =? "")%string with false. cbn [orb].
  rewrite (strip_digits (generate_reset_token e)) by apply all_digits_draw.
  apply find_some in Hfind as [Hu Hmatch].
  unfold users_by_email in Hu. apply order_by_In in Hu.
  assert (Hin : In tok (matching_reset_rows (Text.strip email)
                          (generate_reset_token e) (isoformat (utcnow e'))
                          (purge_expired_reset_tokens e' db2))).
  { unfold matching_reset_rows. rewrite order_by_In, in_flat_map.
    exists tok. split.
    - cbn [purge_expired_reset_tokens password_reset_tokens db2].
      rewrite filter_In, in_app_iff. split; [right; now left|].
      cbn [Token.expires_at tok]. now rewrite (ltb_asym _ _ Hfresh).
    - apply in_map_iff. exists u'. split; [reflexivity|].
      apply filter_In. split; [exact Hu|].
      cbn [Token.user_id Token.token Token.expires_at tok].
      now rewrite Z.eqb_refl, Hmatch, String.eqb_refl, Hfresh. }
  destruct (matching_reset_rows _ _ _ _) as [|row rest] eqn:E; [contradiction|].
  cbn [fst]. f_equal.
  assert (Hrow : In row (matching_reset_rows (Text.strip email)
                           (generate_reset_token e) (isoformat (utcnow e'))
                           (purge_expired_reset_tokens e' db2)))
    by (rewrite E; now left).
  apply matching_reset_rows_In in Hrow as (_ & r & Hr & Hid & Hem).
  rewrite Hid. now apply Huniq.
Qed.

Lemma issued_token_validates_witness :
  fst (validate_password_reset_token sample_env "Ana@example.com " "012345"
         (snd (create_password_reset_token sample_env "Ana@example.com "
                 sample_udb)))
  = Some 7.
Proof.
  pose proof (issued_token_validates sample_env sample_env "Ana@example.com "
                sample_udb (sample_user 7 "ana@example.com")
                ltac:(discriminate) ltac:(vm_compute; auto) eq_refl) as H.
  cbv zeta in H. destruct H as [H _].
  - intros r [<-|[<-|[]]]; [reflexivity|discriminate].
  - vm_compute. reflexivity.
  - vm_compute in H. vm_compute. exact H.
Defined.

(** X25. After [update_user_password] the active account signs in with
    the new password, and with no password that hashes differently,
    whatever the memo database holds by then: for a key that is the user
    name or the email of that account and of no other. *)
Theorem new_password_signs_in (e e' : env) (user_id : Z)
    (new_password : string) (d : dbs) (t : unit_tables) (memo_now : memo_db)
    (salt_bytes : list N) (key attempt : string) (u : User.t) (v : Z) :
  new_password <> "" -> key <> "" ->
  In u (users (udb d)) ->
  username_or_email_is (Text.strip key) u = true ->
  (forall r, In r (users (udb d)) ->
             username_or_email_is (Text.strip key) r = true -> r = u) ->
  User.id u = user_id ->
  User.is_active u = Some v -> v <> 0 ->
  os_urandom e = tohex salt_bytes ->
  salt_bytes <> [] ->
  Forall (fun b => (b < 256)%N) salt_bytes ->
  (forall pw salt, pbkdf2_hmac e' pw salt = pbkdf2_hmac e pw salt) ->
  let d' := snd (update_user_password e user_id new_password d) in
  let s' := {| st_users := udb d'; st_units := t; st_memo := memo_now |} in
  let run := press_login e' key attempt s' in
  fst (update_user_password e user_id new_password d)
  = (true, "Password updated successfully.")
  /\ if String.eqb (pbkdf2_hmac e new_password (os_urandom e))
          (pbkdf2_hmac e attempt (os_urandom e))
     then
       signed_in run
       = Some {| su_id := Some user_id; su_username := User.username u;
                 su_role := User.role u;
                 su_units := user_unit_names user_id t |}
       /\ login_shown run = [st_success "Logged in successfully."]
       /\ login_rerun run = true
       /\ login_raised run = None
     else run = login_shows "Invalid credentials." memo_now.
Proof.
  intros Hpw Hkey Hin Hmatch Huniq Hid Hact Hv Hsalt Hne Hbytes Hsame.
  pose proof (lookup_user_unique _ _ _ Hin Hmatch Huniq) as Hfind. cbv zeta.
  unfold update_user_password.
  apply String.eqb_neq in Hpw, Hkey. rewrite Hpw.
  unfold hash_password. cbv zeta beta iota.
  cbn [update_users_with_updated_at is_Exception fst snd udb mdb].
  split; [reflexivity|].
  unfold press_login, get_user_by_key. rewrite Hkey.
  cbn [st_users st_units st_memo users].
  unfold update_users_password.
  rewrite lookup_user_map_same
    by (intros x; now destruct (User.id x =? user_id)).
  rewrite Hfind. cbn [option_map]. cbv iota beta.
  rewrite Hid, Z.eqb_refl.
  cbn [set_password User.is_active User.password_salt User.password_hash
       User.id User.username User.role].
  rewrite Hact. apply Z.eqb_neq in Hv. rewrite Hv. cbn [negb]. cbv iota.
  pose proof (verify_password_made e e' new_password attempt _ Hsalt Hne
                Hbytes Hsame) as Hverify.
  unfold hash_password in Hverify. cbn [fst snd] in Hverify. rewrite Hverify.
  destruct (String.eqb (pbkdf2_hmac e new_password (os_urandom e)) _);
    [|reflexivity].
  match goal with |- context [log_action ?a ?b ?c ?d ?x ?m] =>
    destruct (log_action_frame a b c d x m) as (m' & Hlog & _) end.
  rewrite Hlog. cbn [signed_in login_shown login_rerun login_raised].
  rewrite Hid. auto.
Qed.

Lemma sample_only_ana r :
  In r (users (udb sample_dbs)) ->
  username_or_email_is (Text.strip "ana@example.com") r = true ->
  r = sample_user 7 "ana@example.com".
Proof. intros [<-|[<-|[]]]; [reflexivity|discriminate]. Qed.

Lemma new_password_signs_in_witness :
  let d' := snd (update_user_password sample_env 7 "n3w" sample_dbs) in
  let s' := {| st_users := udb d'; st_units := sample_units; st_memo := mdb d' |} in
  signed_in (press_login sample_env "ana@example.com" "n3w" s')
  = Some {| su_id := Some 7; su_username := Some "ana@example.com";
            su_role := Some "user"; su_units := ["IS"] |}
  /\ press_login sample_env "ana@example.com" "old" s'
     = login_shows "Invalid credentials." (mdb d').
Proof.
  cbv zeta. split.
  - pose proof (new_password_signs_in sample_env sample_env 7 "n3w" sample_dbs
                  sample_units
                  (mdb (snd (update_user_password sample_env 7 "n3w" sample_dbs)))
                  sample_salt "ana@example.com" "n3w"
                  (sample_user 7 "ana@example.com") 1
                  ltac:(discriminate) ltac:(discriminate)
                  ltac:(vm_compute; auto) eq_refl sample_only_ana eq_refl
                  eq_refl ltac:(discriminate) eq_refl ltac:(discriminate)
                  sample_salt_bytes (fun _ _ => eq_refl)) as H.
    cbv zeta in H. destruct H as (_ & H). rewrite String.eqb_refl in H.
    destruct H as (H & _). rewrite H. reflexivity.
  - pose proof (new_password_signs_in sample_env sample_env 7 "n3w" sample_dbs
                  sample_units
                  (mdb (snd (update_user_password sample_env 7 "n3w" sample_dbs)))
                  sample_salt "ana@example.com" "old"
                  (sample_user 7 "ana@example.com") 1
                  ltac:(discriminate) ltac:(discriminate)
                  ltac:(vm_compute; auto) eq_refl sample_only_ana eq_refl
                  eq_refl ltac:(discriminate) eq_refl ltac:(discriminate)
                  sample_salt_bytes (fun _ _ => eq_refl)) as H.
    cbv zeta in H. destruct H as (_ & H).
    change (pbkdf2_hmac sample_env "n3w" (os_urandom sample_env)
            =? pbkdf2_hmac sample_env "old" (os_urandom sample_env))%string
      with false in H.
    exact H.
Defined.

(** ** Attachments and the sidebar *)

Lemma save_files_rows_length e dir files memo_id seq :
  length (save_files_rows e dir files memo_id seq) = length files.
Proof.
  revert seq. induction files as [|[n c] files IH]; intros seq; cbn; [reflexivity|].
  now rewrite IH.
Qed.

Lemma save_files_rows_ids e dir files memo_id : forall seq r,
  In r (save_files_rows e dir files memo_id seq) ->
  seq < MemoFile.id r /\ MemoFile.memo_id r = memo_id.
Proof.
  induction files as [|[n c] files IH]; intros seq r; cbn [save_files_rows In];
    [tauto|].
  intros [<-|H]; [cbn; split; [lia|reflexivity]|].
  destruct (IH _ _ H) as [H1 H2]. split; [lia|assumption].
Qed.

Lemma save_files_rows_NoDup e dir files memo_id : forall seq,
  List.NoDup (map MemoFile.id (save_files_rows e dir files memo_id seq)).
Proof.
  induction files as [|[n c] files IH]; intros seq; cbn [save_files_rows map];
    constructor; [|apply IH].
  intros Hin. apply in_map_iff in Hin as (r & Hr & Hin).
  apply save_files_rows_ids in Hin as [Hlt _]. cbn in Hr. lia.
Qed.

Lemma save_files_rows_names e dir files memo_id : forall seq,
  map MemoFile.filename (save_files_rows e dir files memo_id seq)
  = map (fun f => Some (fst f)) files.
Proof.
  induction files as [|[n c] files IH]; intros seq; cbn; [reflexivity|].
  now rewrite IH.
Qed.

Lemma NoDup_app_disjoint {A} (l1 l2 : list A) :
  List.NoDup l1 -> List.NoDup l2 -> (forall x, In x l1 -> ~ In x l2) ->
  List.NoDup (l1 ++ l2).
Proof.
  induction l1 as [|x l1 IH]; intros H1 H2 Hd; [exact H2|].
  inversion H1 as [|? ? Hx Hl]; subst. cbn. constructor.
  - rewrite in_app_iff. intros [H|H]; [contradiction|]. apply (Hd x); [now left|assumption].
  - apply IH; auto. intros y Hy. apply Hd. now right.
Qed.

Lemma files_wf_frame db db' :
  (forall m, In m (memos db) -> exists m', In m' (memos db') /\ Memo.id m' = Memo.id m) ->
  memo_files db' = memo_files db ->
  files_wf db -> files_wf db'.
Proof.
  intros Hm Hf [H1 H2]. unfold files_wf. rewrite Hf. split; [|exact H2].
  intros f Hin. destruct (H1 f Hin) as (m & Hmin & Hid).
  destruct (Hm m Hmin) as (m' & Hm' & Hid'). exists m'. split; [assumption|congruence].
Qed.

Lemma save_files_upload e files memo_id db :
  (exists m, In m (memos db) /\ Memo.id m = memo_id) ->
  exists rows,
    save_files e files memo_id db
    = (Ok (map (fun f => (fst f, path_join
                            (path_join (files_dir e)
                               ("memo_" +:+ Text.zfill_d 0 memo_id)) (fst f)))
             files),
       snd (save_files e files memo_id db))
    /\ memo_files (snd (save_files e files memo_id db))
       = (memo_files db ++ rows)%list
    /\ length rows = length files
    /\ map MemoFile.filename rows = map (fun f => Some (fst f)) files
    /\ (forall r, In r rows -> MemoFile.memo_id r = memo_id)
    /\ memos (snd (save_files e files memo_id db)) = memos db.
Proof.
  intros (m & Hm & Hid). unfold save_files.
  destruct files as [|f files].
  - exists []. cbn. rewrite app_nil_r. repeat split; tauto.
  - replace (existsb _ (memos db)) with true.
    2:{ symmetry. apply existsb_exists. exists m. split; [assumption|lia]. }
    cbv zeta. cbn [snd memo_files memos]. eexists. split; [reflexivity|].
    split; [reflexivity|]. split; [apply save_files_rows_length|].
    split; [apply save_files_rows_names|]. split; [|reflexivity].
    intros r Hr. now apply save_files_rows_ids in Hr.
Qed.

Lemma save_files_wf e files memo_id db :
  files_wf db -> files_wf (snd (save_files e files memo_id db)).
Proof.
  intros [H1 H2]. unfold save_files. destruct files as [|f files]; [split; assumption|].
  destruct (existsb _ (memos db)) eqn:Ex; [|split; assumption].
  cbv zeta. cbn [snd]. split; cbn [memo_files memos].
  - intros r Hr. apply in_app_iff in Hr as [Hr|Hr]; [now apply H1|].
    apply save_files_rows_ids in Hr as [_ Hid].
    apply existsb_exists in Ex as (m & Hm & Heq). exists m. split; [assumption|lia].
  - rewrite map_app. apply NoDup_app_disjoint; [assumption|apply save_files_rows_NoDup|].
    intros x Hx Hin. apply in_map_iff in Hin as (r & <- & Hr).
    apply save_files_rows_ids in Hr as [Hlt _].
    pose proof (max_ids_ge (memo_files_seq db) _ _ Hx). lia.
Qed.

Lemma log_action_files_wf e user action memo_id details db db' :
  log_action e user action memo_id details db = Ok db' ->
  files_wf db -> files_wf db'.
Proof.
  intros Hlog.
  destruct (log_action_frame e user action memo_id details db)
    as (db2 & Hlog2 & Hm & _ & _ & _ & Hf & _).
  rewrite Hlog in Hlog2. injection Hlog2 as <-.
  apply files_wf_frame; [|assumption].
  intros m Hin. exists m. rewrite Hm. auto.
Qed.

Lemma insert_memo_files_wf row db :
  files_wf db -> files_wf (snd (insert_memo row db)).
Proof.
  unfold insert_memo.
  destruct (match Memo.control_no row with Some _ => _ | None => _ end);
    [auto|].
  cbv zeta. cbn [snd]. apply files_wf_frame; [|reflexivity].
  intros m Hm. exists m. cbn [memos]. rewrite in_app_iff. auto.
Qed.

Lemma save_memorandum_files_wf e user nmu form db :
  files_wf db -> files_wf (snd (save_memorandum e user nmu form db)).
Proof.
  intros Hwf. unfold save_memorandum.
  destruct (negb _); [assumption|].
  destruct (memo_control_no form) as [ctrl|]; [|assumption].
  destruct (String.eqb ctrl ""); [assumption|].
  destruct (String.eqb (in_subject form) ""); [assumption|].
  destruct (save_memo_for_units _ _ _); [assumption|].
  match goal with |- context [insert_memo ?r db] => set (row := r) end.
  pose proof (insert_memo_files_wf row db Hwf) as H1.
  destruct (insert_memo row db) as [[memo_id|ex] db1]; cbn [snd] in *.
  - pose proof (save_files_wf e (in_files form) memo_id db1 H1) as H2.
    destruct (save_files e (in_files form) memo_id db1) as [[saved|ex] db2];
      cbn [snd] in *.
    + destruct (log_action e user "memo_create" (Some memo_id) _ db2) as [db3|ex] eqn:El;
        cbn [snd]; [|assumption].
      eapply log_action_files_wf; eassumption.
    + destruct ex; assumption.
  - destruct ex; assumption.
Qed.

Lemma press_update_files_wf e user sel_id f db :
  files_wf db -> files_wf (db_after (press_update e user sel_id f db)).
Proof.
  intros Hwf. unfold press_update.
  destruct (List.find _ (memos db)) as [memo|]; [|exact Hwf].
  destruct (can_edit user memo); [|exact Hwf].
  destruct (if role_in _ _ then _ else _) as [|u0 us]; [exact Hwf|].
  destruct (update_memo_row _ _ _ _ _) as [db1|ex] eqn:E.
  - assert (H1 : files_wf db1).
    { unfold update_memo_row in E. destruct (_ && _); [discriminate|].
      injection E as <-. apply (files_wf_frame db); [|reflexivity|assumption].
      intros m Hm. cbn [memos with_memos].
      eexists. split; [apply in_map; exact Hm|].
      cbv beta. now destruct (Memo.id m =? sel_id). }
    destruct (log_action e user "memo_update" (Some sel_id) _ db1) as [db2|ex] eqn:El;
      cbn [db_after]; [|assumption].
    eapply log_action_files_wf; eassumption.
  - destruct ex; exact Hwf.
Qed.

Lemma press_upload_files_wf e user memo files db :
  files_wf db -> files_wf (db_after (press_upload e user memo files db)).
Proof.
  intros Hwf. unfold press_upload. cbv zeta.
  destruct (can_edit user memo); [|exact Hwf].
  pose proof (save_files_wf e files (Memo.id memo) db Hwf) as H1.
  destruct (save_files e files (Memo.id memo) db) as [[saved|ex] db1];
    cbn [snd] in H1; [|exact H1].
  destruct (log_action e user "file_upload" _ _ db1) as [db2|ex] eqn:El;
    cbn [db_after]; [|assumption].
  eapply log_action_files_wf; eassumption.
Qed.

(** X26. Attachment rows keep pointing at stored memos, and keep ids of
    their own, under every write of the two tables: [save_files], "Save
    Memorandum", "Upload New File(s)", "Update", [clear_memo_contents], the
    hard delete with its cascade, and [delete_file]. *)
Theorem attachments_stay_attached (db : memo_db) :
  files_wf db ->
  (forall e files memo_id, files_wf (snd (save_files e files memo_id db)))
  /\ (forall e user new_memo_units form,
        files_wf (snd (save_memorandum e user new_memo_units form db)))
  /\ (forall e user memo add_files,
        files_wf (db_after (press_upload e user memo add_files db)))
  /\ (forall e user sel_id f,
        files_wf (db_after (press_update e user sel_id f db)))
  /\ (forall e memo_id, files_wf (clear_memo_contents e memo_id db))
  /\ (forall sel_id, files_wf (delete_memo_row sel_id db))
  /\ (forall file_id, files_wf (delete_file file_id db)).
Proof.
  intros Hwf.
  split; [intros; now apply save_files_wf|].
  split; [intros; now apply save_memorandum_files_wf|].
  split; [intros; now apply press_upload_files_wf|].
  split; [intros; now apply press_update_files_wf|].
  split; [|split].
  - intros e memo_id. apply (files_wf_frame db); [|reflexivity|assumption].
    intros m Hm. cbn [memos clear_memo_contents].
    eexists. split; [apply in_map; exact Hm|].
    cbv beta. now destruct (Memo.id m =? memo_id).
  - intros sel_id. destruct Hwf as [H1 H2]. unfold delete_memo_row.
    split; cbn [memos memo_files].
    + destruct (existsb _ (memos db)) eqn:Ex.
      * intros f Hf. apply filter_In in Hf as [Hf Hne].
        destruct (H1 f Hf) as (m & Hm & Hid). exists m.
        split; [|assumption]. apply filter_In. split; [assumption|].
        now rewrite Hid.
      * intros f Hf. destruct (H1 f Hf) as (m & Hm & Hid). exists m.
        split; [|assumption]. apply filter_In. split; [assumption|].
        pose proof (existsb_false_forall _ _ Ex m Hm) as Hx. cbn beta in Hx.
        now rewrite Hx.
    + destruct (existsb _ (memos db)); [now apply NoDup_map_filter|assumption].
  - intros file_id. destruct Hwf as [H1 H2]. unfold delete_file.
    split; cbn [memos memo_files].
    + intros f Hf. apply filter_In in Hf as [Hf _]. now apply H1.
    + now apply NoDup_map_filter.
Qed.

(** X27. "Upload New File(s)" on a stored memo: without the right to edit
    nothing happens; with it the page reports the number of files, asks
    for a rerun, and the attachments table gains one row per file, in
    order, each under the file's name and the memo's id, while the memos
    are untouched. *)
Theorem press_upload_spec (e : env) (user : option session_user)
    (memo : Memo.t) (add_files : list (string * string)) (db : memo_db) :
  In memo (memos db) ->
  let run := press_upload e user memo add_files db in
  (can_edit user memo = false -> run = shows [] db)
  /\ (can_edit user memo = true ->
      shown_msgs run
      = [st_success ("Uploaded "
                     +:+ Text.zfill_d 0 (Z.of_nat (length add_files))
                     +:+ " file(s).")]
      /\ wants_rerun run = true /\ raised run = None
      /\ memos (db_after run) = memos db
      /\ exists rows,
           memo_files (db_after run) = (memo_files db ++ rows)%list
           /\ map MemoFile.filename rows
              = map (fun f => Some (fst f)) add_files
           /\ forall r, In r rows -> MemoFile.memo_id r = Memo.id memo).
Proof.
  intros Hin run. subst run. unfold press_upload. cbv zeta.
  split; [now intros ->|]. intros ->.
  destruct (save_files_upload e add_files (Memo.id memo) db)
    as (rows & Hsave & Hfiles & Hlen & Hnames & Hids & Hmemos); [eauto|].
  rewrite Hsave. rewrite length_map.
  match goal with |- context [log_action ?a ?b ?c ?d ?x ?m] =>
    destruct (log_action_frame a b c d x m)
      as (db2 & Hlog & Hm & _ & _ & _ & Hf & _) end.
  rewrite Hlog. cbn [shown_msgs wants_rerun raised db_after].
  repeat (split; [reflexivity|]). split; [congruence|].
  exists rows. rewrite Hf. auto.
Qed.

Lemma role_may_create role :
  role_in role ["user"; "super"; "admin"] = true ->
  is_admin_role role || role_in role ["super"] || role_in role ["user"] = true.
Proof.
  destruct role as [r|]; [|discriminate]. cbn [role_in is_admin_role existsb].
  destruct (r =? "user")%string, (r =? "super")%string, (r =? "admin")%string;
    reflexivity || discriminate.
Qed.

Lemma role_may_manage role :
  role_in role ["super"; "admin"] = true ->
  role_in role ["super"] || is_admin_role role = true
  /\ role_in role ["admin"; "super"] = true.
Proof.
  destruct role as [r|]; [|discriminate]. cbn [role_in is_admin_role existsb].
  destruct (r =? "super")%string, (r =? "admin")%string;
    (split; reflexivity) || discriminate.
Qed.

Lemma role_admin_may_manage role :
  is_admin_role role = true -> role_in role ["admin"; "super"] = true.
Proof.
  destruct role as [r|]; [|discriminate]. cbn [role_in is_admin_role existsb].
  now intros ->.
Qed.

Lemma in_optional_page (b : bool) (name page : string) :
  In page (if b then [name] else []) -> b = true /\ page = name.
Proof. destruct b; cbn; [intros [<-|[]]; auto|intros []]. Qed.

(** X28. Every page the sidebar offers passes the role test at the head of
    that page; a visitor is offered the Auth page only, a signed-in user
    never, and nobody is offered the Categories page. *)
Theorem offered_pages_open (user : option session_user) (page : string) :
  In page (base_pages user) ->
  match user with
  | None => page = "Auth"
  | Some u =>
      page_lets_in page u = true /\ page <> "Auth" /\ page <> "Categories"
  end.
Proof.
  unfold base_pages. destruct user as [u|]; [|cbn [In]; now intros [<-|[]]].
  cbv zeta. rewrite !in_app_iff. cbn [In].
  intros [[<-|[]]|[H|[[<-|[]]|[H|[H|H]]]]];
    try (apply in_optional_page in H as [E ->]).
  - split; [reflexivity|split; discriminate].
  - split; [|split; discriminate].
    unfold page_lets_in. cbv zeta.
    change ("New Memorandum" =? "New Memorandum")%string with true. cbv iota.
    now apply role_may_create.
  - split; [reflexivity|split; discriminate].
  - split; [|split; discriminate].
    unfold page_lets_in. cbv zeta.
    change ("Import / Export" =? "New Memorandum")%string with false.
    change ("Import / Export" =? "Import / Export")%string with true. cbv iota.
    now apply role_may_manage.
  - split; [|split; discriminate].
    unfold page_lets_in. cbv zeta.
    change ("Settings" =? "New Memorandum")%string with false.
    change ("Settings" =? "Import / Export")%string with false.
    change ("Settings" =? "Settings")%string with true. cbv iota.
    now apply role_may_manage.
  - split; [|split; discriminate].
    unfold page_lets_in. cbv zeta.
    change ("Admin" =? "New Memorandum")%string with false.
    change ("Admin" =? "Import / Export")%string with false.
    change ("Admin" =? "Settings")%string with false.
    change ("Admin" =? "Admin")%string with true. cbv iota.
    now apply role_admin_may_manage.
Qed.

Lemma sample_files_wf : files_wf sample_db_files.
Proof.
  split.
  - intros f [<-|[<-|[]]]; exists memo_is_last_year;
      (split; [vm_compute; auto|reflexivity]).
  - vm_compute. repeat constructor; cbn; intuition discriminate.
Qed.

Lemma attachments_stay_attached_witness :
  files_wf sample_db_files
  /\ files_wf (delete_memo_row 2 sample_db_files)
  /\ files_wf (db_after (press_upload sample_env (Some user_of_IS)
                           memo_is_last_year [("c.png", "png")]
                           sample_db_files)).
Proof.
  split; [exact sample_files_wf|].
  destruct (attachments_stay_attached sample_db_files sample_files_wf)
    as (_ & _ & H1 & _ & _ & H2 & _).
  split; [apply H2|apply H1].
Defined.

Lemma press_upload_spec_witness :
  shown_msgs (press_upload sample_env (Some user_of_IS) memo_is_last_year
                [("c.png", "png")] sample_db_files)
  = [st_success "Uploaded 1 file(s)."]
  /\ press_upload sample_env (Some user_of_IS) memo_fiscal_lower
       [("c.png", "png")] sample_db_files
     = shows [] sample_db_files.
Proof.
  assert (H2 : In memo_is_last_year (memos sample_db_files))
    by (vm_compute; auto).
  assert (H1 : In memo_fiscal_lower (memos sample_db_files))
    by (vm_compute; auto).
  split.
  - destruct (press_upload_spec sample_env (Some user_of_IS) memo_is_last_year
                [("c.png", "png")] sample_db_files H2) as (_ & H).
    destruct (H ltac:(vm_compute; reflexivity)) as (Hmsg & _). exact Hmsg.
  - destruct (press_upload_spec sample_env (Some user_of_IS) memo_fiscal_lower
                [("c.png", "png")] sample_db_files H1) as (H & _).
    apply H. vm_compute. reflexivity.
Defined.

Lemma offered_pages_open_witness :
  page_lets_in "Settings" sample_admin = true
  /\ page_lets_in "New Memorandum" user_of_IS = true.
Proof.
  split.
  - apply (offered_pages_open (Some sample_admin) "Settings").
    vm_compute. auto 10.
  - apply (offered_pages_open (Some user_of_IS) "New Memorandum").
    vm_compute. auto.
Defined.

(** ** The suggested control number, in full *)

Lemma zfill2_digits k : 0 <= k < 100 -> Text.zfill_d 2 k = two_digits k.
Proof.
  intros Hk. rewrite <- (Z2Nat.id k) by lia.
  assert (Hn : (Z.to_nat k < 100)%nat) by lia.
  clear Hk. revert Hn. generalize (Z.to_nat k). intros n Hn.
  do 100 (destruct n as [|n]; [vm_compute; reflexivity|]). lia.
Qed.

Lemma zfill3_digits n : 0 <= n < 1000 -> Text.zfill_d 3 n = three_digits n.
Proof.
  intros Hn.
  assert (H : forallb (fun k => String.eqb (Text.zfill_d 3 (Z.of_nat k))
                                  (three_digits (Z.of_nat k)))
                (seq 0 1000) = true) by (vm_compute; reflexivity).
  rewrite forallb_forall in H.
  specialize (H (Z.to_nat n)). rewrite Z2Nat.id in H by lia.
  apply String.eqb_eq, H, in_seq. lia.
Qed.

Lemma yymm_digits dt : yymm dt = two_digits (year dt mod 100).
Proof. apply zfill2_digits, Z.mod_pos_bound. lia. Qed.

Lemma parse_control_sequence_numeral head k n :
  parse_control_sequence
    (head +:+ "-" +:+ Text.zeros k
     +:+ NilEmpty.string_of_uint (N.to_uint n))
  = Some (Z.of_N n).
Proof.
  set (s := Text.zeros k +:+ NilEmpty.string_of_uint (N.to_uint n)).
  assert (Hd : all_digits s = true)
    by (unfold s; rewrite all_digits_app, all_digits_zeros, all_digits_uint;
        reflexivity).
  assert (Hne : s <> "").
  { unfold s. pose proof (to_uint_nonnil n) as Hn.
    destruct k; cbn [Text.zeros]; [|rewrite append_cons; discriminate].
    rewrite append_empty_l.
    destruct (N.to_uint n); [congruence|discriminate..]. }
  unfold parse_control_sequence.
  change (head +:+ "-" +:+ s) with (head +:+ String "-" s).
  rewrite last_split_app, split_digits by auto.
  cbn [Text.last_item List.last].
  rewrite strip_digits by assumption.
  apply int_of_digits; [assumption..|].
  rewrite int_digits_start by assumption. unfold s.
  rewrite int_digits_zeros, int_digits_uint by apply to_uint_nonnil.
  cbn [Z.mul]. rewrite <- of_uint_value.
  change (Pos.of_uint (N.to_uint n)) with (N.of_uint (N.to_uint n)).
  now rewrite DecimalN.Unsigned.of_to.
Qed.

Lemma rstrip_keeps_head c t :
  Text.isspace c = false -> exists r, Text.rstrip (String c t) = String c r.
Proof.
  intros Hc. cbn [Text.rstrip]. rewrite Hc.
  destruct (Text.rstrip t); eauto.
Qed.

Lemma parse_control_sequence_not_numeral head c rest :
  Text.isdigit c = false -> Text.isspace c = false ->
  c <> "+"%char -> c <> "-"%char -> ~ occurs "-" rest ->
  parse_control_sequence (head +:+ "-" +:+ String c rest) = None.
Proof.
  intros Hd Hs Hplus Hminus Hrest. unfold parse_control_sequence.
  change (head +:+ "-" +:+ String c rest)
    with (head +:+ String "-" (String c rest)).
  rewrite last_split_app, split_no_sep.
  2:{ cbn [occurs]. intros [H|H]; [now apply Hminus|contradiction]. }
  cbn [Text.last_item List.last]. unfold Text.int. rewrite strip_idem.
  unfold Text.strip. rewrite lstrip_fixed by assumption.
  destruct (rstrip_keeps_head c rest Hs) as [r ->].
  assert (H : Text.int_digits 0 true (String c r) = None).
  { cbn [Text.int_digits]. rewrite Hd. now destruct (Ascii.eqb c "_"). }
  destruct c as [[] [] [] [] [] [] [] []]; try exact H;
    exfalso; (now apply Hplus) || (now apply Hminus).
Qed.

Lemma parse_control_sequence_empty head :
  parse_control_sequence (head +:+ "-") = None.
Proof.
  unfold parse_control_sequence.
  change (head +:+ "-") with (head +:+ String "-" "").
  rewrite last_split_app. reflexivity.
Qed.

(** C1. For every prefix and every state of the [memos] table,
    [next_control_no] returns [prefix], a blank, the two-digit current
    year, a dash and [seq] padded with zeros to three digits, where [seq]
    is one more than the largest sequence number read from the control
    numbers that the filter [LIKE '{prefix} {YY}-%'] keeps.  The year part
    is the two decimal digits of the year modulo 100, a sequence number
    below 1000 is written with its three decimal digits, and the result
    reads back as that sequence number.  The numbers read are
    those of the rows whose last dash-separated piece [int()] accepts (the
    others are skipped): a piece made of zeros and a decimal numeral reads
    as that number, an empty piece and a piece that starts with a character
    other than a digit, a blank or a sign are not read.  The numbers read
    are never negative, so the largest is 0 when there is none, and it is
    one of them otherwise.  With no kept row the result ends in [-001].
    The rows that count are those the LIKE keeps, which need not begin
    with the prefix as it is written. *)
Theorem next_control_no_spec (e : env) (prefix : string) (db : memo_db) :
  let yy := yymm (now e) in
  let rows := matching_control_nos (prefix +:+ " " +:+ yy +:+ "-%") db in
  let seqs := omap parse_control_sequence rows in
  next_control_no e prefix db
    = prefix +:+ " " +:+ yy +:+ "-" +:+ Text.zfill_d 3 (max_seq seqs + 1)
  /\ String.length yy = 2%nat
  /\ (forall cn, In cn rows <->
        exists m, In m (memos db) /\ Memo.control_no m = Some cn
                  /\ Text.like (prefix +:+ " " +:+ yy +:+ "-%") cn = true)
  /\ (forall n, In n seqs <->
        exists cn, In cn rows /\ parse_control_sequence cn = Some n)
  /\ Forall (fun n => 0 <= n <= max_seq seqs) seqs
  /\ (seqs <> [] -> In (max_seq seqs) seqs)
  /\ (rows = [] ->
      next_control_no e prefix db = prefix +:+ " " +:+ yy +:+ "-001")
  /\ yy = two_digits (year (now e) mod 100)
  /\ (forall n, 0 <= n < 1000 -> Text.zfill_d 3 n = three_digits n)
  /\ parse_control_sequence (next_control_no e prefix db)
     = Some (max_seq seqs + 1)
  /\ (forall cn,
        parse_control_sequence cn
        = Text.int (Text.strip (Text.last_item (Text.split "-" cn))))
  /\ (forall head k n,
        parse_control_sequence
          (head +:+ "-" +:+ Text.zeros k
           +:+ NilEmpty.string_of_uint (N.to_uint n))
        = Some (Z.of_N n))
  /\ (forall head, parse_control_sequence (head +:+ "-") = None)
  /\ (forall head c rest,
        Text.isdigit c = false -> Text.isspace c = false ->
        c <> "+"%char -> c <> "-"%char -> ~ occurs "-" rest ->
        parse_control_sequence (head +:+ "-" +:+ String c rest) = None).
Proof.
  intros yy rows seqs.
  assert (Hnn : Forall (fun n => 0 <= n) seqs).
  { apply List.Forall_forall. intros n Hn.
    apply list_elem_of_In, list_elem_of_omap in Hn as (cn & _ & Hcn).
    eapply parse_control_sequence_nonneg, Hcn. }
  assert (Hres : next_control_no e prefix db
    = prefix +:+ " " +:+ yy +:+ "-" +:+ Text.zfill_d 3 (max_seq seqs + 1)).
  { unfold next_control_no, select_control_no_like. fold yy. fold rows.
    rewrite fold_bump_last_seq by lia.
    rewrite (max_seq_perm _ seqs).
    - pose proof (max_seq_nonneg seqs). now rewrite Z.max_r by lia.
    - apply omap_Permutation, order_by_perm. }
  split; [exact Hres|].
  split; [apply yymm_two_digits|].
  split.
  { intros cn. unfold rows, matching_control_nos.
    rewrite <- list_elem_of_In, list_elem_of_omap.
    split.
    - intros (m & Hm & Hf). exists m. rewrite <- list_elem_of_In.
      destruct (Memo.control_no m) as [cn'|]; [|discriminate].
      destruct (Text.like _ cn') eqn:Hl; [|discriminate].
      injection Hf as ->. auto.
    - intros (m & Hm & Hcn & Hl). exists m. rewrite list_elem_of_In.
      split; [assumption|]. now rewrite Hcn, Hl. }
  split.
  { intros n. unfold seqs. rewrite <- list_elem_of_In, list_elem_of_omap.
    split; intros (cn & Hcn & Hp); exists cn;
      [rewrite <- list_elem_of_In|rewrite list_elem_of_In]; auto. }
  split.
  { pose proof (max_seq_upper seqs) as Hup.
    rewrite List.Forall_forall in *. intros n Hn. split; auto. }
  split; [apply max_seq_attained; assumption|].
  split; [intros Hrows; rewrite Hres; unfold seqs; rewrite Hrows; reflexivity|].
  split; [apply yymm_digits|].
  split; [apply zfill3_digits|].
  split; [apply next_control_no_parsed|].
  split; [reflexivity|].
  split; [apply parse_control_sequence_numeral|].
  split; [apply parse_control_sequence_empty|].
  apply parse_control_sequence_not_numeral.
Qed.

Lemma next_control_no_spec_witness :
  next_control_no sample_env "MEMO" sample_db = "MEMO 25-003"
  /\ yymm (now sample_env) = "25"
  /\ parse_control_sequence "MEMO 25-002" = Some 2
  /\ parse_control_sequence "MEMO 25-draft" = None.
Proof.
  pose proof (next_control_no_spec sample_env "MEMO" sample_db)
    as (Hres & _ & _ & _ & _ & _ & _ & Hyy & _ & _ & _ & Hnum & _ & Hnot).
  split; [rewrite Hres; vm_compute; reflexivity|].
  split; [rewrite Hyy; vm_compute; reflexivity|].
  split.
  - exact (Hnum "MEMO 25" 2%nat 2%N).
  - apply (Hnot "MEMO 25" "d"%char "raft"); try reflexivity; try discriminate.
    cbn. intuition discriminate.
Defined.

(** The rows that count are those the LIKE of the query keeps, not those
    that begin with the prefix, a blank, the year and a dash: no stored
    control number begins with "memo 25-" or with "M_MO 25-", yet for these
    prefixes the sequence continues the MEMO series instead of starting at
    001. *)
Lemma next_control_no_counterexample :
  (forall m cn, In m (memos sample_db) -> Memo.control_no m = Some cn ->
                String.prefix "memo 25-" cn = false
                /\ String.prefix "M_MO 25-" cn = false)
  /\ yymm (now sample_env) = "25"
  /\ next_control_no sample_env "memo" sample_db = "memo 25-003"
  /\ next_control_no sample_env "M_MO" sample_db = "M_MO 25-003"
  /\ next_control_no sample_env "memo" sample_db <> "memo 25-001"
  /\ next_control_no sample_env "M_MO" sample_db <> "M_MO 25-001".
Proof.
  split.
  { intros m cn [<-|[<-|[<-|[]]]] [= <-]; split; reflexivity. }
  repeat split; try (vm_compute; reflexivity); vm_compute; discriminate.
Qed.
